(** * Dialogue-orchestration core of the SMS assistant: a shallow embedding

    The development follows the JavaScript sources:
    - [models/Message], [models/User], [models/RemainingMessage]
      (Mongoose schemas with their statics, methods and validators),
    - [services/ai/router.service] (provider selection and fallback),
    - [services/ai/openai.service] and [services/ingest/audioInbound.service]
      (transcription of audio attachments),
    - [services/comms/twilio.service] (the TwiML reply),
    - [services/payment/stripe.service],
    - [controllers/sms.controller] and [controllers/payment.controller].

    Collections are lists of documents in insertion order.  Asynchronous code
    is sequential inside one request, so it is written in a state-and-exception
    monad over a [World] that holds the three collections, the clock, the
    replies written to the HTTP response, the scheduled timers and the logs of
    the calls made to external providers.  External providers are oracles of an
    environment [Env]. *)

From Stdlib Require Import String Ascii List ZArith Lia Bool Arith.
From Stdlib Require Import DecimalString Sorting.Sorted.
Import ListNotations.

Local Open Scope string_scope.
Local Open Scope Z_scope.

(** ** JavaScript strings

    A JavaScript string is a sequence of code units.  The model keeps the code
    units below 256, one [ascii] each, so [String.length] is [.length]. *)
Module JsString.

(** White space and line terminators removed by [trim] and matched by the
    regular-expression class [\s], among the code units below 256. *)
Definition is_space (c : ascii) : bool :=
  let n := nat_of_ascii c in
  ((9 <=? n)%nat && (n <=? 13)%nat) || (n =? 32)%nat || (n =? 160)%nat.

Definition is_digit (c : ascii) : bool :=
  let n := nat_of_ascii c in (48 <=? n)%nat && (n <=? 57)%nat.

Definition is_empty (s : string) : bool :=
  match s with EmptyString => true | String _ _ => false end.

Fixpoint trimStart (s : string) : string :=
  match s with
  | EmptyString => EmptyString
  | String c r => if is_space c then trimStart r else s
  end.

Fixpoint trimEnd (s : string) : string :=
  match s with
  | EmptyString => EmptyString
  | String c r =>
      let r' := trimEnd r in
      if is_space c && is_empty r' then EmptyString else String c r'
  end.

Definition trim (s : string) : string := trimEnd (trimStart s).

Definition lower_char (c : ascii) : ascii :=
  let n := nat_of_ascii c in
  if ((65 <=? n)%nat && (n <=? 90)%nat)
     || ((192 <=? n)%nat && (n <=? 222)%nat && negb (n =? 215)%nat)
  then ascii_of_nat (n + 32) else c.

Fixpoint toLowerCase (s : string) : string :=
  match s with
  | EmptyString => EmptyString
  | String c r => String (lower_char c) (toLowerCase r)
  end.

(** [hay.includes(needle)] *)
Fixpoint includes (needle hay : string) : bool :=
  prefix needle hay
  || match hay with
     | EmptyString => false
     | String _ r => includes needle r
     end.

(** Index arguments of [substring] are clamped to [0 .. length]. *)
Definition clamp (i : Z) (len : nat) : nat := Nat.min (Z.to_nat i) len.

(** [s.substring(a, b)]: the arguments are clamped, and swapped when [a > b]. *)
Definition substring2 (s : string) (a b : Z) : string :=
  let a' := clamp a (String.length s) in
  let b' := clamp b (String.length s) in
  substring (Nat.min a' b') (Nat.max a' b' - Nat.min a' b') s.

(** [s.substring(a)] *)
Definition substring1 (s : string) (a : Z) : string :=
  let a' := clamp a (String.length s) in
  substring a' (String.length s - a') s.

(** Template-literal rendering of an integer Number. *)
Definition of_number (z : Z) : string := NilZero.string_of_int (Z.to_int z).

(** A string is truthy when it is not empty. *)
Definition truthy (s : string) : bool := negb (is_empty s).

Fixpoint forallb_string (p : ascii -> bool) (s : string) : bool :=
  match s with
  | EmptyString => true
  | String c r => p c && forallb_string p r
  end.

(** [n] copies of the one-character string [c]. *)
Fixpoint replicate (n : nat) (c : ascii) : string :=
  match n with
  | O => EmptyString
  | S k => String c (replicate k c)
  end.

End JsString.

(** ** Fields of a request body

    A field that the handlers use as a number arrives as a number when the
    body is JSON and as a string when it is JSON with a quoted value or a
    form.  Numbers are whole and below [10^21] in absolute value, where
    [parseInt] of a number is the number itself; fractions, booleans, [null],
    arrays and objects are left out. *)
Inductive JsonValue : Type :=
| JNumber (n : Z)
| JString (s : string).

Coercion JNumber : Z >-> JsonValue.

Module JsValue.

Definition is_hex_digit (c : ascii) : bool :=
  let n := nat_of_ascii c in
  JsString.is_digit c
  || ((65 <=? n)%nat && (n <=? 70)%nat) || ((97 <=? n)%nat && (n <=? 102)%nat).

Definition is_octal_digit (c : ascii) : bool :=
  let n := nat_of_ascii c in (48 <=? n)%nat && (n <=? 55)%nat.

Definition is_binary_digit (c : ascii) : bool :=
  let n := nat_of_ascii c in (48 <=? n)%nat && (n <=? 49)%nat.

(** The value of a digit, decimal or hexadecimal *)
Definition digit_value (c : ascii) : Z :=
  let n := Z.of_nat (nat_of_ascii c) in
  if JsString.is_digit c then n - 48
  else if 97 <=? n then n - 87
  else n - 55.

(** The longest prefix of [s] whose characters satisfy [p], and what follows *)
Fixpoint span (p : ascii -> bool) (s : string) : string * string :=
  match s with
  | EmptyString => (EmptyString, EmptyString)
  | String c r =>
      if p c then let (taken, rest) := span p r in (String c taken, rest)
      else (EmptyString, s)
  end.

Fixpoint digits_value (radix acc : Z) (digits : string) : Z :=
  match digits with
  | EmptyString => acc
  | String c r => digits_value radix (acc * radix + digit_value c) r
  end.

(** An optional sign: whether it is a minus, and what follows *)
Definition strip_sign (s : string) : bool * string :=
  match s with
  | EmptyString => (false, s)
  | String c r =>
      if Ascii.eqb c "-" then (true, r)
      else if Ascii.eqb c "+" then (false, r)
      else (false, s)
  end.

Definition signed (negative : bool) (magnitude : Z) : Z :=
  if negative then - magnitude else magnitude.

(** [parseInt(s)] without a radix: leading white space, an optional sign, an
    optional [0x], then the longest run of digits; [None] stands for [NaN].
    The result is the exact integer. *)
Definition parseInt_string (s : string) : option Z :=
  let (negative, body) := strip_sign (JsString.trimStart s) in
  let hexadecimal :=
    match body with
    | String z (String x _) =>
        Ascii.eqb z "0" && (Ascii.eqb x "x" || Ascii.eqb x "X")
    | _ => false
    end in
  let digits :=
    if hexadecimal then fst (span is_hex_digit (JsString.substring1 body 2))
    else fst (span JsString.is_digit body) in
  if JsString.is_empty digits then None
  else Some (signed negative (digits_value (if hexadecimal then 16 else 10) 0 digits)).

(** What a comparison with zero sees of a Number *)
Inductive NumberClass : Type := NotANumber | AtMostZero | AboveZero.

Definition all_zeros (digits : string) : bool :=
  JsString.forallb_string (fun c => Ascii.eqb c "0") digits.

(** A positive decimal [mantissa * 10^exponent] is read as the double 0 when it
    is at most [2^-1075], half the least positive double. *)
Definition rounds_to_zero (mantissa exponent : Z) : bool :=
  (exponent <? 0) && (mantissa * 2 ^ 1075 <=? 10 ^ (- exponent)).

Definition classify_decimal (negative : bool) (int_digits frac_digits : string)
           (exponent : Z) : NumberClass :=
  let digits := int_digits ++ frac_digits in
  if negative then AtMostZero
  else if all_zeros digits then AtMostZero
  else if rounds_to_zero (digits_value 10 0 digits)
                         (exponent - Z.of_nat (String.length frac_digits))
       then AtMostZero
       else AboveZero.

(** The exponent part of a decimal literal, which must end the literal *)
Definition exponent_part (s : string) : option Z :=
  match s with
  | EmptyString => Some 0
  | String c r =>
      if Ascii.eqb c "e" || Ascii.eqb c "E" then
        let (negative, r1) := strip_sign r in
        let (digits, rest) := span JsString.is_digit r1 in
        if JsString.is_empty digits || negb (JsString.is_empty rest) then None
        else Some (signed negative (digits_value 10 0 digits))
      else None
  end.

(** [Infinity], or digits with an optional fraction and exponent *)
Definition unsigned_decimal (negative : bool) (s : string) : NumberClass :=
  if String.eqb s "Infinity" then (if negative then AtMostZero else AboveZero)
  else
    let (int_digits, r1) := span JsString.is_digit s in
    let (frac_digits, r2) :=
      match r1 with
      | String c r => if Ascii.eqb c "." then span JsString.is_digit r
                      else (EmptyString, r1)
      | EmptyString => (EmptyString, r1)
      end in
    if JsString.is_empty int_digits && JsString.is_empty frac_digits then NotANumber
    else match exponent_part r2 with
         | Some exponent => classify_decimal negative int_digits frac_digits exponent
         | None => NotANumber
         end.

(** A literal in base 16, 8 or 2, which takes no sign; [None] when the text
    has no such prefix *)
Definition non_decimal (s : string) : option NumberClass :=
  match s with
  | String z (String x r) =>
      let digit :=
        if Ascii.eqb x "x" || Ascii.eqb x "X" then Some is_hex_digit
        else if Ascii.eqb x "o" || Ascii.eqb x "O" then Some is_octal_digit
        else if Ascii.eqb x "b" || Ascii.eqb x "B" then Some is_binary_digit
        else None in
      match digit with
      | Some p =>
          if Ascii.eqb z "0" then
            Some (if JsString.is_empty r || negb (JsString.forallb_string p r)
                  then NotANumber
                  else if all_zeros r then AtMostZero else AboveZero)
          else None
      | None => None
      end
  | _ => None
  end.

(** The Number that a string converts to, as a comparison with zero sees it:
    white space around the literal is dropped and the empty text is 0. *)
Definition StringToNumber (s : string) : NumberClass :=
  let text := JsString.trim s in
  if JsString.is_empty text then AtMostZero
  else match non_decimal text with
       | Some class => class
       | None => let (negative, body) := strip_sign text in
                 unsigned_decimal negative body
       end.

(** [!!v] *)
Definition truthy (v : JsonValue) : bool :=
  match v with
  | JNumber n => negb (n =? 0)
  | JString s => JsString.truthy s
  end.

(** [v <= 0]: false when [v] converts to [NaN] *)
Definition le_zero (v : JsonValue) : bool :=
  match v with
  | JNumber n => n <=? 0
  | JString s => match StringToNumber s with AtMostZero => true | _ => false end
  end.

(** [parseInt(v)] *)
Definition parseInt (v : JsonValue) : option Z :=
  match v with
  | JNumber n => Some n
  | JString s => parseInt_string s
  end.

End JsValue.

(** ** Exceptions *)

Inductive ErrorClass : Type :=
| PlainError
| ValidationError
| CastError
| DuplicateKeyError
| BadRequestError
| ServiceUnavailableError.

Record JsError : Type := mkError { err_class : ErrorClass; err_message : string }.

Inductive Res (A : Type) : Type :=
| Ok (a : A)
| Throw (e : JsError).
Arguments Ok {A} a.
Arguments Throw {A} e.

Definition is_ok {A} (r : Res A) : bool :=
  match r with Ok _ => true | Throw _ => false end.

(** Mongoose validates every path, keeps the first failing validator of each,
    and throws one [ValidationError] whose message lists the failing paths:
    [<Model> validation failed: <path>: <message>, ...]. *)
Fixpoint join_failures (failures : list (string * string)) : string :=
  match failures with
  | [] => EmptyString
  | [(path, msg)] => path ++ ": " ++ msg
  | (path, msg) :: rest => path ++ ": " ++ msg ++ ", " ++ join_failures rest
  end.

Definition validation_result (model : string) (failures : list (string * string))
  : Res unit :=
  match failures with
  | [] => Ok tt
  | _ => Throw (mkError ValidationError
                        (model ++ " validation failed: " ++ join_failures failures))
  end.

(** ** Queries shared by the three models *)

(** Mongoose applies the [trim] setter of a String path to the values written
    to it and to the values it is compared with in a query filter, so every
    collection is keyed by the trimmed phone identifier. *)
Definition phone_key (phoneNumber : string) : string := JsString.trim phoneNumber.

(** [.sort(...)]: a stable insertion sort, ties keep insertion order. *)
Fixpoint insert_sorted {A} (before : A -> A -> bool) (x : A) (l : list A) : list A :=
  match l with
  | [] => [x]
  | y :: r => if before x y then x :: l else y :: insert_sorted before x r
  end.

Definition sort_by {A} (before : A -> A -> bool) (l : list A) : list A :=
  fold_right (insert_sorted before) [] l.

(** [.limit(n)]: a limit of zero means no limit. *)
Definition limit_ {A} (n : nat) (l : list A) : list A :=
  match n with
  | O => l
  | _ => firstn n l
  end.

(** ** models/Message *)
Module Message.

Inductive Role : Type := RoleUser | RoleAssistant | RoleSystem.
Inductive Kind : Type := KindText | KindAudio | KindImage.

Record doc : Type := mkDoc {
  phone : string;
  role : Role;
  content : string;
  messageType : Kind;
  createdAt : Z
}.

Definition collection : Type := list doc.

(** The result of [.select("role content createdAt").lean()] *)
Record row : Type := mkRow {
  row_role : Role;
  row_content : string;
  row_createdAt : Z
}.

Definition select (d : doc) : row :=
  {| row_role := role d; row_content := content d; row_createdAt := createdAt d |}.

Definition role_eqb (a b : Role) : bool :=
  match a, b with
  | RoleUser, RoleUser | RoleAssistant, RoleAssistant | RoleSystem, RoleSystem => true
  | _, _ => false
  end.

Definition of_phone (phoneNumber : string) (d : doc) : bool :=
  String.eqb (phone d) (phone_key phoneNumber).

Definition asc (a b : doc) : bool := createdAt a <=? createdAt b.
Definition desc (a b : doc) : bool := createdAt b <=? createdAt a.

(** Schema validators, then the pre-save hook on the content length. *)
Definition validate (d : doc) : Res unit :=
  validation_result "Message"
    ((if JsString.is_empty (phone d) then [("phone", "Phone number is required")] else [])
     ++ (if JsString.is_empty (content d) then
           [("content", "Message content is required")]
         else if (2000 <? String.length (content d))%nat then
           [("content", "Message content cannot exceed 2000 characters")]
         else []))%list.

(** [Message.create({ phone, role, content })] *)
Definition create (now : Z) (phoneNumber : string) (r : Role) (text : string)
           (c : collection) : Res doc * collection :=
  let d := {| phone := phone_key phoneNumber;
              role := r;
              content := JsString.trim text;
              messageType := KindText;
              createdAt := now |} in
  match validate d with
  | Ok _ => (Ok d, (c ++ [d])%list)
  | Throw e => (Throw e, c)
  end.

(** [find({ phone }).sort({ createdAt: 1 }).limit(limit).select(...).lean()] *)
Definition getConversationHistory (c : collection) (phoneNumber : string)
           (limit : nat) : list row :=
  map select (limit_ limit (sort_by asc (filter (of_phone phoneNumber) c))).

(** [find({ phone }).sort({ createdAt: -1 }).limit(limit).select(...).lean()] *)
Definition getRecentMessages (c : collection) (phoneNumber : string)
           (limit : nat) : list row :=
  map select (limit_ limit (sort_by desc (filter (of_phone phoneNumber) c))).

(** [deleteMany({ phone })] *)
Definition deleteUserMessages (c : collection) (phoneNumber : string) : collection :=
  filter (fun d => negb (of_phone phoneNumber d)) c.

End Message.

(** ** models/User *)
Module User.

Record doc : Type := mkDoc {
  phNo : string;
  blance : Z;
  smsSent : Z;
  isActive : bool;
  lastActivity : Z;
  createdAt : Z;
  updatedAt : Z
}.

Definition collection : Type := list doc.

Definition phone_class (c : ascii) : bool :=
  JsString.is_digit c || JsString.is_space c
  || Ascii.eqb c "-" || Ascii.eqb c "(" || Ascii.eqb c ")".

(** The validator of [phNo]: the regular expression
    [^\+?[\d\s\-\(\)]+$]. *)
Definition phone_regex_test (v : string) : bool :=
  let body := match v with
              | String c r => if Ascii.eqb c "+" then r else v
              | EmptyString => v
              end in
  negb (JsString.is_empty body) && JsString.forallb_string phone_class body.

Definition validate (d : doc) : Res unit :=
  validation_result "User"
    ((if JsString.is_empty (phNo d) then [("phNo", "Phone number is required")]
      else if negb (phone_regex_test (phNo d)) then
        [("phNo", "Invalid phone number format")]
      else [])
     ++ (if blance d <? 0 then [("blance", "Balance cannot be negative")] else [])
     ++ (if smsSent d <? 0 then [("smsSent", "SMS count cannot be negative")] else []))%list.

Definition has_phNo (phoneNumber : string) (d : doc) : bool :=
  String.eqb (phNo d) (phone_key phoneNumber).

(** [User.findOne({ phNo })] *)
Definition findOne (c : collection) (phoneNumber : string) : option doc :=
  find (has_phNo phoneNumber) c.

(** [User.create({ phNo, blance, smsSent })]: defaults, validation, then the
    unique index on [phNo]. *)
Definition create (now : Z) (phoneNumber : string) (credits sent : Z)
           (c : collection) : Res doc * collection :=
  let d := {| phNo := phone_key phoneNumber;
              blance := credits;
              smsSent := sent;
              isActive := true;
              lastActivity := now;
              createdAt := now;
              updatedAt := now |} in
  match validate d with
  | Throw e => (Throw e, c)
  | Ok _ =>
      match findOne c phoneNumber with
      | Some _ => (Throw (mkError DuplicateKeyError "E11000 duplicate key error"), c)
      | None => (Ok d, (c ++ [d])%list)
      end
  end.

(** The message of the error that Mongoose raises when [NaN] is cast to the
    Number path [blance] (its wording varies with the version of the library) *)
Definition blance_cast_failed : string :=
  let quote := String (ascii_of_nat 34) EmptyString in
  "Cast to Number failed for value " ++ quote ++ "NaN" ++ quote
  ++ " (type number) at path " ++ quote ++ "blance" ++ quote.

(** [User.create({ phNo, blance: NaN, smsSent })]: the cast of [blance] fails
    when the document is built, validation reports it together with the
    failures of [phNo], and nothing is stored. *)
Definition create_NaN_blance (phoneNumber : string) : JsError :=
  mkError ValidationError
    ("User validation failed: "
     ++ join_failures
          (("blance", blance_cast_failed)
           :: (if JsString.is_empty (phone_key phoneNumber)
               then [("phNo", "Phone number is required")]
               else if negb (phone_regex_test (phone_key phoneNumber))
                    then [("phNo", "Invalid phone number format")]
                    else []))).

(** [User.findOneAndUpdate({ phNo }, { blance: NaN, ... })]: the update is
    cast before it is sent, and the cast of [NaN] fails. *)
Definition update_NaN_blance : JsError := mkError CastError blance_cast_failed.

(** [userSchema.methods.canSendSMS] *)
Definition canSendSMS (d : doc) : bool := (0 <? blance d) && isActive d.

(** [userSchema.methods.consumeCredit], on the in-memory document *)
Definition consumeCredit (now : Z) (d : doc) : bool * doc :=
  if 0 <? blance d then
    (true, {| phNo := phNo d;
              blance := blance d - 1;
              smsSent := smsSent d + 1;
              isActive := isActive d;
              lastActivity := now;
              createdAt := createdAt d;
              updatedAt := updatedAt d |})
  else (false, d).

(** [userSchema.methods.addCredits] *)
Definition addCredits (now : Z) (amount : Z) (d : doc) : bool * doc :=
  if 0 <? amount then
    (true, {| phNo := phNo d;
              blance := blance d + amount;
              smsSent := smsSent d;
              isActive := isActive d;
              lastActivity := lastActivity d;
              createdAt := createdAt d;
              updatedAt := now |})
  else (false, d).

Definition replace (d : doc) (c : collection) : collection :=
  map (fun x => if String.eqb (phNo x) (phNo d) then d else x) c.

(** [user.save()]: the pre-save hook stamps [updatedAt], the validators run,
    and the stored document is replaced. *)
Definition save (now : Z) (d : doc) (c : collection) : Res doc * collection :=
  let d' := {| phNo := phNo d;
               blance := blance d;
               smsSent := smsSent d;
               isActive := isActive d;
               lastActivity := lastActivity d;
               createdAt := createdAt d;
               updatedAt := now |} in
  match validate d' with
  | Throw e => (Throw e, c)
  | Ok _ => (Ok d', replace d' c)
  end.

(** [User.findOneAndUpdate({ phNo }, { blance, smsSent: 0, lastActivity },
    { new: true })]: only the first match is updated, and update validators
    are off. *)
Fixpoint findOneAndUpdate (now : Z) (phoneNumber : string) (newBlance : Z)
         (c : collection) : option doc * collection :=
  match c with
  | [] => (None, [])
  | d :: r =>
      if has_phNo phoneNumber d then
        let d' := {| phNo := phNo d;
                     blance := newBlance;
                     smsSent := 0;
                     isActive := isActive d;
                     lastActivity := now;
                     createdAt := createdAt d;
                     updatedAt := now |} in
        (Some d', d' :: r)
      else
        let (o, r') := findOneAndUpdate now phoneNumber newBlance r in
        (o, d :: r')
  end.

(** [User.deleteOne({ phNo })] *)
Fixpoint deleteOne (phoneNumber : string) (c : collection) : collection :=
  match c with
  | [] => []
  | d :: r => if has_phNo phoneNumber d then r else d :: deleteOne phoneNumber r
  end.

(** The virtual [remainingCredits] *)
Definition remainingCredits (d : doc) : Z := Z.max 0 (blance d).

(** The virtual [creditStatus] *)
Definition creditStatus (d : doc) : string :=
  if blance d <=? 0 then "exhausted"
  else if blance d <=? 2 then "low"
  else if blance d <=? 10 then "warning"
  else "good".

(** [userSchema.statics.findOrCreate] *)
Definition findOrCreate (now : Z) (phoneNumber : string) (initialCredits : Z)
           (c : collection) : Res doc * collection :=
  match findOne c phoneNumber with
  | Some user => (Ok user, c)
  | None => create now phoneNumber initialCredits 0 c
  end.

End User.

(** ** models/RemainingMessage *)
Module RemainingMessage.

Record doc : Type := mkDoc {
  phone : string;
  content : string;
  originalMessageId : option nat;
  messageIndex : Z;
  totalParts : Z;
  expiresAt : Z;
  createdAt : Z
}.

Definition collection : Type := list doc.

(** Twenty-four hours, in milliseconds *)
Definition ttl : Z := 24 * 60 * 60 * 1000.

Definition of_phone (phoneNumber : string) (d : doc) : bool :=
  String.eqb (phone d) (phone_key phoneNumber).

(** The filter [expiresAt: { $gt: new Date() }] *)
Definition unexpired (now : Z) (d : doc) : bool := now <? expiresAt d.

Definition newest_first (a b : doc) : bool := createdAt b <=? createdAt a.
Definition highest_index_first (a b : doc) : bool := messageIndex b <=? messageIndex a.

(** [findOne({ phone, expiresAt: { $gt: new Date() } }).sort({ createdAt: -1 })] *)
Definition getLatestRemainingMessage (now : Z) (c : collection)
           (phoneNumber : string) : option doc :=
  hd_error (sort_by newest_first
              (filter (fun d => of_phone phoneNumber d && unexpired now d) c)).

(** [find({ phone, expiresAt: { $gt: new Date() } }).sort({ createdAt: -1 })] *)
Definition getUserRemainingMessages (now : Z) (c : collection)
           (phoneNumber : string) : list doc :=
  sort_by newest_first (filter (fun d => of_phone phoneNumber d && unexpired now d) c).

(** [deleteMany({ expiresAt: { $lt: new Date() } })] *)
Definition cleanupExpired (now : Z) (c : collection) : collection :=
  filter (fun d => negb (expiresAt d <? now)) c.

(** [deleteMany({ phone })] *)
Definition deleteMany (phoneNumber : string) (c : collection) : collection :=
  filter (fun d => negb (of_phone phoneNumber d)) c.

(** Schema validators and the two pre-save hooks. *)
Definition validate (d : doc) : Res unit :=
  validation_result "RemainingMessage"
    ((if JsString.is_empty (phone d) then [("phone", "Phone number is required")] else [])
     ++ (if JsString.is_empty (content d) then
           [("content", "Remaining content is required")]
         else []))%list.

(** [this.create({ phone, content, originalMessageId, messageIndex, totalParts })] *)
Definition create (now : Z) (phoneNumber text : string) (orig : option nat)
           (index parts : Z) (c : collection) : Res doc * collection :=
  let d := {| phone := phone_key phoneNumber;
              content := JsString.trim text;
              originalMessageId := orig;
              messageIndex := index;
              totalParts := if parts <? index then index else parts;
              expiresAt := now + ttl;
              createdAt := now |} in
  match validate d with
  | Ok _ => (Ok d, (c ++ [d])%list)
  | Throw e => (Throw e, c)
  end.

(** [remainingMessageSchema.statics.createRemainingMessage] *)
Definition createRemainingMessage (now : Z) (phoneNumber text : string)
           (orig : option nat) (c : collection) : Res doc * collection :=
  let latestMessage :=
    hd_error (sort_by highest_index_first (filter (of_phone phoneNumber) c)) in
  let index := match latestMessage with
               | Some m => messageIndex m + 1
               | None => 1
               end in
  create now phoneNumber text orig index index c.

(** The virtual [isExpired] and the method [isValid] *)
Definition isExpired (now : Z) (d : doc) : bool := expiresAt d <? now.
Definition isValid (now : Z) (d : doc) : bool := negb (isExpired now d).

End RemainingMessage.

(** ** The world of one server process *)

(** One entry of the history handed to a generation provider *)
Record HistoryEntry : Type := mkEntry {
  entry_role : Message.Role;
  entry_content : string
}.

(** The routing options; only [provider] is read by the router. *)
Record Options : Type := mkOptions { provider : option string }.

(** [options = {}] *)
Definition no_options : Options := {| provider := None |}.

(** A call of [grokService.getConversationalResponse] *)
Record GrokCall : Type := mkGrokCall {
  call_message : string;
  call_history : list HistoryEntry;
  call_options : Options
}.

(** A request posted to the transcription API *)
Record WhisperCall : Type := mkWhisperCall {
  call_bytes : Z;
  call_filename : string;
  call_mime : string
}.

(** What an HTTP POST to a provider comes back with *)
Inductive PostOutcome : Type :=
| PostText (text : string)      (* a well-formed body carrying this text *)
| PostMalformed                 (* a 2xx answer without the expected fields *)
| PostStatus (status : Z)       (* an error status *)
| PostNoResponse                (* the request was sent, nothing came back *)
| PostSetupError.               (* the request could not be sent *)

(** A downloaded attachment; only its size is ever inspected. *)
Record Buffer : Type := mkBuffer { buffer_length : Z }.

(** The external collaborators.  Each oracle receives the number of calls made
    to it so far, so two calls with the same arguments may differ. *)
Record Env : Type := mkEnv {
  grok_post : nat -> GrokCall -> PostOutcome;
  axios_get : nat -> string -> option Buffer;
  whisper_post : nat -> WhisperCall -> PostOutcome
}.

Inductive Notification : Type := Welcome | LowBalance | ExcessUsage.

Record World : Type := mkWorld {
  users : User.collection;
  messages : Message.collection;
  remaining : RemainingMessage.collection;
  now : Z;                                  (* what [Date.now()] reads *)
  replies : list string;                    (* TwiML bodies written to [res] *)
  timers : list (Notification * string);    (* callbacks given to [setTimeout] *)
  outbox : list (string * string);          (* [twilioService.sendSMS(to, text)] *)
  grok_calls : list GrokCall;
  downloads : list string;
  whisper_calls : list WhisperCall
}.

Definition set_users (w : World) (x : User.collection) : World :=
  mkWorld x (messages w) (remaining w) (now w) (replies w) (timers w) (outbox w)
          (grok_calls w) (downloads w) (whisper_calls w).
Definition set_messages (w : World) (x : Message.collection) : World :=
  mkWorld (users w) x (remaining w) (now w) (replies w) (timers w) (outbox w)
          (grok_calls w) (downloads w) (whisper_calls w).
Definition set_remaining (w : World) (x : RemainingMessage.collection) : World :=
  mkWorld (users w) (messages w) x (now w) (replies w) (timers w) (outbox w)
          (grok_calls w) (downloads w) (whisper_calls w).
Definition set_now (w : World) (x : Z) : World :=
  mkWorld (users w) (messages w) (remaining w) x (replies w) (timers w) (outbox w)
          (grok_calls w) (downloads w) (whisper_calls w).
Definition set_replies (w : World) (x : list string) : World :=
  mkWorld (users w) (messages w) (remaining w) (now w) x (timers w) (outbox w)
          (grok_calls w) (downloads w) (whisper_calls w).
Definition set_timers (w : World) (x : list (Notification * string)) : World :=
  mkWorld (users w) (messages w) (remaining w) (now w) (replies w) x (outbox w)
          (grok_calls w) (downloads w) (whisper_calls w).
Definition set_outbox (w : World) (x : list (string * string)) : World :=
  mkWorld (users w) (messages w) (remaining w) (now w) (replies w) (timers w) x
          (grok_calls w) (downloads w) (whisper_calls w).
Definition set_grok_calls (w : World) (x : list GrokCall) : World :=
  mkWorld (users w) (messages w) (remaining w) (now w) (replies w) (timers w) (outbox w)
          x (downloads w) (whisper_calls w).
Definition set_downloads (w : World) (x : list string) : World :=
  mkWorld (users w) (messages w) (remaining w) (now w) (replies w) (timers w) (outbox w)
          (grok_calls w) x (whisper_calls w).
Definition set_whisper_calls (w : World) (x : list WhisperCall) : World :=
  mkWorld (users w) (messages w) (remaining w) (now w) (replies w) (timers w) (outbox w)
          (grok_calls w) (downloads w) x.

(** A freshly started process over given collections *)
Definition boot (us : User.collection) (ms : Message.collection)
           (rs : RemainingMessage.collection) (t : Z) : World :=
  mkWorld us ms rs t [] [] [] [] [] [].

(** ** The monad of request handlers: state that survives a throw *)

Definition M (A : Type) : Type := World -> Res A * World.

Definition ret {A} (a : A) : M A := fun w => (Ok a, w).

Definition bind {A B} (m : M A) (k : A -> M B) : M B :=
  fun w => match m w with
           | (Ok a, w') => k a w'
           | (Throw e, w') => (Throw e, w')
           end.

Definition throw {A} (e : JsError) : M A := fun w => (Throw e, w).

(** [try { m } catch (e) { handler e }] *)
Definition try_catch {A} (m : M A) (handler : JsError -> M A) : M A :=
  fun w => match m w with
           | (Ok a, w') => (Ok a, w')
           | (Throw e, w') => handler e w'
           end.

Definition gets {A} (f : World -> A) : M A := fun w => (Ok (f w), w).
Definition modify (f : World -> World) : M unit := fun w => (Ok tt, f w).

Declare Scope js_scope.
Delimit Scope js_scope with js.
Notation "x <- m ;; k" := (bind m (fun x => k))
  (at level 61, m at next level, right associativity) : js_scope.
Notation "m ;;; k" := (bind m (fun _ => k))
  (at level 61, right associativity) : js_scope.
Local Open Scope js_scope.

(** Lifting of the model statics, which act on one collection *)
Definition on_users {A} (f : Z -> User.collection -> Res A * User.collection) : M A :=
  fun w => let (r, c) := f (now w) (users w) in
           match r with
           | Ok a => (Ok a, set_users w c)
           | Throw e => (Throw e, w)
           end.

Definition on_messages {A}
           (f : Z -> Message.collection -> Res A * Message.collection) : M A :=
  fun w => let (r, c) := f (now w) (messages w) in
           match r with
           | Ok a => (Ok a, set_messages w c)
           | Throw e => (Throw e, w)
           end.

Definition on_remaining {A}
           (f : Z -> RemainingMessage.collection -> Res A * RemainingMessage.collection)
  : M A :=
  fun w => let (r, c) := f (now w) (remaining w) in
           match r with
           | Ok a => (Ok a, set_remaining w c)
           | Throw e => (Throw e, w)
           end.

Definition nl : string := String "010"%char EmptyString.

(** ** services/ai/grok.service *)
Module GrokService.
Section WithEnv.
Variable env : Env.

(** The [catch] of [getResponse]: every failure leaves as an [HttpError]. *)
Definition error_of_status (status : Z) : JsError :=
  if status =? 400 then mkError BadRequestError "Invalid request to Grok AI API"
  else if status =? 401 then mkError BadRequestError "Invalid Grok AI API key"
  else if status =? 429 then mkError BadRequestError "Rate limit exceeded for Grok AI API"
  else if status =? 500 then
    mkError ServiceUnavailableError "Grok AI service temporarily unavailable"
  else mkError ServiceUnavailableError
               ("Grok AI API error: " ++ JsString.of_number status).

Definition getResponse (outcome : PostOutcome) : Res string :=
  match outcome with
  | PostText text => Ok text
  | PostMalformed =>
      Throw (mkError ServiceUnavailableError "Failed to communicate with Grok AI API")
  | PostStatus status => Throw (error_of_status status)
  | PostNoResponse =>
      Throw (mkError ServiceUnavailableError "No response from Grok AI API")
  | PostSetupError =>
      Throw (mkError ServiceUnavailableError "Failed to communicate with Grok AI API")
  end.

(** [getConversationalResponse(userMessage, conversationHistory, options)]:
    one POST carrying the system prompt, the history and the user message. *)
Definition getConversationalResponse (userMessage : string)
           (conversationHistory : list HistoryEntry) (options : Options) : M string :=
  fun w =>
    let call := mkGrokCall userMessage conversationHistory options in
    let outcome := grok_post env (List.length (grok_calls w)) call in
    (getResponse outcome, set_grok_calls w (grok_calls w ++ [call])%list).

End WithEnv.
End GrokService.

(** ** services/ai/router.service *)
Module AIRouterService.

Definition defaultProvider : string := "grok".
Definition fallbackProvider : string := "openai".

Definition own_providers : list string := ["grok"; "openai"].

(** Property names every object inherits from [Object.prototype]; a lookup
    [this.providers[name]] finds them as well. *)
Definition inherited_properties : list string :=
  ["constructor"; "toString"; "toLocaleString"; "valueOf"; "hasOwnProperty";
   "isPrototypeOf"; "propertyIsEnumerable"; "__proto__"; "__defineGetter__";
   "__defineSetter__"; "__lookupGetter__"; "__lookupSetter__"].

(** Truthiness of [this.providers[name]] *)
Definition providers_lookup (name : string) : bool :=
  existsb (String.eqb name) own_providers
  || existsb (String.eqb name) inherited_properties.

(** The guard [options.provider && this.providers[options.provider]] *)
Definition explicit_override (options : Options) : option string :=
  match provider options with
  | Some p => if JsString.truthy p && providers_lookup p then Some p else None
  | None => None
  end.

Definition complexIndicators : list string :=
  ["explain"; "how to"; "what is"; "why does"; "analyze"; "compare";
   "describe"; "elaborate"; "detailed"; "comprehensive"].

Definition technicalTerms : list string :=
  ["api"; "database"; "algorithm"; "framework"; "protocol"; "architecture";
   "integration"; "deployment"; "optimization"; "scalability"].

Definition isComplexMessage (message : string) : bool :=
  let lowerMessage := JsString.toLowerCase message in
  existsb (fun indicator => JsString.includes indicator lowerMessage) complexIndicators.

Definition hasTechnicalTerms (message : string) : bool :=
  let lowerMessage := JsString.toLowerCase message in
  existsb (fun term => JsString.includes term lowerMessage) technicalTerms.

Definition selectProvider (message : string) (conversationHistory : list HistoryEntry)
           (options : Options) : string :=
  match explicit_override options with
  | Some p => p
  | None =>
      let messageLength := String.length message in
      let isComplex := isComplexMessage message in
      let hasTechnical := hasTechnicalTerms message in
      let conversationLength := List.length conversationHistory in
      if isComplex || hasTechnical || (5 <? conversationLength)%nat then "grok"
      else if (500 <? messageLength)%nat then "grok"
      else defaultProvider
  end.

Section WithEnv.
Variable env : Env.

(** The body of the outer [try] of [routeMessage]: the call of the selected
    provider. *)
Definition selected_call (message : string) (conversationHistory : list HistoryEntry)
           (options : Options) : M string :=
  let provider := selectProvider message conversationHistory options in
  if String.eqb provider "grok" then
    GrokService.getConversationalResponse env message conversationHistory options
  else if String.eqb provider "openai" then
    throw (mkError PlainError "OpenAI text processing not implemented yet")
  else
    throw (mkError PlainError ("Unknown AI provider: " ++ provider)).

Definition all_unavailable : JsError :=
  mkError PlainError "All AI services are currently unavailable".

Definition routeMessage (message : string) (conversationHistory : list HistoryEntry)
           (options : Options) : M string :=
  try_catch
    (selected_call message conversationHistory options)
    (fun error =>
       try_catch
         (GrokService.getConversationalResponse env message conversationHistory options)
         (fun fallbackError => throw all_unavailable)).

End WithEnv.
End AIRouterService.

(** ** services/ai/openai.service *)
Module OpenAIService.

Definition getSupportedFormats : list string :=
  ["audio/wav"; "audio/mp3"; "audio/mp4"; "audio/mpeg"; "audio/mpga";
   "audio/webm"; "audio/ogg"].

Definition error_of_status (status : Z) : JsError :=
  if status =? 400 then
    mkError BadRequestError "Invalid audio format or request to OpenAI Whisper"
  else if status =? 401 then mkError BadRequestError "Invalid OpenAI API key"
  else if status =? 413 then
    mkError BadRequestError "Audio file too large for OpenAI Whisper"
  else if status =? 429 then
    mkError BadRequestError "Rate limit exceeded for OpenAI Whisper API"
  else if status =? 500 then
    mkError ServiceUnavailableError "OpenAI Whisper service temporarily unavailable"
  else mkError ServiceUnavailableError
               ("OpenAI Whisper API error: " ++ JsString.of_number status).

Definition setup_failure : JsError :=
  mkError ServiceUnavailableError "Failed to communicate with OpenAI Whisper API".

(** What [transcribeAudio] may be handed as its audio source *)
Inductive AudioSource : Type :=
| SourceBuffer (buffer : Buffer)
| SourcePath (path : string)
| SourceOther.

Section WithEnv.
Variable env : Env.

(** [transcribeAudioBuffer(buffer, filename, mime)]: an empty buffer is
    refused before anything is posted; nothing looks at [mime]. *)
Definition transcribeAudioBuffer (buffer : Buffer) (filename mime : string) : M string :=
  fun w =>
    if buffer_length buffer =? 0 then (Throw setup_failure, w)
    else
      let call := mkWhisperCall (buffer_length buffer) filename mime in
      let outcome := whisper_post env (List.length (whisper_calls w)) call in
      let w' := set_whisper_calls w (whisper_calls w ++ [call])%list in
      match outcome with
      | PostText text =>
          if JsString.truthy text then (Ok (JsString.trim text), w')
          else (Throw setup_failure, w')
      | PostMalformed => (Throw setup_failure, w')
      | PostStatus status => (Throw (error_of_status status), w')
      | PostNoResponse =>
          (Throw (mkError ServiceUnavailableError "No response from OpenAI Whisper API"), w')
      | PostSetupError => (Throw setup_failure, w')
      end.

(** [transcribeAudio(audioSource, options)], with the [filename] and [mime] of
    the options; the outer [catch] logs and rethrows. *)
Definition transcribeAudio (audioSource : AudioSource) (filename mime : string)
  : M string :=
  try_catch
    (match audioSource with
     | SourceBuffer buffer =>
         if 25 * 1024 * 1024 <? buffer_length buffer then
           throw (mkError BadRequestError "Audio file too large. Maximum size is 25MB.")
         else transcribeAudioBuffer buffer filename mime
     | SourcePath _ =>
         throw (mkError BadRequestError "File path transcription not implemented yet")
     | SourceOther => throw (mkError BadRequestError "Invalid audio source type")
     end)
    (fun error => throw error).

End WithEnv.
End OpenAIService.

(** The fields of the webhook payload that the pipeline reads *)
Record Request : Type := mkRequest {
  From : string;
  Body : option string;
  MediaUrl0 : option string;
  MediaContentType0 : option string
}.

(** [value || fallback] on an optional string *)
Definition or_else (value : option string) (fallback : string) : string :=
  match value with
  | Some s => if JsString.truthy s then s else fallback
  | None => fallback
  end.

(** ** middleware/validateInbound

    The checks made on a webhook payload before the controller runs;
    [url_ok] stands for [new URL(...)] accepting the media address. *)
Definition validateInbound (url_ok : string -> bool) (req : Request) : bool :=
  let body := or_else (Body req) EmptyString in
  let media := or_else (MediaUrl0 req) EmptyString in
  JsString.truthy (From req)
  && User.phone_regex_test (From req)
  && (JsString.truthy body || JsString.truthy media)
  && (String.length body <=? 1000)%nat
  && (if JsString.truthy media then url_ok media else true).

(** ** services/ingest/audioInbound.service *)
Module AudioInboundService.

Definition maxAudioSize : Z := 25 * 1024 * 1024.

Record Result : Type := mkResult { transcript : option string; usedAudio : bool }.

(** [validateAudio(audioBuffer, contentType)] *)
Definition validateAudio (audioBuffer : option Buffer) (contentType : string) : bool :=
  match audioBuffer with
  | None => false
  | Some b =>
      if buffer_length b =? 0 then false
      else if maxAudioSize <? buffer_length b then false
      else existsb (String.eqb contentType) OpenAIService.getSupportedFormats
  end.

Section WithEnv.
Variable env : Env.

(** [downloadAudio(audioUrl)]: the GET carries [maxContentLength], and any
    failure is rethrown under one message. *)
Definition downloadAudio (audioUrl : string) : M Buffer :=
  fun w =>
    let w' := set_downloads w (downloads w ++ [audioUrl])%list in
    match axios_get env (List.length (downloads w)) audioUrl with
    | Some b =>
        if maxAudioSize <? buffer_length b
        then (Throw (mkError PlainError "Failed to download audio file"), w')
        else (Ok b, w')
    | None => (Throw (mkError PlainError "Failed to download audio file"), w')
    end.

Definition processInboundAudio (req : Request) : M Result :=
  match MediaUrl0 req with
  | None => ret (mkResult None false)
  | Some audioUrl =>
      if negb (JsString.truthy audioUrl) then ret (mkResult None false)
      else
        let mediaContentType := MediaContentType0 req in
        try_catch
          (audioBuffer <- downloadAudio audioUrl ;;
           if maxAudioSize <? buffer_length audioBuffer then
             ret (mkResult (Some "audio too large") true)
           else
             text <- OpenAIService.transcribeAudioBuffer env audioBuffer "audio.wav"
                       (or_else mediaContentType "audio/wav") ;;
             ret (mkResult (Some text) true))
          (fun error =>
             if JsString.includes "too large" (err_message error) then
               ret (mkResult (Some "audio too large") true)
             else
               throw (mkError BadRequestError
                              ("Failed to process audio: " ++ err_message error)))
  end.

Definition handleAudioInbound (req : Request) : M Result :=
  try_catch (processInboundAudio req) (fun error => throw error).

End WithEnv.
End AudioInboundService.

(** ** config *)
Record Config : Type := mkConfig {
  freeSmsCredits : Z;
  maxSmsLength : Z;
  paymentUrl : string
}.

(** [parseInt(process.env.X) || fallback]: an unset or unparsable variable gives
    [NaN], and [NaN] and [0] are both falsy. *)
Definition parseInt_or (variable : option Z) (fallback : Z) : Z :=
  match variable with
  | Some z => if z =? 0 then fallback else z
  | None => fallback
  end.

Definition config_app (FREE_SMS_CREDITS MAX_SMS_LENGTH : option Z) : Config :=
  {| freeSmsCredits := parseInt_or FREE_SMS_CREDITS 9;
     maxSmsLength := parseInt_or MAX_SMS_LENGTH 1600;
     paymentUrl := "https://payment.textile.fyi" |}.

(** The configuration of a deployment that sets neither variable *)
Definition default_config : Config := config_app None None.

(** ** services/comms/twilio.service *)
Module TwilioService.

(** The code units that XML 1.0 does not allow in a document, among those
    below 256: the C0 controls other than tab, line feed and carriage return. *)
Definition xml_forbidden (c : ascii) : bool :=
  let n := nat_of_ascii c in
  (n <=? 8)%nat || (n =? 11)%nat || (n =? 12)%nat || ((14 <=? n)%nat && (n <=? 31)%nat).

Definition xml_legal (message : string) : bool :=
  JsString.forallb_string (fun c => negb (xml_forbidden c)) message.

(** The error of the XML builder under [twilio.twiml.MessagingResponse]; its
    message goes on with the text and the index of the offending code unit,
    which are only ever logged. *)
Definition invalid_character : JsError :=
  mkError PlainError "Invalid character in string".

(** [createTwiMLResponse(message)]: [twiml.message(message)] throws when the
    message holds a code unit that XML 1.0 forbids.  The document is
    represented by the message it carries. *)
Definition createTwiMLResponse (message : string) : Res string :=
  if xml_legal message then Ok message else Throw invalid_character.

End TwilioService.

(** ** controllers/sms.controller *)
Module SMSController.

Definition continuation_marker : string := "....Reply MORE to continue reading".
Definition nothing_pending : string := "You do not have any previous SMS".
Definition generic_failure : string :=
  "Sorry, something went wrong. Please try again later.".
Definition blocked_reply : string := "Account blocked. Please contact support.".

(** [sendTwiMLResponse(res, message)]: the TwiML document is built first, so
    when the builder refuses the message nothing is written to [res]. *)
Definition sendTwiMLResponse (message : string) : M unit :=
  fun w => match TwilioService.createTwiMLResponse message with
           | Ok twiml => (Ok tt, set_replies w (replies w ++ [twiml])%list)
           | Throw e => (Throw e, w)
           end.

(** [setTimeout(async () => ..., 1000)] *)
Definition setTimeout (n : Notification) (phoneNumber : string) : M unit :=
  modify (fun w => set_timers w (timers w ++ [(n, phoneNumber)])%list).

Definition formatHistory (rows : list Message.row) : list HistoryEntry :=
  map (fun msg => mkEntry (Message.row_role msg) (Message.row_content msg)) rows.

Section WithEnv.
Variable env : Env.
Variable config : Config.

Definition handleSpecialCommands (phoneNumber message : string) : M bool :=
  let lowerMessage := JsString.trim (JsString.toLowerCase message) in
  if String.eqb lowerMessage "stop" then
    sendTwiMLResponse "You have opted-in to receive messages from Textile." ;;;
    ret true
  else if String.eqb lowerMessage "account" then
    user <- gets (fun w => User.findOne (users w) phoneNumber) ;;
    let credits := match user with Some u => User.blance u | None => 0 end in
    sendTwiMLResponse
      ("You have " ++ JsString.of_number credits ++ " credits remaining." ++ nl
       ++ "Reply DELETE HISTORY to delete all your message records." ++ nl
       ++ "Reply DELETE ACCOUNT to delete your account and all data.") ;;;
    ret true
  else if String.eqb lowerMessage "delete history" then
    modify (fun w => set_messages w (Message.deleteUserMessages (messages w) phoneNumber)) ;;;
    sendTwiMLResponse "Your message history has been deleted." ;;;
    ret true
  else if String.eqb lowerMessage "delete account" then
    modify (fun w => set_users w (User.deleteOne phoneNumber (users w))) ;;;
    modify (fun w => set_messages w (Message.deleteUserMessages (messages w) phoneNumber)) ;;;
    modify (fun w => set_remaining w (RemainingMessage.deleteMany phoneNumber (remaining w))) ;;;
    sendTwiMLResponse "Your account and all related data have been deleted." ;;;
    ret true
  else if String.eqb lowerMessage "more" then
    remainingMsg <- gets (fun w => RemainingMessage.getLatestRemainingMessage
                                     (now w) (remaining w) phoneNumber) ;;
    let result := match remainingMsg with
                  | Some m => RemainingMessage.content m
                  | None => nothing_pending
                  end in
    sendTwiMLResponse result ;;;
    ret true
  else ret false.

(** Returns the user, or [None] (the source's [null]) when blocked. *)
Definition manageUserCredits (phoneNumber : string) : M (option User.doc) :=
  user <- gets (fun w => User.findOne (users w) phoneNumber) ;;
  match user with
  | None =>
      created <- on_users (fun t c => User.create t phoneNumber (freeSmsCredits config) 1 c) ;;
      ret (Some created)
  | Some u =>
      if User.blance u <=? 0 then ret None
      else
        t <- gets now ;;
        let u' := snd (User.consumeCredit t u) in
        saved <- on_users (fun t c => User.save t u' c) ;;
        ret (Some saved)
  end.

Definition generateAIResponse (phoneNumber message : string) : M string :=
  on_messages (fun t c => Message.create t phoneNumber Message.RoleUser message c) ;;;
  conversationHistory <-
    gets (fun w => Message.getConversationHistory (messages w) phoneNumber 10) ;;
  let formattedHistory := formatHistory conversationHistory in
  aiResponse <- AIRouterService.routeMessage env message formattedHistory no_options ;;
  on_messages (fun t c => Message.create t phoneNumber Message.RoleAssistant aiResponse c) ;;;
  ret aiResponse.

Definition handleLongResponse (phoneNumber response : string) : M string :=
  if Z.of_nat (String.length response) <=? maxSmsLength config then ret response
  else
    let allowedLength := maxSmsLength config - 34 in
    let truncatedResponse := JsString.substring2 response 0 allowedLength in
    let remainingText := JsString.substring1 response allowedLength in
    on_remaining (fun t c =>
      RemainingMessage.createRemainingMessage t phoneNumber remainingText None c) ;;;
    ret (truncatedResponse ++ continuation_marker).

Definition sendNotificationMessages (phoneNumber : string) (user : User.doc) : M unit :=
  (if User.smsSent user =? 1 then setTimeout Welcome phoneNumber else ret tt) ;;;
  (if User.blance user =? 10 then setTimeout LowBalance phoneNumber else ret tt) ;;;
  (if User.blance user <? 2 then setTimeout ExcessUsage phoneNumber else ret tt).

Definition processUserMessage (phoneNumber message : string) : M unit :=
  try_catch
    (commandResult <- handleSpecialCommands phoneNumber message ;;
     if commandResult : bool then ret tt
     else
       user <- manageUserCredits phoneNumber ;;
       match user with
       | None => sendTwiMLResponse blocked_reply
       | Some u =>
           aiResponse <- generateAIResponse phoneNumber message ;;
           finalResponse <- handleLongResponse phoneNumber aiResponse ;;
           sendTwiMLResponse finalResponse ;;;
           sendNotificationMessages phoneNumber u
       end)
    (fun error => throw error).

Definition handleIncomingSMS (req : Request) : M unit :=
  try_catch
    (audio <- AudioInboundService.handleAudioInbound env req ;;
     let transcript := AudioInboundService.transcript audio in
     let usedAudio := AudioInboundService.usedAudio audio in
     if match transcript with
        | Some t => String.eqb t "audio too large"
        | None => false
        end
     then sendTwiMLResponse "Your audio is too large. Please send a shorter clip."
     else
       let body := JsString.trim (or_else (Body req) EmptyString) in
       let userMessage :=
         match transcript with
         | Some t =>
             if usedAudio && JsString.truthy t then
               if JsString.truthy body then body ++ " " ++ t else t
             else body
         | None => body
         end in
       if negb (JsString.truthy userMessage) then
         sendTwiMLResponse "Please send a text message or audio clip."
       else processUserMessage (From req) userMessage)
    (fun error => sendTwiMLResponse generic_failure).

End WithEnv.
End SMSController.

(** ** services/payment/stripe.service *)
Module StripeService.

Record Customer : Type := mkCustomer { customer_id : string }.

Record Intent : Type := mkIntent {
  intent_id : string;
  intent_status : string;
  next_action_type : option string;
  client_secret : string
}.

(** What [stripe.customers.retrieve] comes back with *)
Inductive Retrieved : Type :=
| Found (customer : Customer)
| ResourceMissing               (* an error whose code is [resource_missing] *)
| RetrieveFailed.               (* any other error *)

(** The payment processor.  [None] stands for a rejected promise. *)
Record Api : Type := mkApi {
  customers_retrieve : string -> Retrieved;
  customers_create : string -> string -> option Customer;
  paymentIntents_create : string -> Z -> string -> option Intent;
  paymentIntents_confirm : string -> option Intent
}.

(** The object that [generatePaymentResponse] returns *)
Inductive PaymentResponse : Type :=
| RequiresAction (payment_intent_client_secret : string)
| PaymentSucceeded (intentId : string)
| InvalidStatus (status : string).

(** [response.success] *)
Definition success (r : PaymentResponse) : bool :=
  match r with PaymentSucceeded _ => true | _ => false end.

Definition generatePaymentResponse (intent : Intent) : PaymentResponse :=
  if String.eqb (intent_status intent) "requires_action"
     && match next_action_type intent with
        | Some t => String.eqb t "use_stripe_sdk"
        | None => false
        end
  then RequiresAction (client_secret intent)
  else if String.eqb (intent_status intent) "succeeded"
       then PaymentSucceeded (intent_id intent)
       else InvalidStatus (intent_status intent).

Section WithApi.
Variable api : Api.

Definition createOrRetrieveCustomer (customerId paymentMethodId : string) : Res Customer :=
  let failure := mkError ServiceUnavailableError "Failed to process customer information" in
  match customers_retrieve api customerId with
  | Found customer => Ok customer
  | ResourceMissing =>
      match customers_create api customerId paymentMethodId with
      | Some customer => Ok customer
      | None => Throw failure
      end
  | RetrieveFailed => Throw failure
  end.

(** [createPaymentIntent(paymentMethodId, amount, customerId)], for a whole
    number of dollars: the request carries [Math.round(amount * 100)] cents. *)
Definition createPaymentIntent (paymentMethodId : string) (amount : Z)
           (customerId : string) : Res Intent :=
  match paymentIntents_create api paymentMethodId (amount * 100) customerId with
  | Some intent => Ok intent
  | None => Throw (mkError ServiceUnavailableError "Failed to create payment intent")
  end.

Definition confirmPaymentIntent (paymentIntentId : string) : Res Intent :=
  match paymentIntents_confirm api paymentIntentId with
  | Some intent => Ok intent
  | None => Throw (mkError ServiceUnavailableError "Failed to confirm payment")
  end.

End WithApi.
End StripeService.

(** ** controllers/payment.controller *)
Module PaymentController.

Definition confirmation_text (totalCredits : Z) : string :=
  "Your purchase was successful! Your Textile account balance has been updated to "
  ++ JsString.of_number totalCredits ++ " credits." ++ nl ++ nl
  ++ "You will receive a message when you have 10 credits remaining." ++ nl ++ nl
  ++ "Reply ACCOUNT at any time to check your credits balance or manage your data.".

(** [sendPaymentConfirmationSMS]: a failed send is logged and dropped. *)
Definition sendPaymentConfirmationSMS (phoneNumber : string) (totalCredits : Z) : M unit :=
  modify (fun w => set_outbox w
                     (outbox w ++ [(phoneNumber, confirmation_text totalCredits)])%list).

(** [addCreditsToUser(phoneNumber, credits)]: the credits are read with
    [parseInt]; when that gives [NaN] so is the new balance, which Mongoose
    refuses to cast. *)
Definition addCreditsToUser (phoneNumber : string) (credits : JsonValue) : M User.doc :=
  try_catch
    (user <- gets (fun w => User.findOne (users w) phoneNumber) ;;
     match user with
     | Some u =>
         match JsValue.parseInt credits with
         | Some added =>
             let totalCredits := User.blance u + added in
             updated <- (fun w =>
                           let (o, c) := User.findOneAndUpdate (now w) phoneNumber
                                           totalCredits (users w) in
                           (Ok o, set_users w c)) ;;
             match updated with
             | Some u' =>
                 sendPaymentConfirmationSMS phoneNumber totalCredits ;;;
                 ret u'
             | None =>
                 throw (mkError PlainError
                                "Cannot read properties of null (reading 'blance')")
             end
         | None => throw User.update_NaN_blance
         end
     | None =>
         match JsValue.parseInt credits with
         | Some totalCredits =>
             created <- on_users (fun t c => User.create t phoneNumber totalCredits 0 c) ;;
             sendPaymentConfirmationSMS phoneNumber totalCredits ;;;
             ret created
         | None => throw (User.create_NaN_blance phoneNumber)
         end
     end)
    (fun error => throw error).

(** The body of a [POST /checkBalance] or [POST /pay] request.  [totalAmount]
    is a whole number of dollars; [credit] is a whole number or a string. *)
Record PaymentRequest : Type := mkPaymentRequest {
  phNo : option string;
  totalAmount : option Z;
  credit : option JsonValue;
  payment_method_id : option string;
  payment_intent_id : option string
}.

(** Truthiness of an optional number: missing and zero are falsy. *)
Definition number_or_zero (n : option Z) : Z :=
  match n with Some z => z | None => 0 end.

Inductive ResponseBody : Type :=
| BalanceData (phoneNumber : string) (balance sent : Z) (status : string) (remaining : Z)
| Payment (response : StripeService.PaymentResponse)
| Failure (message : string).

Record HttpResponse : Type := mkResponse { status_code : Z; body : ResponseBody }.

(** The [catch] of the handlers: a [BadRequestError] answers 400 with its
    message; anything else answers 500, with the fixed text [generic] in
    [checkBalance] and with the error message in [processPayment]. *)
Definition answer_error (generic : option string) (error : JsError) : HttpResponse :=
  match err_class error with
  | BadRequestError => mkResponse 400 (Failure (err_message error))
  | _ => mkResponse 500 (Failure (match generic with
                                  | Some text => text
                                  | None => or_else (Some (err_message error))
                                                    "Payment processing failed"
                                  end))
  end.

(** [checkBalance(req, res)] *)
Definition checkBalance (req : PaymentRequest) : M HttpResponse :=
  fun w =>
    if negb (JsString.truthy (or_else (phNo req) EmptyString)) then
      (Ok (answer_error (Some "Something went wrong")
                        (mkError BadRequestError "Phone number is required")), w)
    else
      match User.findOne (users w) (or_else (phNo req) EmptyString) with
      | Some user =>
          (Ok (mkResponse 200 (BalanceData (User.phNo user) (User.blance user)
                                           (User.smsSent user) (User.creditStatus user)
                                           (User.remainingCredits user))), w)
      | None => (Ok (mkResponse 404 (Failure "User not found")), w)
      end.

Section WithApi.
Variable api : StripeService.Api.

(** The [try] block of [processPayment].  The tests read the field [credit]
    as it arrived; the top-up reads it with [parseInt].  A missing field is
    [undefined], which the first test refuses. *)
Definition processPayment_body (req : PaymentRequest) : M StripeService.PaymentResponse :=
  let phone := or_else (phNo req) EmptyString in
  let amount := number_or_zero (totalAmount req) in
  let required :=
    mkError BadRequestError "Phone number, total amount, and credit are required" in
  match credit req with
  | None => throw required
  | Some credits =>
      if negb (JsString.truthy phone) || (amount =? 0) || negb (JsValue.truthy credits) then
        throw required
      else if (amount <=? 0) || JsValue.le_zero credits then
        throw (mkError BadRequestError "Amount and credit must be positive numbers")
      else
        intent <-
          (if JsString.truthy (or_else (payment_method_id req) EmptyString) then
             let method := or_else (payment_method_id req) EmptyString in
             fun w =>
               match StripeService.createOrRetrieveCustomer api phone method with
               | Ok customer =>
                   (StripeService.createPaymentIntent api method amount
                      (StripeService.customer_id customer), w)
               | Throw e => (Throw e, w)
               end
           else if JsString.truthy (or_else (payment_intent_id req) EmptyString) then
             fun w => (StripeService.confirmPaymentIntent api
                         (or_else (payment_intent_id req) EmptyString), w)
           else
             throw (mkError BadRequestError
                            "Payment method ID or payment intent ID is required")) ;;
        let response := StripeService.generatePaymentResponse intent in
        (if StripeService.success response
         then addCreditsToUser phone credits ;;; ret tt
         else ret tt) ;;;
        ret response
  end.

(** [processPayment(req, res)]: always answers, with 200 and the payment
    response, or with 400 or 500 and the error message. *)
Definition processPayment (req : PaymentRequest) : M HttpResponse :=
  fun w =>
    match processPayment_body req w with
    | (Ok response, w') => (Ok (mkResponse 200 (Payment response)), w')
    | (Throw error, w') => (Ok (answer_error None error), w')
    end.

End WithApi.

End PaymentController.

(** * Vocabulary of the statements *)

Definition balances_nonneg (c : User.collection) : Prop :=
  Forall (fun u => 0 <= User.blance u) c.

(** A sequential run of admission calls, each at its own instant *)
Fixpoint admissions (config : Config) (calls : list (Z * string)) (w : World) : World :=
  match calls with
  | [] => w
  | (t, phoneNumber) :: rest =>
      admissions config rest
        (snd (SMSController.manageUserCredits config phoneNumber (set_now w t)))
  end.

(** The account that [User.create] builds for a first message *)
Definition trial_account (config : Config) (phoneNumber : string) (t : Z) : User.doc :=
  {| User.phNo := phone_key phoneNumber;
     User.blance := freeSmsCredits config;
     User.smsSent := 1;
     User.isActive := true;
     User.lastActivity := t;
     User.createdAt := t;
     User.updatedAt := t |}.

(** What [findOneAndUpdate] makes of the account on a top-up *)
Definition topped_up (u : User.doc) (newBlance t : Z) : User.doc :=
  {| User.phNo := User.phNo u;
     User.blance := newBlance;
     User.smsSent := 0;
     User.isActive := User.isActive u;
     User.lastActivity := t;
     User.createdAt := User.createdAt u;
     User.updatedAt := t |}.

(** The [n]-th call of the generation provider throws, whatever it is asked. *)
Definition grok_down_at (env : Env) (n : nat) : Prop :=
  forall call, is_ok (GrokService.getResponse (grok_post env n call)) = false.

Definition is_assistant (d : Message.doc) : bool :=
  Message.role_eqb (Message.role d) Message.RoleAssistant.

(** The texts that [handleSpecialCommands] recognises, once lower-cased and
    trimmed *)
Definition commands : list string :=
  ["stop"; "account"; "delete history"; "delete account"; "more"].

Definition is_command (message : string) : bool :=
  existsb (String.eqb (JsString.trim (JsString.toLowerCase message))) commands.

(** Stored accounts satisfy the schema validators and the unique index. *)
Definition users_wf (c : User.collection) : Prop :=
  Forall (fun u => User.validate u = Ok tt) c /\ NoDup (map User.phNo c).

(** [n] admission calls in a row for one identifier; the number admitted *)
Fixpoint admit_times (config : Config) (phoneNumber : string) (n : nat) (w : World)
  : nat * World :=
  match n with
  | O => (O, w)
  | S k =>
      let (r, w1) := SMSController.manageUserCredits config phoneNumber w in
      let (count, w2) := admit_times config phoneNumber k w1 in
      ((match r with Ok (Some _) => 1 | _ => 0 end + count)%nat, w2)
  end.

(** The account after [consumeCredit] and [save] at instant [t] *)
Definition consumed (u : User.doc) (t : Z) : User.doc :=
  {| User.phNo := User.phNo u;
     User.blance := User.blance u - 1;
     User.smsSent := User.smsSent u + 1;
     User.isActive := User.isActive u;
     User.lastActivity := t;
     User.createdAt := User.createdAt u;
     User.updatedAt := t |}.

(** The turn that [Message.create] stores *)
Definition stored_turn (phoneNumber : string) (r : Message.Role) (text : string) (t : Z)
  : Message.doc :=
  {| Message.phone := phone_key phoneNumber;
     Message.role := r;
     Message.content := JsString.trim text;
     Message.messageType := Message.KindText;
     Message.createdAt := t |}.

(** The index that [createRemainingMessage] gives to a new continuation *)
Definition next_index (c : RemainingMessage.collection) (phoneNumber : string) : Z :=
  match hd_error (sort_by RemainingMessage.highest_index_first
                    (filter (RemainingMessage.of_phone phoneNumber) c)) with
  | Some m => RemainingMessage.messageIndex m + 1
  | None => 1
  end.

(** The continuation that [createRemainingMessage] stores at instant [t] *)
Definition stored_continuation (c : RemainingMessage.collection)
           (phoneNumber text : string) (t : Z) : RemainingMessage.doc :=
  {| RemainingMessage.phone := phone_key phoneNumber;
     RemainingMessage.content := JsString.trim text;
     RemainingMessage.originalMessageId := None;
     RemainingMessage.messageIndex := next_index c phoneNumber;
     RemainingMessage.totalParts := next_index c phoneNumber;
     RemainingMessage.expiresAt := t + RemainingMessage.ttl;
     RemainingMessage.createdAt := t |}.

(** The notifications that [sendNotificationMessages] schedules for a snapshot
    of the account *)
Definition notifications_due (phoneNumber : string) (user : User.doc)
  : list (Notification * string) :=
  ((if User.smsSent user =? 1 then [(Welcome, phoneNumber)] else [])
   ++ (if User.blance user =? 10 then [(LowBalance, phoneNumber)] else [])
   ++ (if User.blance user <? 2 then [(ExcessUsage, phoneNumber)] else []))%list.


(** Creation times strictly increase along insertion order. *)
Definition strictly_chronological (c : Message.collection) : Prop :=
  StronglySorted (fun a b => Message.createdAt a < Message.createdAt b) c.

(** The text that [handleIncomingSMS] makes of a body and a transcript *)
Definition merged_text (req : Request) (transcript : string) : string :=
  let body := JsString.trim (or_else (Body req) EmptyString) in
  if JsString.truthy body then body ++ " " ++ transcript else transcript.

(** The [catch] of [handleIncomingSMS] around the processing of a text *)
Definition process_or_apologise (env : Env) (config : Config) (phoneNumber text : string)
  : M unit :=
  try_catch (SMSController.processUserMessage env config phoneNumber text)
            (fun _ => SMSController.sendTwiMLResponse SMSController.generic_failure).

(** * Sample data *)

(** An environment in which every provider is down *)
Definition env_down : Env :=
  mkEnv (fun _ _ => PostStatus 500) (fun _ _ => None) (fun _ _ => PostNoResponse).

Definition env_up : Env :=
  mkEnv (fun _ _ => PostText "Hello! How can I help?")
        (fun _ _ => None)
        (fun _ _ => PostNoResponse).

Definition env_audio : Env :=
  mkEnv (fun _ _ => PostText "Sure.")
        (fun _ _ => Some (mkBuffer 2048))
        (fun _ _ => PostText "transcribed words").

Definition picture_request : Request :=
  {| From := "+15551234567";
     Body := None;
     MediaUrl0 := Some "https://api.twilio.com/2010-04-01/Media/ME1";
     MediaContentType0 := Some "image/jpeg" |}.

(** The [i]-th turn of a conversation, created at instant [i] *)
Definition turn (i : nat) : Message.doc :=
  {| Message.phone := "+15551234567";
     Message.role := if Nat.odd i then Message.RoleUser else Message.RoleAssistant;
     Message.content := "turn " ++ JsString.of_number (Z.of_nat i);
     Message.messageType := Message.KindText;
     Message.createdAt := Z.of_nat i |}.

Definition eleven_turns : Message.collection := map turn (seq 1 11).

(** An account with one credit left *)
Definition last_credit : User.doc :=
  {| User.phNo := "+15551234567"; User.blance := 1; User.smsSent := 8;
     User.isActive := true; User.lastActivity := 0; User.createdAt := 0;
     User.updatedAt := 0 |}.

(** An account that used its trial long ago *)
Definition old_account : User.doc :=
  {| User.phNo := "+15551234567"; User.blance := 0; User.smsSent := 9;
     User.isActive := true; User.lastActivity := 500; User.createdAt := 100;
     User.updatedAt := 500 |}.

(** Two live continuations, and a more recent one that has already expired *)
Definition three_continuations : RemainingMessage.collection :=
  [ RemainingMessage.mkDoc "+15551234567" "older part" None 1 1 (100 + RemainingMessage.ttl) 100;
    RemainingMessage.mkDoc "+15551234567" "newer part" None 2 2 (200 + RemainingMessage.ttl) 200;
    RemainingMessage.mkDoc "+15551234567" "stale part" None 3 3 150 300 ].

(** A text in two lines separated by a vertical tab (code unit 11) *)
Definition tabbed_text : string :=
  "Line one" ++ String (ascii_of_nat 11) EmptyString ++ "Line two".

(** A live continuation that holds such a text *)
Definition tabbed_continuation : RemainingMessage.doc :=
  RemainingMessage.mkDoc "+15551234567" tabbed_text None 1 1 (900 + RemainingMessage.ttl) 900.

(** A reply of 1620 characters whose cut at 1566 falls just before a space *)
Definition long_reply : string :=
  JsString.replicate 1566 "a" ++ " and the rest of the answer, which goes on for a while".

(** A reply of 1620 characters that ends in 54 spaces *)
Definition blank_tail_reply : string :=
  JsString.replicate 1566 "a" ++ JsString.replicate 54 " ".


(** An explicit override naming the secondary provider *)
Definition openai_override : Options := mkOptions (Some "openai").

(** A provider whose answer is 2001 characters long *)
Definition env_verbose : Env :=
  mkEnv (fun _ _ => PostText (JsString.replicate 2001 "a"))
        (fun _ _ => None)
        (fun _ _ => PostNoResponse).

(** A transcription service that refuses the clip as too large *)
Definition env_clip_refused : Env :=
  mkEnv (fun _ _ => PostText "Sure.")
        (fun _ _ => Some (mkBuffer 2048))
        (fun _ _ => PostStatus 413).

(** A voice message with a caption *)
Definition voice_request : Request :=
  {| From := "+15551234567";
     Body := Some " Listen to this ";
     MediaUrl0 := Some "https://api.twilio.com/2010-04-01/Media/ME2";
     MediaContentType0 := Some "audio/ogg" |}.

(** A payment processor that knows the customer and settles at once *)
Definition stripe_settles : StripeService.Api :=
  StripeService.mkApi
    (fun customerId => StripeService.Found (StripeService.mkCustomer customerId))
    (fun _ _ => None)
    (fun _ _ _ => Some (StripeService.mkIntent "pi_1" "succeeded" None "secret_1"))
    (fun _ => None).

(** A payment processor that asks for a further customer action *)
Definition stripe_asks : StripeService.Api :=
  StripeService.mkApi
    (fun customerId => StripeService.Found (StripeService.mkCustomer customerId))
    (fun _ _ => None)
    (fun _ _ _ => Some (StripeService.mkIntent "pi_2" "requires_action"
                          (Some "use_stripe_sdk") "secret_2"))
    (fun _ => None).

(** Fifty credits for five dollars, paid with a card *)
Definition purchase : PaymentController.PaymentRequest :=
  PaymentController.mkPaymentRequest (Some "+15551234567") (Some 5) (Some (JNumber 50))
                                     (Some "pm_card") None.

(** A provider whose answer holds a vertical tab *)
Definition env_tabbed : Env :=
  mkEnv (fun _ _ => PostText tabbed_text) (fun _ _ => None) (fun _ _ => PostNoResponse).

(** The same purchase from a client that quotes its numbers *)
Definition quoted_purchase : PaymentController.PaymentRequest :=
  PaymentController.mkPaymentRequest (Some "+15551234567") (Some 5) (Some (JString "50"))
                                     (Some "pm_card") None.

(** A purchase whose credit field is no number but starts like one *)
Definition crafted_purchase : PaymentController.PaymentRequest :=
  PaymentController.mkPaymentRequest (Some "+15551234567") (Some 5)
                                     (Some (JString "-5abc")) (Some "pm_card") None.

(** * Properties *)

(** ** The TwiML reply *)

Lemma sendTwiMLResponse_legal (message : string) (w : World) :
  TwilioService.xml_legal message = true ->
  SMSController.sendTwiMLResponse message w
  = (Ok tt, set_replies w (replies w ++ [message])%list).
Proof.
  intros Hlegal.
  unfold SMSController.sendTwiMLResponse, TwilioService.createTwiMLResponse.
  rewrite Hlegal. reflexivity.
Qed.

Lemma sendTwiMLResponse_refused (message : string) (w : World) :
  TwilioService.xml_legal message = false ->
  SMSController.sendTwiMLResponse message w = (Throw TwilioService.invalid_character, w).
Proof.
  intros Hillegal.
  unfold SMSController.sendTwiMLResponse, TwilioService.createTwiMLResponse.
  rewrite Hillegal. reflexivity.
Qed.

Lemma xml_legal_app (a b : string) :
  TwilioService.xml_legal (a ++ b)
  = TwilioService.xml_legal a && TwilioService.xml_legal b.
Proof.
  unfold TwilioService.xml_legal. induction a as [|c a IH]; simpl; [reflexivity|].
  rewrite IH. apply andb_assoc.
Qed.

(** The decimal rendering of a number holds digits and a sign only. *)
Lemma of_number_legal (z : Z) : TwilioService.xml_legal (JsString.of_number z) = true.
Proof.
  assert (Hdigits : forall d, TwilioService.xml_legal (NilZero.string_of_uint d) = true).
  { intros d. unfold NilZero.string_of_uint.
    assert (Hd : TwilioService.xml_legal (NilEmpty.string_of_uint d) = true)
      by (induction d; simpl; auto).
    destruct d; exact Hd. }
  unfold JsString.of_number, NilZero.string_of_int.
  destruct (Z.to_int z) as [d|d]; [apply Hdigits|].
  change (TwilioService.xml_legal ("-" ++ NilZero.string_of_uint d) = true).
  rewrite xml_legal_app, Hdigits. reflexivity.
Qed.

(** ** Provider selection *)

Lemma selectProvider_without_override message history options :
  AIRouterService.explicit_override options = None ->
  AIRouterService.selectProvider message history options = "grok".
Proof.
  intros Hnone. unfold AIRouterService.selectProvider. rewrite Hnone.
  destruct (_ || _ || _); [reflexivity|].
  destruct (500 <? String.length message)%nat; reflexivity.
Qed.

(** Whatever the arguments, the secondary provider is selected only when the
    override names it. *)
Lemma selectProvider_secondary_only_by_name message history options :
  AIRouterService.selectProvider message history options
  = AIRouterService.fallbackProvider ->
  provider options = Some "openai".
Proof.
  unfold AIRouterService.selectProvider, AIRouterService.explicit_override.
  destruct (provider options) as [p|].
  - destruct (JsString.truthy p && AIRouterService.providers_lookup p).
    + intros Hsel. rewrite Hsel. reflexivity.
    + destruct (_ || _ || _); [discriminate|].
      destruct (500 <? String.length message)%nat; discriminate.
  - destruct (_ || _ || _); [discriminate|].
    destruct (500 <? String.length message)%nat; discriminate.
Qed.


(** ** Fallback protocol of the router *)

Lemma selected_call_log env message history options w r w1 :
  AIRouterService.selected_call env message history options w = (r, w1) ->
  grok_calls w1 = grok_calls w
  \/ grok_calls w1 = (grok_calls w ++ [mkGrokCall message history options])%list.
Proof.
  unfold AIRouterService.selected_call, GrokService.getConversationalResponse, throw.
  destruct (String.eqb _ "grok").
  - intros H. inversion H. right. reflexivity.
  - destruct (String.eqb _ "openai"); intros H; inversion H; left; reflexivity.
Qed.

(** C4.  If the call of the selected provider throws (whatever the error),
    [routeMessage] makes exactly one more provider call, to
    [grokService.getConversationalResponse] with the same message, history and
    options; its text is the result when it succeeds, and when it throws too
    the router throws the single error "All AI services are currently
    unavailable".  The log of provider calls grows by that one call over the
    selected attempt, which itself made at most one: there is no third call. *)
Theorem routeMessage_single_fallback :
  forall (env : Env) (message : string) (history : list HistoryEntry)
         (options : Options) (w w1 : World) (e : JsError),
    AIRouterService.selected_call env message history options w = (Throw e, w1) ->
    let call := mkGrokCall message history options in
    let fallback :=
      GrokService.getResponse (grok_post env (List.length (grok_calls w1)) call) in
    AIRouterService.routeMessage env message history options w
    = (match fallback with
       | Ok text => Ok text
       | Throw _ => Throw AIRouterService.all_unavailable
       end,
       set_grok_calls w1 (grok_calls w1 ++ [call])%list)
    /\ (grok_calls w1 = grok_calls w \/ grok_calls w1 = (grok_calls w ++ [call])%list).
Proof.
  intros env message history options w w1 e Hsel call fallback. split.
  - unfold AIRouterService.routeMessage, try_catch. rewrite Hsel.
    unfold GrokService.getConversationalResponse, throw.
    fold call. fold fallback. destruct fallback; reflexivity.
  - exact (selected_call_log _ _ _ _ _ _ _ Hsel).
Qed.

Lemma routeMessage_single_fallback_witness :
  let w := boot [] [] [] 0 in
  let call := mkGrokCall "hello" [] no_options in
  AIRouterService.routeMessage env_down "hello" [] no_options w
  = (Throw AIRouterService.all_unavailable, set_grok_calls w [call; call]).
Proof.
  intros w call.
  exact (proj1 (routeMessage_single_fallback env_down "hello" [] no_options w
                  (set_grok_calls w [call])
                  (mkError ServiceUnavailableError "Grok AI service temporarily unavailable")
                  eq_refl)).
Defined.

(** ** Conversation history *)

Lemma sort_by_sorted {A} (before : A -> A -> bool) (l : list A) :
  StronglySorted (fun a b => before a b = true) l -> sort_by before l = l.
Proof.
  induction 1 as [|x r Hr IH Hx]; [reflexivity|].
  unfold sort_by in *. simpl. rewrite IH.
  destruct r as [|y t]; [reflexivity|].
  simpl. inversion Hx as [|? ? Hxy _]; subst. rewrite Hxy. reflexivity.
Qed.

Lemma filter_StronglySorted {A} (R : A -> A -> Prop) (p : A -> bool) (l : list A) :
  StronglySorted R l -> StronglySorted R (filter p l).
Proof.
  induction 1 as [|x r Hr IH Hx]; simpl; [constructor|].
  destruct (p x); [|exact IH].
  constructor; [exact IH|].
  rewrite Forall_forall in *. intros y Hy. apply Hx.
  apply filter_In in Hy. tauto.
Qed.

(** On a collection whose creation times never decrease along insertion
    order, the history query returns the first (oldest) [limit] turns of the
    account. *)
Lemma getConversationHistory_oldest (c : Message.collection) (phoneNumber : string)
      (limit : nat) :
  StronglySorted (fun a b => Message.asc a b = true) c ->
  limit <> 0%nat ->
  Message.getConversationHistory c phoneNumber limit
  = map Message.select (firstn limit (filter (Message.of_phone phoneNumber) c)).
Proof.
  intros Hsorted Hlimit. unfold Message.getConversationHistory.
  rewrite (sort_by_sorted _ _ (filter_StronglySorted _ _ _ Hsorted)).
  destruct limit; [congruence | reflexivity].
Qed.

(** C1.  With eleven stored turns and a limit of ten, the history query
    returns turns 1 to 10, the ten oldest, and leaves out turn 11, the most
    recent one; the ten most recent turns would be turns 2 to 11. *)
Theorem getConversationHistory_drops_latest :
  Message.getConversationHistory eleven_turns "+15551234567" 10
  = map Message.select (map turn (seq 1 10))
  /\ ~ In (Message.select (turn 11))
          (Message.getConversationHistory eleven_turns "+15551234567" 10)
  /\ Message.getConversationHistory eleven_turns "+15551234567" 10
     <> map Message.select (map turn (seq 2 10)).
Proof.
  assert (H : Message.getConversationHistory eleven_turns "+15551234567" 10
              = map Message.select (map turn (seq 1 10))) by (vm_compute; reflexivity).
  split; [exact H|]. rewrite H. split.
  - vm_compute. intros Hin.
    repeat (destruct Hin as [Heq|Hin]; [discriminate Heq|]). exact Hin.
  - vm_compute. discriminate.
Qed.

(** In the pipeline: with ten turns stored, the turn persisted for a new
    message is the eleventh, and the history handed to the provider is the
    ten earlier turns, without it. *)
Lemma generateAIResponse_context_is_stale :
  let w := boot [] (map turn (seq 1 10)) [] 11 in
  let w' := snd (SMSController.generateAIResponse env_up "+15551234567"
                   "What about today?" w) in
  map call_history (grok_calls w')
  = [SMSController.formatHistory (map Message.select (map turn (seq 1 10)))]
  /\ map Message.content (skipn 10 (messages w'))
     = ["What about today?"; "Hello! How can I help?"].
Proof. split; vm_compute; reflexivity. Qed.

(** ** Audio attachments *)

(** Whatever content type is declared, a non-empty attachment within the size
    ceiling is posted to the transcription API under that content type. *)
Lemma processInboundAudio_posts_any_type (env : Env) (req : Request) (w : World)
      (audioUrl : string) (b : Buffer) :
  MediaUrl0 req = Some audioUrl ->
  JsString.truthy audioUrl = true ->
  axios_get env (List.length (downloads w)) audioUrl = Some b ->
  0 < buffer_length b <= AudioInboundService.maxAudioSize ->
  whisper_calls (snd (AudioInboundService.processInboundAudio env req w))
  = (whisper_calls w
       ++ [mkWhisperCall (buffer_length b) "audio.wav"
                         (or_else (MediaContentType0 req) "audio/wav")])%list.
Proof.
  intros Hurl Htruthy Hget [Hpos Hmax].
  unfold AudioInboundService.processInboundAudio. rewrite Hurl, Htruthy. simpl.
  unfold try_catch, bind, AudioInboundService.downloadAudio. rewrite Hget.
  assert (Hle : (AudioInboundService.maxAudioSize <? buffer_length b) = false)
    by (apply Z.ltb_ge; lia).
  rewrite Hle. simpl. rewrite Hle.
  unfold OpenAIService.transcribeAudioBuffer.
  assert (Hnz : (buffer_length b =? 0) = false) by (apply Z.eqb_neq; lia).
  rewrite Hnz. simpl.
  destruct (whisper_post env _ _) as [text| |status| |]; simpl;
    try destruct (JsString.truthy text); simpl;
    try destruct (JsString.includes _ _); reflexivity.
Qed.

(** C9.  An attachment declared as ["image/jpeg"], which is not among the
    supported formats and which [validateAudio] would refuse, is not rejected:
    [processInboundAudio] posts it to the transcription API under that content
    type and returns the transcript. *)
Theorem processInboundAudio_transcribes_unsupported_type :
  existsb (String.eqb "image/jpeg") OpenAIService.getSupportedFormats = false
  /\ AudioInboundService.validateAudio (Some (mkBuffer 2048)) "image/jpeg" = false
  /\ AudioInboundService.processInboundAudio env_audio picture_request (boot [] [] [] 0)
     = (Ok (AudioInboundService.mkResult (Some "transcribed words") true),
        set_whisper_calls
          (set_downloads (boot [] [] [] 0) ["https://api.twilio.com/2010-04-01/Media/ME1"])
          [mkWhisperCall 2048 "audio.wav" "image/jpeg"]).
Proof. repeat split. Qed.

(** ** Credit ledger *)

Lemma phone_regex_nonempty (v : string) :
  User.phone_regex_test v = true -> JsString.is_empty v = false.
Proof. destruct v; [discriminate | reflexivity]. Qed.

Lemma validate_ok (d : User.doc) (x : unit) :
  User.validate d = Ok x ->
  User.phone_regex_test (User.phNo d) = true
  /\ 0 <= User.blance d /\ 0 <= User.smsSent d.
Proof.
  unfold User.validate, validation_result.
  destruct (JsString.is_empty _); [discriminate|].
  destruct (User.phone_regex_test _); [|discriminate]. simpl.
  destruct (Z.ltb_spec (User.blance d) 0); [discriminate|].
  destruct (Z.ltb_spec (User.smsSent d) 0); [discriminate|].
  intros _. repeat split; assumption.
Qed.

Lemma validate_intro (d : User.doc) :
  User.phone_regex_test (User.phNo d) = true ->
  0 <= User.blance d -> 0 <= User.smsSent d ->
  User.validate d = Ok tt.
Proof.
  intros Hphone Hb Hs. unfold User.validate, validation_result.
  rewrite (phone_regex_nonempty _ Hphone), Hphone. simpl.
  destruct (Z.ltb_spec (User.blance d) 0); [lia|].
  destruct (Z.ltb_spec (User.smsSent d) 0); [lia|]. reflexivity.
Qed.

Lemma replace_nonneg (d : User.doc) (c : User.collection) :
  0 <= User.blance d -> balances_nonneg c -> balances_nonneg (User.replace d c).
Proof.
  intros Hd Hc. unfold balances_nonneg, User.replace.
  rewrite Forall_map. eapply Forall_impl; [|exact Hc].
  intros x Hx. simpl. destruct (String.eqb _ _); assumption.
Qed.

Lemma find_app {A} (p : A -> bool) (l l' : list A) :
  find p (l ++ l') = match find p l with Some x => Some x | None => find p l' end.
Proof.
  induction l as [|x l IH]; simpl; [reflexivity|].
  destruct (p x); [reflexivity | exact IH].
Qed.

Section Admission.
Variable config : Config.

(** One admission call preserves the invariant, whether it creates the
    account, refuses, consumes a credit, or throws. *)
Lemma manageUserCredits_nonneg (phoneNumber : string) (w : World) :
  balances_nonneg (users w) ->
  balances_nonneg
    (users (snd (SMSController.manageUserCredits config phoneNumber w))).
Proof.
  intros Hinv. unfold SMSController.manageUserCredits, bind, gets, ret.
  destruct (User.findOne (users w) phoneNumber) as [u|] eqn:Hfind.
  - destruct (User.blance u <=? 0); [exact Hinv|].
    unfold on_users, User.save.
    destruct (User.validate _) as [x|e] eqn:Hval; simpl; [|exact Hinv].
    apply replace_nonneg; [|exact Hinv].
    apply validate_ok in Hval. simpl in Hval. tauto.
  - unfold on_users, User.create.
    destruct (User.validate _) as [x|e] eqn:Hval; simpl; [|exact Hinv].
    rewrite Hfind. simpl.
    apply Forall_app. split; [exact Hinv|].
    constructor; [|constructor].
    apply validate_ok in Hval. simpl in Hval. tauto.
Qed.

Lemma admissions_nonneg (calls : list (Z * string)) :
  forall w, balances_nonneg (users w) ->
            balances_nonneg (users (admissions config calls w)).
Proof.
  induction calls as [|[t p] rest IH]; intros w Hinv; simpl; [exact Hinv|].
  apply IH. apply manageUserCredits_nonneg. exact Hinv.
Qed.

Lemma manageUserCredits_blocked (phoneNumber : string) (w : World) (u : User.doc) :
  User.findOne (users w) phoneNumber = Some u ->
  User.blance u <= 0 ->
  SMSController.manageUserCredits config phoneNumber w = (Ok None, w).
Proof.
  intros Hfind Hzero. unfold SMSController.manageUserCredits, bind, gets, ret.
  rewrite Hfind. destruct (Z.leb_spec (User.blance u) 0); [reflexivity | lia].
Qed.

End Admission.

(** C3.  Starting from accounts whose balances are not negative, the balance
    of every account is still not negative after any sequence of admission
    calls run one after the other; and an admission call on an existing
    account whose balance is 0 returns "not admitted" and leaves the whole
    world, so every field of the account, as it was. *)
Theorem balance_never_negative :
  forall (config : Config) (calls : list (Z * string)) (w : World),
    balances_nonneg (users w) ->
    balances_nonneg (users (admissions config calls w))
    /\ (forall (phoneNumber : string) (u : User.doc),
           User.findOne (users w) phoneNumber = Some u ->
           User.blance u = 0 ->
           SMSController.manageUserCredits config phoneNumber w = (Ok None, w)).
Proof.
  intros config calls w Hinv. split.
  - apply admissions_nonneg. exact Hinv.
  - intros phoneNumber u Hfind Hzero.
    apply (manageUserCredits_blocked config phoneNumber w u Hfind). lia.
Qed.

Lemma balance_never_negative_witness :
  let w := boot [last_credit] [] [] 0 in
  let calls := [(10, "+15551234567"); (20, "+15551234567"); (30, "+15559876543")] in
  map User.blance (users (admissions default_config calls w)) = [0; 9]
  /\ balances_nonneg (users (admissions default_config calls w)).
Proof.
  intros w calls. split; [reflexivity|].
  apply (balance_never_negative default_config calls w).
  repeat constructor. discriminate.
Defined.

(** ** Admission of a new identifier *)

Lemma has_phNo_key (phoneNumber : string) (d : User.doc) :
  User.phNo d = phone_key phoneNumber -> User.has_phNo phoneNumber d = true.
Proof. intros H. unfold User.has_phNo. rewrite H. apply String.eqb_refl. Qed.

(** C7, as the code has it.  For an identifier with no account whose trimmed
    form passes the phone-number validator, and a configured trial count that
    is not negative, the admission call stores a new account with the trial
    count as balance and a usage counter of 1, and returns it (admitted)
    without decrementing; a later lookup of the identifier finds that account.
    With the default configuration the balance is 9. *)
Theorem manageUserCredits_new_account :
  forall (config : Config) (phoneNumber : string) (w : World),
    User.findOne (users w) phoneNumber = None ->
    User.phone_regex_test (phone_key phoneNumber) = true ->
    0 <= freeSmsCredits config ->
    let u := trial_account config phoneNumber (now w) in
    SMSController.manageUserCredits config phoneNumber w
    = (Ok (Some u), set_users w (users w ++ [u])%list)
    /\ User.blance u = freeSmsCredits config
    /\ User.smsSent u = 1
    /\ User.findOne (users w ++ [u])%list phoneNumber = Some u
    /\ (config = default_config -> User.blance u = 9).
Proof.
  intros config phoneNumber w Hfind Hphone Htrial u.
  assert (Hval : User.validate u = Ok tt).
  { apply validate_intro; simpl; [exact Hphone | exact Htrial | lia]. }
  repeat split.
  - unfold SMSController.manageUserCredits, bind, gets, ret.
    rewrite Hfind. unfold on_users, User.create. fold (trial_account config phoneNumber (now w)).
    fold u. rewrite Hval, Hfind. reflexivity.
  - unfold User.findOne in *. rewrite find_app, Hfind. simpl.
    rewrite has_phNo_key; reflexivity.
  - intros ->. reflexivity.
Qed.

Lemma manageUserCredits_new_account_witness :
  SMSController.manageUserCredits default_config "+15551234567" (boot [] [] [] 1000)
  = (Ok (Some (trial_account default_config "+15551234567" 1000)),
     boot [trial_account default_config "+15551234567" 1000] [] [] 1000)
  /\ User.blance (trial_account default_config "+15551234567" 1000) = 9.
Proof.
  pose proof (manageUserCredits_new_account default_config "+15551234567"
                (boot [] [] [] 1000) eq_refl eq_refl) as H.
  assert (Htrial : 0 <= freeSmsCredits default_config) by (vm_compute; discriminate).
  specialize (H Htrial). cbv zeta in H.
  split; [exact (proj1 H) | exact (proj1 (proj2 H))].
Defined.

(** C7 fails as stated.  The identifier ["abc"] has no account, yet admission
    throws the validation error of the [phNo] validator and stores nothing.
    The same happens for ["+ "], which the inbound validation lets through:
    the pipeline answers with the generic failure and no account exists
    afterwards.  And with a negative configured trial count the [blance]
    validator refuses the new account. *)
Lemma manageUserCredits_rejects_identifier :
  (exists e,
      SMSController.manageUserCredits default_config "abc" (boot [] [] [] 0)
      = (Throw e, boot [] [] [] 0)
      /\ err_class e = ValidationError)
  /\ (let req := mkRequest "+ " (Some "hello") None None in
      validateInbound (fun _ => true) req = true
      /\ SMSController.handleIncomingSMS env_up default_config req (boot [] [] [] 0)
         = (Ok tt, set_replies (boot [] [] [] 0) [SMSController.generic_failure]))
  /\ (exists e,
         SMSController.manageUserCredits (config_app (Some (-3)) None) "+15551234567"
           (boot [] [] [] 0)
         = (Throw e, boot [] [] [] 0)
         /\ err_class e = ValidationError).
Proof.
  split; [eexists; split; reflexivity|].
  split; [split; reflexivity|].
  eexists; split; reflexivity.
Qed.

(** ** Continuations *)

Lemma sort_by_nil {A} (before : A -> A -> bool) (l : list A) :
  sort_by before l = [] -> l = [].
Proof.
  destruct l as [|x r]; [reflexivity|]. unfold sort_by. simpl.
  destruct (fold_right _ _ r) as [|y t]; simpl; [discriminate|].
  destruct (before x y); discriminate.
Qed.

(** The head of the newest-first order is an element created no earlier than
    any other. *)
Lemma newest_first_head (l : list RemainingMessage.doc) (m : RemainingMessage.doc) :
  hd_error (sort_by RemainingMessage.newest_first l) = Some m ->
  In m l
  /\ Forall (fun x => RemainingMessage.createdAt x <= RemainingMessage.createdAt m) l.
Proof.
  revert m. induction l as [|x r IH]; intros m; [discriminate|].
  change (sort_by RemainingMessage.newest_first (x :: r))
    with (insert_sorted RemainingMessage.newest_first x
            (sort_by RemainingMessage.newest_first r)).
  destruct (sort_by RemainingMessage.newest_first r) as [|y t] eqn:Hsort.
  - apply sort_by_nil in Hsort. subst r. simpl. intros Hhd. inversion Hhd; subst.
    split; [left; reflexivity|]. constructor; [lia | constructor].
  - destruct (IH y eq_refl) as [Hin Hmax]. simpl.
    unfold RemainingMessage.newest_first at 1.
    destruct (Z.leb_spec (RemainingMessage.createdAt y) (RemainingMessage.createdAt x))
      as [Hle|Hlt]; simpl; intros Hhd; inversion Hhd; subst.
    + split; [left; reflexivity|]. constructor; [lia|].
      eapply Forall_impl; [|exact Hmax]. simpl. intros; lia.
    + split; [right; exact Hin|]. constructor; [lia | exact Hmax].
Qed.

Lemma newest_first_append (l : list RemainingMessage.doc) (d : RemainingMessage.doc) :
  Forall (fun x => RemainingMessage.createdAt x < RemainingMessage.createdAt d) l ->
  sort_by RemainingMessage.newest_first (l ++ [d])
  = d :: sort_by RemainingMessage.newest_first l.
Proof.
  induction 1 as [|x r Hx Hr IH]; [reflexivity|].
  change (sort_by RemainingMessage.newest_first ((x :: r) ++ [d]))
    with (insert_sorted RemainingMessage.newest_first x
            (sort_by RemainingMessage.newest_first (r ++ [d]))).
  rewrite IH. simpl. unfold RemainingMessage.newest_first at 1.
  destruct (Z.leb_spec (RemainingMessage.createdAt d) (RemainingMessage.createdAt x));
    [lia | reflexivity].
Qed.

(** What the lookup returns: an unexpired continuation of the account, created
    no earlier than any other unexpired one; and nothing exactly when the
    account has no unexpired continuation. *)
Lemma getLatestRemainingMessage_spec (t : Z) (c : RemainingMessage.collection)
      (phoneNumber : string) :
  (forall m,
      RemainingMessage.getLatestRemainingMessage t c phoneNumber = Some m ->
      In m c
      /\ RemainingMessage.phone m = phone_key phoneNumber
      /\ t < RemainingMessage.expiresAt m
      /\ forall m', In m' c ->
                    RemainingMessage.phone m' = phone_key phoneNumber ->
                    t < RemainingMessage.expiresAt m' ->
                    RemainingMessage.createdAt m' <= RemainingMessage.createdAt m)
  /\ (RemainingMessage.getLatestRemainingMessage t c phoneNumber = None <->
      forall m', In m' c ->
                 RemainingMessage.phone m' = phone_key phoneNumber ->
                 RemainingMessage.expiresAt m' <= t).
Proof.
  unfold RemainingMessage.getLatestRemainingMessage.
  set (keep := fun d => RemainingMessage.of_phone phoneNumber d
                        && RemainingMessage.unexpired t d).
  assert (Hkeep : forall d, keep d = true <->
                            RemainingMessage.phone d = phone_key phoneNumber
                            /\ t < RemainingMessage.expiresAt d).
  { intros d. unfold keep, RemainingMessage.of_phone, RemainingMessage.unexpired.
    rewrite andb_true_iff, String.eqb_eq, Z.ltb_lt. tauto. }
  split.
  - intros m Hhd. apply newest_first_head in Hhd. destruct Hhd as [Hin Hmax].
    apply filter_In in Hin. destruct Hin as [Hin Hk]. apply Hkeep in Hk.
    repeat split; try tauto.
    intros m' Hin' Hphone Hlive. rewrite Forall_forall in Hmax. apply Hmax.
    apply filter_In. split; [exact Hin'|]. apply Hkeep. tauto.
  - split.
    + intros Hnone m' Hin' Hphone.
      destruct (Z.lt_ge_cases t (RemainingMessage.expiresAt m')) as [Hlive|Hdead]; [|lia].
      exfalso.
      assert (Hf : In m' (filter keep c)) by (apply filter_In; split; [|apply Hkeep]; tauto).
      destruct (sort_by _ (filter keep c)) as [|y s] eqn:Hsort; [|discriminate].
      apply sort_by_nil in Hsort. rewrite Hsort in Hf. exact Hf.
    + intros Hall.
      destruct (hd_error _) as [m|] eqn:Hhd; [|reflexivity]. exfalso.
      apply newest_first_head in Hhd. destruct Hhd as [Hin _].
      apply filter_In in Hin. destruct Hin as [Hin Hk]. apply Hkeep in Hk.
      specialize (Hall m Hin (proj1 Hk)). lia.
Qed.

(** C6, as the code has it.  A message that reads [more] once lower-cased and
    trimmed is answered with the content of the account's most recently
    created unexpired continuation, provided the content holds no code unit
    that XML 1.0 forbids, or with the fixed text "You do not have any previous
    SMS" when the account has none; a continuation whose expiry has passed is
    never the one returned, although it is still stored.  When the content
    holds a forbidden code unit the TwiML builder refuses it: the command
    throws and writes nothing.  In every case the reply is the only change to
    the world: no account is touched (no credit is consumed), no turn is
    written and no generation provider is called. *)
Theorem more_replies_with_latest_continuation :
  forall (env : Env) (config : Config) (phoneNumber message : string) (w : World),
    JsString.trim (JsString.toLowerCase message) = "more" ->
    let lookup :=
      RemainingMessage.getLatestRemainingMessage (now w) (remaining w) phoneNumber in
    let reply := match lookup with
                 | Some m => RemainingMessage.content m
                 | None => SMSController.nothing_pending
                 end in
    let result := SMSController.processUserMessage env config phoneNumber message w in
    (TwilioService.xml_legal reply = true ->
     result = (Ok tt, set_replies w (replies w ++ [reply])%list))
    /\ (TwilioService.xml_legal reply = false ->
        result = (Throw TwilioService.invalid_character, w))
    /\ (lookup = None -> TwilioService.xml_legal reply = true)
    /\ users (snd result) = users w
    /\ grok_calls (snd result) = grok_calls w
    /\ (forall m, lookup = Some m ->
          In m (remaining w)
          /\ RemainingMessage.phone m = phone_key phoneNumber
          /\ now w < RemainingMessage.expiresAt m
          /\ forall m', In m' (remaining w) ->
                        RemainingMessage.phone m' = phone_key phoneNumber ->
                        now w < RemainingMessage.expiresAt m' ->
                        RemainingMessage.createdAt m' <= RemainingMessage.createdAt m)
    /\ (lookup = None <->
        forall m', In m' (remaining w) ->
                   RemainingMessage.phone m' = phone_key phoneNumber ->
                   RemainingMessage.expiresAt m' <= now w).
Proof.
  intros env config phoneNumber message w Hmore lookup reply result.
  assert (Hrun : result
                 = (let (r, w') := SMSController.sendTwiMLResponse reply w in
                    match r with
                    | Ok _ => (Ok tt, w')
                    | Throw e => (Throw e, w')
                    end)).
  { unfold result, SMSController.processUserMessage, try_catch,
      SMSController.handleSpecialCommands.
    rewrite Hmore. simpl. unfold bind, gets, ret. fold lookup. fold reply.
    destruct (SMSController.sendTwiMLResponse reply w) as [[[]|e] w']; reflexivity. }
  destruct (getLatestRemainingMessage_spec (now w) (remaining w) phoneNumber)
    as [Hsome Hnone].
  split; [intros Hlegal; rewrite Hrun, (sendTwiMLResponse_legal _ _ Hlegal); reflexivity|].
  split; [intros Hbad; rewrite Hrun, (sendTwiMLResponse_refused _ _ Hbad); reflexivity|].
  split; [intros Hno; unfold reply; rewrite Hno; reflexivity|].
  assert (Hframe : users (snd result) = users w /\ grok_calls (snd result) = grok_calls w).
  { rewrite Hrun. destruct (TwilioService.xml_legal reply) eqn:Hlegal.
    - rewrite (sendTwiMLResponse_legal _ _ Hlegal). split; reflexivity.
    - rewrite (sendTwiMLResponse_refused _ _ Hlegal). split; reflexivity. }
  split; [exact (proj1 Hframe)|]. split; [exact (proj2 Hframe)|].
  split; [exact Hsome | exact Hnone].
Qed.

Lemma more_replies_with_latest_continuation_witness :
  SMSController.processUserMessage env_down default_config "+15551234567" " More "
    (boot [last_credit] [] three_continuations 1000)
  = (Ok tt, set_replies (boot [last_credit] [] three_continuations 1000) ["newer part"]).
Proof.
  exact (proj1 (more_replies_with_latest_continuation env_down default_config
                  "+15551234567" " More "
                  (boot [last_credit] [] three_continuations 1000) eq_refl)
               eq_refl).
Defined.

(** C6 fails as stated.  The newest unexpired continuation of the account
    holds a vertical tab, as the tail of a generated reply may; the lookup
    returns it, yet [more] is not answered with its content: the command
    throws, and the inbound handler answers with the generic failure text. *)
Lemma more_refuses_forbidden_code_unit :
  let w := boot [last_credit] [] [tabbed_continuation] 1000 in
  let req := mkRequest "+15551234567" (Some "MORE") None None in
  option_map RemainingMessage.content
    (RemainingMessage.getLatestRemainingMessage (now w) (remaining w) "+15551234567")
  = Some tabbed_text
  /\ SMSController.processUserMessage env_down default_config "+15551234567" "MORE" w
     = (Throw TwilioService.invalid_character, w)
  /\ SMSController.handleIncomingSMS env_down default_config req w
     = (Ok tt, set_replies w [SMSController.generic_failure])
  /\ SMSController.generic_failure <> tabbed_text.
Proof.
  repeat split; try (vm_compute; reflexivity). vm_compute. discriminate.
Qed.

(** ** Long replies *)

Lemma substring_all (s : string) : substring 0 (String.length s) s = s.
Proof. induction s as [|c s IH]; simpl; [reflexivity | rewrite IH; reflexivity]. Qed.

Lemma substring_prefix_length (n : nat) :
  forall s, (n <= String.length s)%nat -> String.length (substring 0 n s) = n.
Proof.
  induction n as [|n IH]; intros s Hn.
  - destruct s; reflexivity.
  - destruct s as [|c s]; simpl in *; [lia|]. rewrite IH; [reflexivity | lia].
Qed.

Lemma substring_split (n : nat) :
  forall s, (n <= String.length s)%nat ->
            substring 0 n s ++ substring n (String.length s - n) s = s.
Proof.
  induction n as [|n IH]; intros s Hn.
  - rewrite Nat.sub_0_r, substring_all. destruct s; reflexivity.
  - destruct s as [|c s]; simpl in *; [lia|]. rewrite IH; [reflexivity | lia].
Qed.

Lemma is_empty_false (s : string) : s <> EmptyString -> JsString.is_empty s = false.
Proof. destruct s; [congruence | reflexivity]. Qed.

(** The two cuts of [handleLongResponse], when the limit is at least 34 and the
    reply is longer than the limit *)
Lemma cuts_of_long_reply (response : string) (maxLength : Z) :
  34 <= maxLength ->
  maxLength < Z.of_nat (String.length response) ->
  let n := Z.to_nat (maxLength - 34) in
  JsString.substring2 response 0 (maxLength - 34) = substring 0 n response
  /\ JsString.substring1 response (maxLength - 34)
     = substring n (String.length response - n) response
  /\ (n <= String.length response)%nat.
Proof.
  intros Hmin Hlong n.
  assert (Hn : (n <= String.length response)%nat) by (unfold n; lia).
  unfold JsString.substring2, JsString.substring1, JsString.clamp. fold n.
  change (Z.to_nat 0) with 0%nat.
  rewrite (Nat.min_l n _ Hn). simpl Nat.min. rewrite Nat.max_r, Nat.sub_0_r by lia.
  repeat split. exact Hn.
Qed.

(** The continuation that [createRemainingMessage] stores is found by the
    lookup at any instant before its expiry, provided the account's earlier
    continuations were created before it. *)
Lemma lookup_after_append (c : RemainingMessage.collection) (d : RemainingMessage.doc)
      (phoneNumber : string) (t : Z) :
  RemainingMessage.phone d = phone_key phoneNumber ->
  t < RemainingMessage.expiresAt d ->
  (forall m, In m c -> RemainingMessage.phone m = phone_key phoneNumber ->
             RemainingMessage.createdAt m < RemainingMessage.createdAt d) ->
  RemainingMessage.getLatestRemainingMessage t (c ++ [d])%list phoneNumber = Some d.
Proof.
  intros Hphone Hlive Hbefore. unfold RemainingMessage.getLatestRemainingMessage.
  rewrite filter_app. simpl.
  assert (Hd : RemainingMessage.of_phone phoneNumber d && RemainingMessage.unexpired t d
               = true).
  { unfold RemainingMessage.of_phone, RemainingMessage.unexpired.
    rewrite Hphone, String.eqb_refl. simpl. apply Z.ltb_lt. exact Hlive. }
  rewrite Hd. rewrite newest_first_append; [reflexivity|].
  apply Forall_forall. intros m Hin. apply filter_In in Hin. destruct Hin as [Hin Hk].
  apply andb_true_iff in Hk. destruct Hk as [Hk _].
  apply Hbefore; [exact Hin|]. apply String.eqb_eq. exact Hk.
Qed.

(** C2, as the code has it.  A reply no longer than [maxSmsLength] comes back
    unchanged and the world, so the stored continuations, is untouched.  Take
    a longer reply, and call remainder the text
    [response.substring(maxSmsLength - 34)].
    - With [maxSmsLength] at least 34, the prefix
      [response.substring(0, maxSmsLength - 34)] has length exactly
      [maxSmsLength - 34], the marker has 34 characters, and the prefix
      followed by the remainder is the reply.
    - When the account identifier is not blank and the remainder is not all
      white space, the result is the prefix followed by the marker, and one
      continuation is stored: it holds the remainder with its leading and
      trailing white space removed (the schema trims [content]) and expires 24
      hours later.  When the remainder has no white space at either end, and
      [maxSmsLength] is at least 34, the prefix followed by the stored content
      is the reply.  When the account's earlier continuations were all created
      before now, the lookup returns the new continuation at every instant
      from now up to its expiry.
    - When the account identifier is blank or the remainder is all white
      space, the schema refuses the continuation: a validation error is thrown,
      no text is returned and nothing is stored. *)
Theorem handleLongResponse_roundtrip :
  forall (config : Config) (phoneNumber response : string) (w : World),
    let truncated := JsString.substring2 response 0 (maxSmsLength config - 34) in
    let remainder := JsString.substring1 response (maxSmsLength config - 34) in
    (Z.of_nat (String.length response) <= maxSmsLength config ->
     SMSController.handleLongResponse config phoneNumber response w = (Ok response, w))
    /\ (maxSmsLength config < Z.of_nat (String.length response) ->
        34 <= maxSmsLength config ->
        Z.of_nat (String.length truncated) = maxSmsLength config - 34
        /\ String.length SMSController.continuation_marker = 34%nat
        /\ truncated ++ remainder = response)
    /\ (maxSmsLength config < Z.of_nat (String.length response) ->
        phone_key phoneNumber <> EmptyString ->
        JsString.trim remainder <> EmptyString ->
        exists d : RemainingMessage.doc,
          SMSController.handleLongResponse config phoneNumber response w
          = (Ok (truncated ++ SMSController.continuation_marker),
             set_remaining w (remaining w ++ [d])%list)
          /\ RemainingMessage.phone d = phone_key phoneNumber
          /\ RemainingMessage.content d = JsString.trim remainder
          /\ RemainingMessage.expiresAt d = now w + RemainingMessage.ttl
          /\ (JsString.trim remainder = remainder ->
              34 <= maxSmsLength config ->
              truncated ++ RemainingMessage.content d = response)
          /\ ((forall m, In m (remaining w) ->
                         RemainingMessage.phone m = phone_key phoneNumber ->
                         RemainingMessage.createdAt m < now w) ->
              forall t, now w <= t < now w + RemainingMessage.ttl ->
                        RemainingMessage.getLatestRemainingMessage
                          t (remaining w ++ [d])%list phoneNumber = Some d))
    /\ (maxSmsLength config < Z.of_nat (String.length response) ->
        phone_key phoneNumber = EmptyString \/ JsString.trim remainder = EmptyString ->
        exists e : JsError,
          SMSController.handleLongResponse config phoneNumber response w = (Throw e, w)
          /\ err_class e = ValidationError).
Proof.
  intros config phoneNumber response w truncated remainder.
  assert (Hcuts : maxSmsLength config < Z.of_nat (String.length response) ->
                  34 <= maxSmsLength config ->
                  Z.of_nat (String.length truncated) = maxSmsLength config - 34
                  /\ truncated ++ remainder = response).
  { intros Hlong Hmin.
    destruct (cuts_of_long_reply response (maxSmsLength config) Hmin Hlong)
      as [Hcut1 [Hcut2 Hn]].
    unfold truncated, remainder. rewrite Hcut1, Hcut2. split.
    - rewrite substring_prefix_length by exact Hn. lia.
    - apply substring_split. exact Hn. }
  split; [|split; [|split]].
  - intros Hshort. unfold SMSController.handleLongResponse.
    destruct (Z.leb_spec (Z.of_nat (String.length response)) (maxSmsLength config));
      [reflexivity | lia].
  - intros Hlong Hmin. destruct (Hcuts Hlong Hmin) as [Hlen Hsplit].
    split; [exact Hlen|]. split; [reflexivity | exact Hsplit].
  - intros Hlong Hphone Hcontent.
    unfold SMSController.handleLongResponse.
    destruct (Z.leb_spec (Z.of_nat (String.length response)) (maxSmsLength config))
      as [Hle|_]; [lia|].
    unfold bind, on_remaining, RemainingMessage.createRemainingMessage,
      RemainingMessage.create, RemainingMessage.validate, ret.
    fold remainder. fold truncated. simpl.
    rewrite (is_empty_false _ Hphone), (is_empty_false _ Hcontent).
    eexists. split; [reflexivity|]. simpl.
    split; [reflexivity|]. split; [reflexivity|]. split; [reflexivity|]. split.
    + intros Htrim Hmin. rewrite Htrim. exact (proj2 (Hcuts Hlong Hmin)).
    + intros Hbefore t Ht.
      apply lookup_after_append; simpl; [reflexivity | lia | exact Hbefore].
  - intros Hlong Hblank.
    unfold SMSController.handleLongResponse.
    destruct (Z.leb_spec (Z.of_nat (String.length response)) (maxSmsLength config))
      as [Hle|_]; [lia|].
    unfold bind, on_remaining, RemainingMessage.createRemainingMessage,
      RemainingMessage.create, RemainingMessage.validate, ret.
    fold remainder. simpl.
    destruct Hblank as [Hblank|Hblank]; rewrite Hblank; simpl.
    + destruct (JsString.is_empty (JsString.trim remainder));
        eexists; split; reflexivity.
    + destruct (JsString.is_empty (phone_key phoneNumber));
        eexists; split; reflexivity.
Qed.

Lemma handleLongResponse_roundtrip_witness :
  SMSController.handleLongResponse default_config "+15551234567" "Short answer."
    (boot [] [] [] 0)
  = (Ok "Short answer.", boot [] [] [] 0)
  /\ (exists d : RemainingMessage.doc,
         SMSController.handleLongResponse default_config "+15551234567" long_reply
           (boot [] [] three_continuations 1000)
         = (Ok (JsString.replicate 1566 "a" ++ SMSController.continuation_marker),
            set_remaining (boot [] [] three_continuations 1000)
                          (three_continuations ++ [d])%list)
         /\ RemainingMessage.content d
            = "and the rest of the answer, which goes on for a while"
         /\ RemainingMessage.getLatestRemainingMessage
              1001 (three_continuations ++ [d])%list "+15551234567" = Some d)
  /\ (exists e : JsError,
         SMSController.handleLongResponse default_config "+15551234567" blank_tail_reply
           (boot [] [] three_continuations 1000)
         = (Throw e, boot [] [] three_continuations 1000)).
Proof.
  pose proof (handleLongResponse_roundtrip default_config "+15551234567" "Short answer."
                (boot [] [] [] 0)) as [Hshort _].
  pose proof (handleLongResponse_roundtrip default_config "+15551234567" long_reply
                (boot [] [] three_continuations 1000)) as [_ [_ [Hlong _]]].
  pose proof (handleLongResponse_roundtrip default_config "+15551234567" blank_tail_reply
                (boot [] [] three_continuations 1000)) as [_ [_ [_ Hblank]]].
  split; [|split].
  - apply Hshort. vm_compute. discriminate.
  - destruct Hlong as [d [Hrun [_ [Hcontent [_ [_ Hlookup]]]]]].
    + vm_compute. reflexivity.
    + vm_compute. discriminate.
    + vm_compute. discriminate.
    + exists d. split; [exact Hrun|]. split; [exact Hcontent|].
      apply Hlookup.
      * intros m Hin _. simpl in Hin.
        destruct Hin as [<-|[<-|[<-|[]]]]; vm_compute; reflexivity.
      * vm_compute. split; [discriminate | reflexivity].
  - destruct Hblank as [e [Hrun _]].
    + vm_compute. reflexivity.
    + right. vm_compute. reflexivity.
    + exists e. exact Hrun.
Defined.

(** C2 fails as stated.  With the default limit of 1600, the remainder of
    [long_reply] starts with a space; the stored continuation, and so what the
    lookup returns right afterwards, lacks that space, and prefix plus stored
    content is not the reply.  And with a limit of 20, below the length of the
    marker, the prefix is empty: its length is not the negative number
    [20 - 34]. *)
Lemma handleLongResponse_stores_trimmed_remainder :
  (let w := boot [] [] [] 0 in
   let remainder := JsString.substring1 long_reply (maxSmsLength default_config - 34) in
   let w' := snd (SMSController.handleLongResponse default_config "+15551234567"
                    long_reply w) in
   let stored := RemainingMessage.getLatestRemainingMessage
                   (now w') (remaining w') "+15551234567" in
   maxSmsLength default_config < Z.of_nat (String.length long_reply)
   /\ remainder = " and the rest of the answer, which goes on for a while"
   /\ option_map RemainingMessage.content stored
      = Some "and the rest of the answer, which goes on for a while"
   /\ option_map RemainingMessage.content stored <> Some remainder
   /\ JsString.replicate 1566 "a"
        ++ "and the rest of the answer, which goes on for a while" <> long_reply)
  /\ (let config := config_app None (Some 20) in
      let response := "A reply of 30 characters here." in
      maxSmsLength config < Z.of_nat (String.length response)
      /\ fst (SMSController.handleLongResponse config "+15551234567" response
                (boot [] [] [] 0))
         = Ok SMSController.continuation_marker
      /\ Z.of_nat (String.length (JsString.substring2 response 0 (maxSmsLength config - 34)))
         <> maxSmsLength config - 34).
Proof.
  split.
  - repeat split; try (vm_compute; reflexivity); vm_compute; discriminate.
  - repeat split; try (vm_compute; reflexivity); vm_compute; discriminate.
Qed.

(** ** Failure of every generation provider *)

Lemma app_changes {A} (l extra : list A) : extra <> [] -> (l ++ extra)%list <> l.
Proof.
  intros Hne Heq. apply Hne. apply (app_inv_head l).
  rewrite app_nil_r. exact Heq.
Qed.

Lemma routeMessage_down (env : Env) (message : string) (history : list HistoryEntry)
      (options : Options) (w : World) :
  grok_down_at env (List.length (grok_calls w)) ->
  grok_down_at env (S (List.length (grok_calls w))) ->
  exists calls,
    calls <> []
    /\ AIRouterService.routeMessage env message history options w
       = (Throw AIRouterService.all_unavailable,
          set_grok_calls w (grok_calls w ++ calls)%list).
Proof.
  intros Hfirst Hsecond.
  set (call := mkGrokCall message history options).
  unfold AIRouterService.routeMessage, AIRouterService.selected_call, try_catch,
    GrokService.getConversationalResponse, throw.
  fold call.
  destruct (String.eqb _ "grok").
  - specialize (Hfirst call). specialize (Hsecond call).
    destruct (GrokService.getResponse (grok_post env (List.length (grok_calls w)) call));
      [discriminate|]. simpl.
    rewrite length_app, Nat.add_1_r. simpl.
    destruct (GrokService.getResponse (grok_post env (S (List.length (grok_calls w))) call));
      [discriminate|].
    exists [call; call]. split; [discriminate|].
    unfold set_grok_calls. simpl. rewrite <- app_assoc. reflexivity.
  - specialize (Hfirst call).
    assert (Hfall :
              (let (r, w') := (GrokService.getResponse
                                 (grok_post env (List.length (grok_calls w)) call),
                               set_grok_calls w (grok_calls w ++ [call])%list) in
               match r with
               | Ok a => (Ok a, w')
               | Throw _ => (Throw AIRouterService.all_unavailable, w')
               end)
              = (Throw AIRouterService.all_unavailable,
                 set_grok_calls w (grok_calls w ++ [call])%list)).
    { destruct (GrokService.getResponse _); [discriminate | reflexivity]. }
    exists [call]. split; [discriminate|].
    destruct (String.eqb _ "openai"); simpl in *; exact Hfall.
Qed.

Ltac command_done :=
  eexists; eexists; (split; [reflexivity|]); simpl;
  (split; [discriminate|]);
  (split; [intros _; eexists; reflexivity|]);
  (split; [discriminate|]);
  (split; [reflexivity|]);
  (split; [reflexivity|]);
  auto.

Section Pipeline.
Variable env : Env.
Variable config : Config.

(** A command writes one reply and calls no provider; of the accounts it
    touches at most the sender's, which [delete account] removes.  A text that
    is no command changes nothing, and neither does a command whose reply the
    TwiML builder refuses. *)
Lemma handleSpecialCommands_shape (phoneNumber message : string) (w : World) :
  exists (r : Res bool) (w' : World),
    SMSController.handleSpecialCommands phoneNumber message w = (r, w')
    /\ (r = Ok false -> w' = w)
    /\ (r = Ok true -> exists reply, replies w' = (replies w ++ [reply])%list)
    /\ (forall e, r = Throw e -> w' = w)
    /\ grok_calls w' = grok_calls w
    /\ timers w' = timers w
    /\ (users w' = users w \/ users w' = User.deleteOne phoneNumber (users w)).
Proof.
  unfold SMSController.handleSpecialCommands.
  destruct (String.eqb _ "stop").
  { unfold bind. rewrite sendTwiMLResponse_legal by reflexivity. command_done. }
  destruct (String.eqb _ "account").
  { unfold bind, gets.
    rewrite sendTwiMLResponse_legal
      by (rewrite !xml_legal_app, of_number_legal; reflexivity).
    command_done. }
  destruct (String.eqb _ "delete history").
  { unfold bind, modify. rewrite sendTwiMLResponse_legal by reflexivity. command_done. }
  destruct (String.eqb _ "delete account").
  { unfold bind, modify. rewrite sendTwiMLResponse_legal by reflexivity. command_done. }
  destruct (String.eqb _ "more").
  { unfold bind, gets.
    match goal with
    | |- context [SMSController.sendTwiMLResponse ?reply w] =>
        destruct (TwilioService.xml_legal reply) eqn:Hlegal;
        [rewrite (sendTwiMLResponse_legal reply w Hlegal)
        |rewrite (sendTwiMLResponse_refused reply w Hlegal)]
    end.
    - command_done.
    - eexists; eexists; (split; [reflexivity|]); repeat split; auto; discriminate. }
  exists (Ok false), w. repeat split; auto; discriminate.
Qed.

(** Admission touches the accounts only. *)
Lemma manageUserCredits_frame (phoneNumber : string) (w : World) :
  exists r c,
    SMSController.manageUserCredits config phoneNumber w = (r, set_users w c).
Proof.
  assert (Hid : w = set_users w (users w)) by (destruct w; reflexivity).
  unfold SMSController.manageUserCredits, bind, gets, ret, on_users.
  destruct (User.findOne (users w) phoneNumber) as [u|].
  - destruct (User.blance u <=? 0).
    + exists (Ok None), (users w). rewrite <- Hid. reflexivity.
    + destruct (User.save _ _ _) as [[saved|e] c].
      * exists (Ok (Some saved)), c. reflexivity.
      * exists (Throw e), (users w). rewrite <- Hid. reflexivity.
  - destruct (User.create _ _ _ _ _) as [[created|e] c].
    + exists (Ok (Some created)), c. reflexivity.
    + exists (Throw e), (users w). rewrite <- Hid. reflexivity.
Qed.

(** With the provider down for two calls in a row, generation throws; either
    nothing was written (the user turn was refused by the schema), or the
    user turn is the only turn written and at least one call was made. *)
Lemma generateAIResponse_down (phoneNumber message : string) (w : World) :
  grok_down_at env (List.length (grok_calls w)) ->
  grok_down_at env (S (List.length (grok_calls w))) ->
  exists e w',
    SMSController.generateAIResponse env phoneNumber message w = (Throw e, w')
    /\ (w' = w
        \/ exists userTurn calls,
             calls <> []
             /\ w' = set_grok_calls (set_messages w (messages w ++ [userTurn])%list)
                                    (grok_calls w ++ calls)%list
             /\ Message.role userTurn = Message.RoleUser
             /\ Message.phone userTurn = phone_key phoneNumber
             /\ Message.content userTurn = JsString.trim message).
Proof.
  intros Hfirst Hsecond.
  unfold SMSController.generateAIResponse, bind, on_messages, gets, Message.create.
  destruct (Message.validate _) as [x|e].
  - match goal with
    | |- context [AIRouterService.routeMessage ?e ?m ?h ?o ?w1] =>
        destruct (routeMessage_down e m h o w1 Hfirst Hsecond) as [calls [Hne Hroute]];
        rewrite Hroute
    end.
    eexists. eexists. split; [reflexivity|]. right.
    eexists. exists calls. split; [exact Hne|].
    split; [reflexivity|]. simpl. repeat split.
  - eexists. eexists. split; [reflexivity|]. left. reflexivity.
Qed.

Lemma processUserMessage_down (phoneNumber message : string) (w : World) :
  grok_down_at env (List.length (grok_calls w)) ->
  grok_down_at env (S (List.length (grok_calls w))) ->
  let result := SMSController.processUserMessage env config phoneNumber message w in
  grok_calls (snd result) <> grok_calls w ->
  (exists e, fst result = Throw e)
  /\ replies (snd result) = replies w
  /\ exists userTurn,
       messages (snd result) = (messages w ++ [userTurn])%list
       /\ Message.role userTurn = Message.RoleUser
       /\ Message.phone userTurn = phone_key phoneNumber
       /\ Message.content userTurn = JsString.trim message.
Proof.
  intros Hfirst Hsecond.
  unfold SMSController.processUserMessage, try_catch, bind.
  destruct (handleSpecialCommands_shape phoneNumber message w)
    as [r0 [w1 [Hcmd [Hsame [_ [_ [Hcalls _]]]]]]].
  rewrite Hcmd. destruct r0 as [[|]|e0].
  - simpl. intros Hchanged. contradiction.
  - rewrite (Hsame eq_refl).
    destruct (manageUserCredits_frame phoneNumber w) as [r [c Hadmit]].
    rewrite Hadmit. destruct r as [[u|]|e].
    + destruct (generateAIResponse_down phoneNumber message (set_users w c)
                  Hfirst Hsecond) as [e [w2 [Hgen Hcases]]].
      rewrite Hgen. destruct Hcases as [->|[userTurn [calls [Hne [-> Hturn]]]]]; simpl.
      * intros Hchanged. contradiction.
      * intros _. split; [exists e; reflexivity|]. split; [reflexivity|].
        exists userTurn. split; [reflexivity | exact Hturn].
    + rewrite sendTwiMLResponse_legal by reflexivity.
      simpl. intros Hchanged. contradiction.
    + simpl. intros Hchanged. contradiction.
  - simpl. intros Hchanged. contradiction.
Qed.

(** The audio stage writes to the download and transcription logs only. *)
Lemma handleAudioInbound_frame (req : Request) (w : World) :
  exists r ds ws,
    AudioInboundService.handleAudioInbound env req w
    = (r, set_whisper_calls (set_downloads w ds) ws).
Proof.
  assert (Hid : w = set_whisper_calls (set_downloads w (downloads w)) (whisper_calls w))
    by (destruct w; reflexivity).
  unfold AudioInboundService.handleAudioInbound,
    AudioInboundService.processInboundAudio, try_catch, bind, ret, throw,
    AudioInboundService.downloadAudio, OpenAIService.transcribeAudioBuffer.
  destruct (MediaUrl0 req) as [audioUrl|];
    [|eexists; exists (downloads w), (whisper_calls w); rewrite <- Hid; reflexivity].
  destruct (JsString.truthy audioUrl); simpl;
    [|eexists; exists (downloads w), (whisper_calls w); rewrite <- Hid; reflexivity].
  destruct (axios_get env _ _) as [b|]; simpl.
  - destruct (AudioInboundService.maxAudioSize <? buffer_length b) eqn:Hbig; simpl.
    + eexists. exists (downloads w ++ [audioUrl])%list, (whisper_calls w). reflexivity.
    + rewrite Hbig. destruct (buffer_length b =? 0); simpl.
      * eexists. exists (downloads w ++ [audioUrl])%list, (whisper_calls w). reflexivity.
      * destruct (whisper_post env _ _) as [text| |status| |]; simpl;
          try destruct (JsString.truthy text); simpl;
          try destruct (JsString.includes _ _); simpl;
          eexists; eexists; eexists; reflexivity.
  - eexists. exists (downloads w ++ [audioUrl])%list, (whisper_calls w). reflexivity.
Qed.

End Pipeline.

(** C5.  Take an inbound message whose processing reaches generation (the log
    of generation calls grows) while the provider throws on the selected call
    and on the fallback call.  Then the handler completes, the replies written
    are the earlier ones followed by exactly one, the generic failure text;
    the only turn written is the user turn, which stays stored; and no
    assistant turn is written. *)
Theorem generation_failure_single_generic_reply :
  forall (env : Env) (config : Config) (req : Request) (w : World),
    grok_down_at env (List.length (grok_calls w)) ->
    grok_down_at env (S (List.length (grok_calls w))) ->
    let result := SMSController.handleIncomingSMS env config req w in
    grok_calls (snd result) <> grok_calls w ->
    fst result = Ok tt
    /\ replies (snd result) = (replies w ++ [SMSController.generic_failure])%list
    /\ (exists userTurn,
           messages (snd result) = (messages w ++ [userTurn])%list
           /\ Message.role userTurn = Message.RoleUser
           /\ Message.phone userTurn = phone_key (From req))
    /\ filter is_assistant (messages (snd result)) = filter is_assistant (messages w).
Proof.
  intros env config req w Hfirst Hsecond.
  unfold SMSController.handleIncomingSMS, try_catch, bind.
  destruct (handleAudioInbound_frame env req w) as [r [ds [ws Haudio]]].
  rewrite Haudio. set (w1 := set_whisper_calls (set_downloads w ds) ws).
  destruct r as [audio|e]; [|simpl; intros Hchanged; contradiction].
  destruct (match AudioInboundService.transcript audio with
            | Some t => String.eqb t "audio too large"
            | None => false
            end); [simpl; intros Hchanged; contradiction|].
  destruct (negb (JsString.truthy _)); [simpl; intros Hchanged; contradiction|].
  match goal with
  | |- context [SMSController.processUserMessage env config ?p ?m w1] =>
      pose proof (processUserMessage_down env config p m w1 Hfirst Hsecond) as Hdown;
      destruct (SMSController.processUserMessage env config p m w1) as [r1 w2]
  end.
  simpl in Hdown. destruct r1 as [x|e]; simpl; intros Hchanged.
  - destruct (Hdown Hchanged) as [[e He] _]. discriminate He.
  - destruct (Hdown Hchanged) as [_ [Hreplies [userTurn [Hmessages [Hrole [Hphone _]]]]]].
    split; [reflexivity|]. split; [rewrite Hreplies; reflexivity|].
    split; [exists userTurn; repeat split; assumption|].
    rewrite Hmessages, filter_app. simpl. unfold is_assistant at 2.
    rewrite Hrole. simpl. apply app_nil_r.
Qed.

Lemma generation_failure_single_generic_reply_witness :
  let req := mkRequest "+15551234567" (Some "What is the capital of France?") None None in
  let result := SMSController.handleIncomingSMS env_down default_config req
                  (boot [last_credit] [] [] 1000) in
  fst result = Ok tt
  /\ replies (snd result) = [SMSController.generic_failure]
  /\ map Message.role (messages (snd result)) = [Message.RoleUser].
Proof.
  intros req result.
  destruct (generation_failure_single_generic_reply env_down default_config req
              (boot [last_credit] [] [] 1000)) as [Hok [Hreplies _]].
  - intros call. reflexivity.
  - intros call. reflexivity.
  - vm_compute. discriminate.
  - split; [exact Hok|]. split; [exact Hreplies|]. reflexivity.
Defined.

(** ** Top-up of a stored account *)

Lemma findOneAndUpdate_found (t : Z) (phoneNumber : string) (newBlance : Z)
      (c : User.collection) (u : User.doc) :
  User.findOne c phoneNumber = Some u ->
  exists c',
    User.findOneAndUpdate t phoneNumber newBlance c = (Some (topped_up u newBlance t), c')
    /\ User.findOne c' phoneNumber = Some (topped_up u newBlance t).
Proof.
  unfold User.findOne. induction c as [|d r IH]; simpl; [discriminate|].
  destruct (User.has_phNo phoneNumber d) eqn:Hd.
  - intros H. inversion H; subst d. eexists. split; [reflexivity|].
    simpl. unfold User.has_phNo in *. simpl. rewrite Hd. reflexivity.
  - intros H. destruct (IH H) as [c' [Hupd Hfind]]. rewrite Hupd.
    eexists. split; [reflexivity|]. simpl. rewrite Hd. exact Hfind.
Qed.

(** * Further properties of the code *)

(** ** Commands and admission *)

Lemma handleSpecialCommands_not_command (phoneNumber message : string) (w : World) :
  is_command message = false ->
  SMSController.handleSpecialCommands phoneNumber message w = (Ok false, w).
Proof.
  unfold is_command, commands. simpl. intros Hno.
  repeat (apply orb_false_iff in Hno; destruct Hno as [? Hno]).
  unfold SMSController.handleSpecialCommands.
  repeat match goal with
         | H : String.eqb _ _ = false |- _ => rewrite H; clear H
         end.
  reflexivity.
Qed.

Lemma findOne_some (c : User.collection) (phoneNumber : string) (u : User.doc) :
  User.findOne c phoneNumber = Some u ->
  In u c /\ User.phNo u = phone_key phoneNumber.
Proof.
  unfold User.findOne. intros Hfind. apply find_some in Hfind.
  destruct Hfind as [Hin Hkey]. split; [exact Hin|].
  apply String.eqb_eq. exact Hkey.
Qed.

Lemma findOne_none (c : User.collection) (phoneNumber : string) :
  User.findOne c phoneNumber = None ->
  ~ In (phone_key phoneNumber) (map User.phNo c).
Proof.
  unfold User.findOne. intros Hfind Hin. apply in_map_iff in Hin.
  destruct Hin as [u [Hkey Hin]].
  pose proof (find_none _ _ Hfind u Hin) as Hno.
  unfold User.has_phNo in Hno. rewrite Hkey, String.eqb_refl in Hno. discriminate.
Qed.

Lemma findOne_replace (c : User.collection) (phoneNumber : string) (u d : User.doc) :
  User.findOne c phoneNumber = Some u ->
  User.phNo d = User.phNo u ->
  User.findOne (User.replace d c) phoneNumber = Some d.
Proof.
  intros Hfind Hsame.
  destruct (findOne_some _ _ _ Hfind) as [_ Hkey].
  unfold User.findOne, User.replace in *.
  induction c as [|x r IH]; simpl in *; [discriminate|].
  destruct (User.has_phNo phoneNumber x) eqn:Hx.
  - inversion Hfind; subst x. rewrite <- Hsame, String.eqb_refl.
    rewrite has_phNo_key; [reflexivity | congruence].
  - destruct (String.eqb (User.phNo x) (User.phNo d)) eqn:Hxd.
    + apply String.eqb_eq in Hxd. unfold User.has_phNo in Hx.
      rewrite Hxd, Hsame, Hkey, String.eqb_refl in Hx. discriminate.
    + rewrite Hx. apply IH. exact Hfind.
Qed.

Lemma findOne_replace_other (c : User.collection) (phoneNumber : string) (d : User.doc) :
  User.has_phNo phoneNumber d = false ->
  User.findOne (User.replace d c) phoneNumber = User.findOne c phoneNumber.
Proof.
  intros Hother. unfold User.findOne, User.replace.
  induction c as [|x r IH]; simpl; [reflexivity|].
  destruct (String.eqb (User.phNo x) (User.phNo d)) eqn:Hxd.
  - apply String.eqb_eq in Hxd. rewrite Hother.
    assert (Hx : User.has_phNo phoneNumber x = false)
      by (unfold User.has_phNo in *; rewrite Hxd; exact Hother).
    rewrite Hx. exact IH.
  - destruct (User.has_phNo phoneNumber x); [reflexivity | exact IH].
Qed.

Lemma replace_keys (d : User.doc) (c : User.collection) :
  map User.phNo (User.replace d c) = map User.phNo c.
Proof.
  unfold User.replace. rewrite map_map. apply map_ext. intros x.
  destruct (String.eqb (User.phNo x) (User.phNo d)) eqn:Hxd; [|reflexivity].
  apply String.eqb_eq in Hxd. congruence.
Qed.

Lemma consumed_valid (u : User.doc) (t : Z) :
  User.validate u = Ok tt -> 0 < User.blance u -> User.validate (consumed u t) = Ok tt.
Proof.
  intros Hvalid Hpos. apply validate_ok in Hvalid. destruct Hvalid as [Hphone [Hb Hs]].
  apply validate_intro; simpl; [exact Hphone | lia | lia].
Qed.

(** An existing, valid account with a positive balance is admitted: one
    credit goes from the balance to the usage counter and the stored account
    is replaced by the new snapshot. *)
Lemma manageUserCredits_admits (config : Config) (phoneNumber : string) (w : World)
      (u : User.doc) :
  User.findOne (users w) phoneNumber = Some u ->
  User.validate u = Ok tt ->
  0 < User.blance u ->
  SMSController.manageUserCredits config phoneNumber w
  = (Ok (Some (consumed u (now w))),
     set_users w (User.replace (consumed u (now w)) (users w))).
Proof.
  intros Hfind Hvalid Hpos.
  unfold SMSController.manageUserCredits, bind, gets, ret, on_users, User.save,
    User.consumeCredit.
  rewrite Hfind.
  destruct (Z.leb_spec (User.blance u) 0) as [Hle|_]; [lia|].
  destruct (Z.ltb_spec 0 (User.blance u)) as [_|Hno]; [|lia]. simpl.
  fold (consumed u (now w)). rewrite (consumed_valid u (now w) Hvalid Hpos). reflexivity.
Qed.

(** X1.  For an existing account that satisfies the schema, of [n] admission
    calls made in a row exactly [min n b] are admitted, where [b] is the
    balance before the first call: one message per credit, then refusals. *)
Theorem admitted_exactly_balance_times :
  forall (config : Config) (phoneNumber : string) (n : nat) (w : World) (u : User.doc),
    User.findOne (users w) phoneNumber = Some u ->
    User.validate u = Ok tt ->
    fst (admit_times config phoneNumber n w) = Nat.min n (Z.to_nat (User.blance u)).
Proof.
  intros config phoneNumber n. induction n as [|n IH]; intros w u Hfind Hvalid.
  - reflexivity.
  - simpl admit_times.
    destruct (Z.lt_ge_cases 0 (User.blance u)) as [Hpos|Hzero].
    + rewrite (manageUserCredits_admits config phoneNumber w u Hfind Hvalid Hpos).
      destruct (admit_times config phoneNumber n _) as [count w2] eqn:Hrest.
      cbn [fst].
      assert (Hcount : count = Nat.min n (Z.to_nat (User.blance (consumed u (now w))))).
      { change count with (fst (count, w2)). rewrite <- Hrest. apply IH.
        - simpl. apply (findOne_replace _ _ u); [exact Hfind | reflexivity].
        - apply consumed_valid; assumption. }
      rewrite Hcount. unfold consumed. cbn [User.blance fst]. lia.
    + rewrite (manageUserCredits_blocked config phoneNumber w u Hfind) by lia.
      destruct (admit_times config phoneNumber n w) as [count w2] eqn:Hrest.
      cbn [fst]. change count with (fst (count, w2)). rewrite <- Hrest.
      rewrite (IH w u Hfind Hvalid). lia.
Qed.

Lemma admitted_exactly_balance_times_witness :
  fst (admit_times default_config "+15551234567" 5 (boot [last_credit] [] [] 0)) = 1%nat.
Proof.
  exact (admitted_exactly_balance_times default_config "+15551234567" 5
           (boot [last_credit] [] [] 0) last_credit eq_refl eq_refl).
Defined.

(** X2.  For a text that is no command, sent from an account whose balance is
    0 or less, [processUserMessage] writes the reply "Account blocked. Please
    contact support." and changes nothing else: no provider call, no turn, no
    credit, no timer. *)
Theorem blocked_account_reply_only :
  forall (env : Env) (config : Config) (phoneNumber message : string) (w : World)
         (u : User.doc),
    is_command message = false ->
    User.findOne (users w) phoneNumber = Some u ->
    User.blance u <= 0 ->
    SMSController.processUserMessage env config phoneNumber message w
    = (Ok tt, set_replies w (replies w ++ [SMSController.blocked_reply])%list).
Proof.
  intros env config phoneNumber message w u Hno Hfind Hzero.
  unfold SMSController.processUserMessage, try_catch, bind.
  rewrite (handleSpecialCommands_not_command phoneNumber message w Hno).
  rewrite (manageUserCredits_blocked config phoneNumber w u Hfind Hzero).
  reflexivity.
Qed.

Lemma blocked_account_reply_only_witness :
  SMSController.processUserMessage env_up default_config "+15551234567" "Are you there?"
    (boot [old_account] [] [] 1000)
  = (Ok tt, set_replies (boot [old_account] [] [] 1000) [SMSController.blocked_reply]).
Proof.
  apply (blocked_account_reply_only env_up default_config "+15551234567" "Are you there?"
           (boot [old_account] [] [] 1000) old_account).
  - reflexivity.
  - reflexivity.
  - vm_compute. discriminate.
Defined.

(** ** The router on every path *)

(** The three ways [routeMessage] can run *)
Lemma routeMessage_cases :
  forall (env : Env) (message : string) (history : list HistoryEntry)
         (options : Options) (w : World),
    let call := mkGrokCall message history options in
    let first :=
      GrokService.getResponse (grok_post env (List.length (grok_calls w)) call) in
    (forall text,
        AIRouterService.selectProvider message history options = "grok" ->
        first = Ok text ->
        AIRouterService.routeMessage env message history options w
        = (Ok text, set_grok_calls w (grok_calls w ++ [call])%list))
    /\ (AIRouterService.selectProvider message history options <> "grok" ->
        AIRouterService.routeMessage env message history options w
        = (match first with
           | Ok text => Ok text
           | Throw _ => Throw AIRouterService.all_unavailable
           end,
           set_grok_calls w (grok_calls w ++ [call])%list))
    /\ exists r calls,
         AIRouterService.routeMessage env message history options w
         = (r, set_grok_calls w (grok_calls w ++ calls)%list)
         /\ (calls = [call] \/ calls = [call; call]).
Proof.
  intros env message history options w. cbv zeta.
  unfold AIRouterService.routeMessage, AIRouterService.selected_call, try_catch,
    GrokService.getConversationalResponse, throw.
  cbv beta zeta.
  set (call := mkGrokCall message history options).
  destruct (String.eqb (AIRouterService.selectProvider message history options) "grok")
    eqn:Hsel.
  - apply String.eqb_eq in Hsel.
    split; [intros text _ Hfirst; rewrite Hfirst; reflexivity|].
    split; [intros Hne; contradiction|].
    destruct (GrokService.getResponse
                (grok_post env (List.length (grok_calls w)) call)) as [text|e].
    + eexists. exists [call]. split; [reflexivity | left; reflexivity].
    + unfold set_grok_calls. simpl. rewrite <- app_assoc. simpl.
      destruct (GrokService.getResponse _);
        eexists; exists [call; call]; (split; [reflexivity | right; reflexivity]).
  - apply String.eqb_neq in Hsel.
    split; [intros text Hgrok; contradiction|].
    destruct (String.eqb (AIRouterService.selectProvider message history options)
                "openai");
      simpl; fold call;
      destruct (GrokService.getResponse
                  (grok_post env (List.length (grok_calls w)) call));
      (split; [intros _; reflexivity|]);
      eexists; exists [call]; (split; [reflexivity | left; reflexivity]).
Qed.

(** X3.  When the primary provider is selected and its call succeeds,
    [routeMessage] returns that text after this one call.  When anything else
    is selected (the override ["openai"], an unknown name), no call is made
    for the selection and the single call of the primary decides the result.
    In every case the router makes one or two calls, each with the caller's
    message, history and options. *)
Theorem routeMessage_calls :
  forall (env : Env) (message : string) (history : list HistoryEntry)
         (options : Options) (w : World),
    let call := mkGrokCall message history options in
    let first :=
      GrokService.getResponse (grok_post env (List.length (grok_calls w)) call) in
    (forall text,
        AIRouterService.selectProvider message history options = "grok" ->
        first = Ok text ->
        AIRouterService.routeMessage env message history options w
        = (Ok text, set_grok_calls w (grok_calls w ++ [call])%list))
    /\ (AIRouterService.selectProvider message history options <> "grok" ->
        AIRouterService.routeMessage env message history options w
        = (match first with
           | Ok text => Ok text
           | Throw _ => Throw AIRouterService.all_unavailable
           end,
           set_grok_calls w (grok_calls w ++ [call])%list))
    /\ exists r calls,
         AIRouterService.routeMessage env message history options w
         = (r, set_grok_calls w (grok_calls w ++ calls)%list)
         /\ (calls = [call] \/ calls = [call; call]).
Proof. exact routeMessage_cases. Qed.

Lemma routeMessage_calls_witness :
  AIRouterService.routeMessage env_up "hello" [] openai_override (boot [] [] [] 0)
  = (Ok "Hello! How can I help?",
     set_grok_calls (boot [] [] [] 0) [mkGrokCall "hello" [] openai_override]).
Proof.
  apply (proj1 (proj2 (routeMessage_calls env_up "hello" [] openai_override
                         (boot [] [] [] 0)))).
  vm_compute. discriminate.
Defined.

(** ** What each stage of the pipeline may touch *)

Lemma generateAIResponse_shape (env : Env) (phoneNumber message : string) (w : World) :
  exists r ms calls,
    SMSController.generateAIResponse env phoneNumber message w
    = (r, set_grok_calls (set_messages w ms) calls).
Proof.
  assert (Hid : w = set_grok_calls (set_messages w (messages w)) (grok_calls w))
    by (destruct w; reflexivity).
  unfold SMSController.generateAIResponse, bind, on_messages, gets, Message.create, ret.
  destruct (Message.validate _) as [x|e];
    [|exists (Throw e), (messages w), (grok_calls w); rewrite <- Hid; reflexivity].
  match goal with
  | |- context [AIRouterService.routeMessage ?e ?m ?h ?o ?w1] =>
      destruct (routeMessage_cases e m h o w1) as [_ [_ [r [calls [Hroute _]]]]];
      rewrite Hroute
  end.
  destruct r as [text|e]; [|eexists; eexists; eexists; reflexivity].
  simpl. destruct (Message.validate _); eexists; eexists; eexists; reflexivity.
Qed.

Lemma handleLongResponse_shape (config : Config) (phoneNumber response : string)
      (w : World) :
  exists r rs,
    SMSController.handleLongResponse config phoneNumber response w = (r, set_remaining w rs).
Proof.
  assert (Hid : w = set_remaining w (remaining w)) by (destruct w; reflexivity).
  unfold SMSController.handleLongResponse, bind, on_remaining, ret.
  destruct (_ <=? _); [exists (Ok response), (remaining w); rewrite <- Hid; reflexivity|].
  destruct (RemainingMessage.createRemainingMessage _ _ _ _ _) as [[d|e] c].
  - eexists. exists c. reflexivity.
  - exists (Throw e), (remaining w). rewrite <- Hid. reflexivity.
Qed.

(** The notification step schedules the notifications that are due for the
    snapshot, and nothing else. *)
Lemma sendNotificationMessages_timers (phoneNumber : string) (u : User.doc) (w : World) :
  SMSController.sendNotificationMessages phoneNumber u w
  = (Ok tt, set_timers w (timers w ++ notifications_due phoneNumber u)%list).
Proof.
  unfold SMSController.sendNotificationMessages, notifications_due, bind,
    SMSController.setTimeout, modify, ret.
  destruct w.
  destruct (User.smsSent u =? 1), (User.blance u =? 10), (User.blance u <? 2);
    unfold set_timers; simpl; rewrite <- ?app_assoc, ?app_nil_r; reflexivity.
Qed.

Section Outcomes.
Variable env : Env.
Variable config : Config.

(** Every way [processUserMessage] can end: it returns after writing exactly
    one reply, or it throws having written none; the accounts are as before,
    or without the sender's, or as the admission call left them; and timers
    are scheduled only by a message that was admitted and answered, for the
    snapshot that the admission returned. *)
Lemma processUserMessage_outcome (phoneNumber message : string) (w : World) :
  let result := SMSController.processUserMessage env config phoneNumber message w in
  ((fst result = Ok tt
    /\ exists reply, replies (snd result) = (replies w ++ [reply])%list)
   \/ ((exists e, fst result = Throw e) /\ replies (snd result) = replies w))
  /\ (users (snd result) = users w
      \/ users (snd result) = User.deleteOne phoneNumber (users w)
      \/ users (snd result)
         = users (snd (SMSController.manageUserCredits config phoneNumber w)))
  /\ (timers (snd result) = timers w
      \/ exists u,
           fst (SMSController.manageUserCredits config phoneNumber w) = Ok (Some u)
           /\ fst result = Ok tt
           /\ timers (snd result) = (timers w ++ notifications_due phoneNumber u)%list).
Proof.
  unfold SMSController.processUserMessage, try_catch, bind.
  destruct (handleSpecialCommands_shape phoneNumber message w)
    as [r0 [w1 [Hcmd [Hsame [Hreply [Hthrow [_ [Htimers Husers]]]]]]]].
  rewrite Hcmd. destruct r0 as [[|]|e0].
  - simpl. split; [left; split; [reflexivity | exact (Hreply eq_refl)]|].
    split; [destruct Husers as [->| ->]; auto|]. left. exact Htimers.
  - rewrite (Hsame eq_refl).
    destruct (manageUserCredits_frame config phoneNumber w) as [r [c Hadmit]].
    rewrite Hadmit. simpl.
    destruct r as [[u|]|e].
    + destruct (generateAIResponse_shape env phoneNumber message (set_users w c))
        as [r1 [ms [calls Hgen]]].
      rewrite Hgen. destruct r1 as [aiResponse|e].
      * match goal with
        | |- context [SMSController.handleLongResponse config phoneNumber aiResponse ?w2] =>
            destruct (handleLongResponse_shape config phoneNumber aiResponse w2)
              as [r2 [rs Hlong]]; rewrite Hlong
        end.
        destruct r2 as [finalResponse|e].
        -- destruct (TwilioService.xml_legal finalResponse) eqn:Hlegal.
           ++ rewrite (sendTwiMLResponse_legal _ _ Hlegal).
              rewrite sendNotificationMessages_timers.
              simpl. split; [left; split; [reflexivity | eexists; reflexivity]|].
              split; [right; right; reflexivity|].
              right. exists u. repeat split.
           ++ rewrite (sendTwiMLResponse_refused _ _ Hlegal).
              simpl. split; [right; split; [eexists; reflexivity | reflexivity]|].
              split; [right; right; reflexivity | left; reflexivity].
        -- simpl. split; [right; split; [eexists; reflexivity | reflexivity]|].
           split; [right; right; reflexivity | left; reflexivity].
      * simpl. split; [right; split; [eexists; reflexivity | reflexivity]|].
        split; [right; right; reflexivity | left; reflexivity].
    + rewrite sendTwiMLResponse_legal by reflexivity.
      simpl. split; [left; split; [reflexivity | eexists; reflexivity]|].
      split; [right; right; reflexivity | left; reflexivity].
    + simpl. split; [right; split; [eexists; reflexivity | reflexivity]|].
      split; [right; right; reflexivity | left; reflexivity].
  - rewrite (Hthrow e0 eq_refl). simpl.
    split; [right; split; [eexists; reflexivity | reflexivity]|].
    split; left; reflexivity.
Qed.


(** X4.  [handleIncomingSMS] never throws, and it writes exactly one reply
    for every inbound message, whatever the providers, the stored data and the
    payload are. *)
Theorem handleIncomingSMS_replies_once :
  forall (req : Request) (w : World),
    fst (SMSController.handleIncomingSMS env config req w) = Ok tt
    /\ exists reply,
         replies (snd (SMSController.handleIncomingSMS env config req w))
         = (replies w ++ [reply])%list.
Proof.
  intros req w.
  unfold SMSController.handleIncomingSMS, try_catch, bind.
  destruct (handleAudioInbound_frame env req w) as [r [ds [ws Haudio]]].
  rewrite Haudio. set (w1 := set_whisper_calls (set_downloads w ds) ws).
  destruct r as [audio|e]; [|simpl; split; [reflexivity | eexists; reflexivity]].
  destruct (match AudioInboundService.transcript audio with
            | Some t => String.eqb t "audio too large"
            | None => false
            end); [simpl; split; [reflexivity | eexists; reflexivity]|].
  destruct (negb (JsString.truthy _));
    [simpl; split; [reflexivity | eexists; reflexivity]|].
  match goal with
  | |- context [SMSController.processUserMessage env config ?p ?m w1] =>
      pose proof (processUserMessage_outcome p m w1) as [Hout _];
      destruct (SMSController.processUserMessage env config p m w1) as [r1 w2]
  end.
  simpl in Hout. destruct Hout as [[Hok [reply Hreplies]]|[[e He] Hreplies]].
  - subst r1. simpl. split; [reflexivity | exists reply; exact Hreplies].
  - subst r1. simpl. split; [reflexivity|].
    rewrite Hreplies. eexists. reflexivity.
Qed.

End Outcomes.

(** ** The stored accounts stay well formed *)

Lemma validate_unit (d : User.doc) (x : unit) :
  User.validate d = Ok x -> User.validate d = Ok tt.
Proof. destruct x. exact (fun H => H). Qed.

Lemma deleteOne_keys (phoneNumber : string) (c : User.collection) (k : string) :
  In k (map User.phNo (User.deleteOne phoneNumber c)) -> In k (map User.phNo c).
Proof.
  induction c as [|d r IH]; simpl; [tauto|].
  destruct (User.has_phNo phoneNumber d); simpl; [tauto|].
  intros [Hk|Hk]; [left; exact Hk | right; exact (IH Hk)].
Qed.

Lemma deleteOne_wf (phoneNumber : string) (c : User.collection) :
  users_wf c -> users_wf (User.deleteOne phoneNumber c).
Proof.
  unfold users_wf. induction c as [|d r IH]; simpl; [tauto|].
  intros [Hvalid Hnodup]. inversion Hvalid; subst. inversion Hnodup; subst.
  destruct (User.has_phNo phoneNumber d); [split; assumption|].
  destruct IH as [IHvalid IHnodup]; [split; assumption|].
  split; [constructor; assumption|]. simpl. constructor; [|exact IHnodup].
  intros Hin. apply deleteOne_keys in Hin. contradiction.
Qed.

Lemma manageUserCredits_wf (config : Config) (phoneNumber : string) (w : World) :
  users_wf (users w) ->
  users_wf (users (snd (SMSController.manageUserCredits config phoneNumber w))).
Proof.
  intros [Hvalid Hnodup].
  unfold SMSController.manageUserCredits, bind, gets, ret.
  destruct (User.findOne (users w) phoneNumber) as [u|] eqn:Hfind.
  - destruct (User.blance u <=? 0); [split; assumption|].
    unfold on_users, User.save.
    destruct (User.validate _) as [x|e] eqn:Hval; simpl; [|split; assumption].
    apply validate_unit in Hval. split.
    + unfold User.replace. rewrite Forall_map. eapply Forall_impl; [|exact Hvalid].
      intros y Hy. simpl. destruct (String.eqb _ _); assumption.
    + rewrite replace_keys. exact Hnodup.
  - unfold on_users, User.create.
    destruct (User.validate _) as [x|e] eqn:Hval; simpl; [|split; assumption].
    rewrite Hfind. simpl. apply validate_unit in Hval. split.
    + apply Forall_app. split; [exact Hvalid | constructor; [exact Hval | constructor]].
    + rewrite map_app. simpl. apply NoDup_app; [exact Hnodup | |].
      * constructor; [intros [] | constructor].
      * intros k Hk [Heq|[]]. subst k. exact (findOne_none _ _ Hfind Hk).
Qed.

(** X5.  If every stored account satisfies the schema validators and no two
    share a phone number, the same holds after [handleIncomingSMS], whatever
    the message does (command, admission of an old or new sender, failure). *)
Theorem handleIncomingSMS_keeps_users_wf :
  forall (env : Env) (config : Config) (req : Request) (w : World),
    users_wf (users w) ->
    users_wf (users (snd (SMSController.handleIncomingSMS env config req w))).
Proof.
  intros env config req w Hwf.
  unfold SMSController.handleIncomingSMS, try_catch, bind.
  destruct (handleAudioInbound_frame env req w) as [r [ds [ws Haudio]]].
  rewrite Haudio. set (w1 := set_whisper_calls (set_downloads w ds) ws).
  destruct r as [audio|e]; [|exact Hwf].
  destruct (match AudioInboundService.transcript audio with
            | Some t => String.eqb t "audio too large"
            | None => false
            end); [exact Hwf|].
  destruct (negb (JsString.truthy _)); [exact Hwf|].
  match goal with
  | |- context [SMSController.processUserMessage env config ?p ?m w1] =>
      pose proof (processUserMessage_outcome env config p m w1) as [_ [Husers _]];
      pose proof (manageUserCredits_wf config p w1 Hwf) as Hadmit;
      pose proof (deleteOne_wf p (users w1) Hwf) as Hdelete;
      destruct (SMSController.processUserMessage env config p m w1) as [r1 w2]
  end.
  simpl in Husers.
  assert (Hw2 : users_wf (users w2)).
  { destruct Husers as [->|[->| ->]]; assumption. }
  destruct r1; exact Hw2.
Qed.

Lemma handleIncomingSMS_keeps_users_wf_witness :
  users_wf (users (snd (SMSController.handleIncomingSMS env_up default_config
                          (mkRequest "+15559876543" (Some "Hello") None None)
                          (boot [last_credit] [] [] 1000)))).
Proof.
  apply handleIncomingSMS_keeps_users_wf.
  split; [repeat constructor | repeat constructor; simpl; tauto].
Defined.

(** ** A message that is answered, and one that is not *)

Lemma message_create_ok (t : Z) (phoneNumber : string) (r : Message.Role)
      (text : string) (c : Message.collection) :
  phone_key phoneNumber <> EmptyString ->
  JsString.trim text <> EmptyString ->
  (String.length (JsString.trim text) <= 2000)%nat ->
  Message.create t phoneNumber r text c
  = (Ok (stored_turn phoneNumber r text t), (c ++ [stored_turn phoneNumber r text t])%list).
Proof.
  intros Hphone Htext Hlen. unfold Message.create, Message.validate. simpl.
  rewrite (is_empty_false _ Hphone), (is_empty_false _ Htext).
  destruct (Nat.ltb_spec 2000 (String.length (JsString.trim text))); [lia|].
  reflexivity.
Qed.

Lemma valid_account_key (c : User.collection) (phoneNumber : string) (u : User.doc) :
  User.findOne c phoneNumber = Some u ->
  User.validate u = Ok tt ->
  phone_key phoneNumber <> EmptyString.
Proof.
  intros Hfind Hvalid. destruct (findOne_some _ _ _ Hfind) as [_ Hkey].
  apply validate_ok in Hvalid. destruct Hvalid as [Hphone _].
  rewrite Hkey in Hphone. intros Hempty. rewrite Hempty in Hphone. discriminate.
Qed.

(** X6.  For a text that is no command from a valid account with a positive
    balance, when the provider answers with a text that the schema accepts,
    that fits one SMS and that holds no code unit forbidden by XML 1.0: the
    reply is the provider's text as received, the user turn and then the
    assistant turn are stored with their texts trimmed, the account loses one
    credit, no continuation is stored and the provider is called once, with
    the message. *)
Theorem answered_message_effects :
  forall (env : Env) (config : Config) (phoneNumber message text : string)
         (w : World) (u : User.doc),
    is_command message = false ->
    User.findOne (users w) phoneNumber = Some u ->
    User.validate u = Ok tt ->
    0 < User.blance u ->
    JsString.trim message <> EmptyString ->
    (String.length (JsString.trim message) <= 2000)%nat ->
    (forall call, grok_post env (List.length (grok_calls w)) call = PostText text) ->
    JsString.trim text <> EmptyString ->
    (String.length (JsString.trim text) <= 2000)%nat ->
    Z.of_nat (String.length text) <= maxSmsLength config ->
    TwilioService.xml_legal text = true ->
    let u' := consumed u (now w) in
    let userTurn := stored_turn phoneNumber Message.RoleUser message (now w) in
    let assistantTurn := stored_turn phoneNumber Message.RoleAssistant text (now w) in
    let result := SMSController.processUserMessage env config phoneNumber message w in
    fst result = Ok tt
    /\ replies (snd result) = (replies w ++ [text])%list
    /\ messages (snd result) = (messages w ++ [userTurn; assistantTurn])%list
    /\ users (snd result) = User.replace u' (users w)
    /\ User.findOne (users (snd result)) phoneNumber = Some u'
    /\ remaining (snd result) = remaining w
    /\ (exists call, grok_calls (snd result) = (grok_calls w ++ [call])%list
                     /\ call_message call = message).
Proof.
  intros env config phoneNumber message text w u Hno Hfind Hvalid Hpos Hmsg Hmsglen
         Hpost Htext Htextlen Hshort Hlegal u' userTurn assistantTurn.
  pose proof (valid_account_key _ _ _ Hfind Hvalid) as Hkey.
  assert (Hrun :
            exists call ts,
              call_message call = message
              /\ SMSController.processUserMessage env config phoneNumber message w
                 = (Ok tt,
                    mkWorld (User.replace u' (users w))
                            ((messages w ++ [userTurn]) ++ [assistantTurn])%list
                            (remaining w) (now w) (replies w ++ [text])%list ts
                            (outbox w) (grok_calls w ++ [call])%list
                            (downloads w) (whisper_calls w))).
  { unfold SMSController.processUserMessage, try_catch, bind.
    rewrite (handleSpecialCommands_not_command phoneNumber message w Hno).
    rewrite (manageUserCredits_admits config phoneNumber w u Hfind Hvalid Hpos).
    fold u'.
    unfold SMSController.generateAIResponse, bind, on_messages, gets, ret.
    cbn [now messages set_users].
    rewrite (message_create_ok _ _ _ _ _ Hkey Hmsg Hmsglen). fold userTurn.
    match goal with
    | |- context [AIRouterService.routeMessage env message ?h no_options ?w1] =>
        destruct (routeMessage_cases env message h no_options w1) as [Hsuccess _];
        rewrite (Hsuccess text
                   (selectProvider_without_override message h no_options eq_refl)
                   (f_equal GrokService.getResponse (Hpost _)));
        clear Hsuccess;
        set (call := mkGrokCall message h no_options)
    end.
    cbn [now messages set_users set_messages set_grok_calls].
    rewrite (message_create_ok _ _ _ _ _ Hkey Htext Htextlen). fold assistantTurn.
    unfold SMSController.handleLongResponse.
    destruct (Z.leb_spec (Z.of_nat (String.length text)) (maxSmsLength config))
      as [_|Hlong]; [|lia].
    unfold ret. rewrite (sendTwiMLResponse_legal _ _ Hlegal).
    rewrite sendNotificationMessages_timers.
    exists call. eexists. split; reflexivity. }
  destruct Hrun as [call [ts [Hcall Hrun]]].
  intros result. unfold result. rewrite Hrun. simpl.
  split; [reflexivity|]. split; [reflexivity|].
  split; [rewrite <- app_assoc; reflexivity|]. split; [reflexivity|].
  split; [apply (findOne_replace _ _ u); [exact Hfind | reflexivity]|].
  split; [reflexivity|]. exists call. split; [reflexivity | exact Hcall].
Qed.

Lemma answered_message_effects_witness :
  let result := SMSController.processUserMessage env_up default_config "+15551234567"
                  "  Hello there " (boot [last_credit] [] [] 1000) in
  replies (snd result) = ["Hello! How can I help?"]
  /\ map Message.content (messages (snd result))
     = ["Hello there"; "Hello! How can I help?"]
  /\ map User.blance (users (snd result)) = [0].
Proof.
  intros result.
  destruct (answered_message_effects env_up default_config "+15551234567"
              "  Hello there " "Hello! How can I help?"
              (boot [last_credit] [] [] 1000) last_credit)
    as [_ [Hreplies [Hmessages [Husers _]]]];
    try reflexivity; try (vm_compute; discriminate); try (vm_compute; lia).
  fold result in Hreplies, Hmessages, Husers.
  rewrite Hreplies, Hmessages, Husers. repeat split.
Defined.

(** X7.  For a text that is no command from a valid account with a positive
    balance, when the provider is down for the selected call and the
    fallback: [processUserMessage] throws without writing a reply, and the
    stored account has one credit less; nothing gives the credit back. *)
Theorem failed_generation_keeps_credit_spent :
  forall (env : Env) (config : Config) (phoneNumber message : string)
         (w : World) (u : User.doc),
    is_command message = false ->
    User.findOne (users w) phoneNumber = Some u ->
    User.validate u = Ok tt ->
    0 < User.blance u ->
    grok_down_at env (List.length (grok_calls w)) ->
    grok_down_at env (S (List.length (grok_calls w))) ->
    let result := SMSController.processUserMessage env config phoneNumber message w in
    (exists e, fst result = Throw e)
    /\ replies (snd result) = replies w
    /\ User.findOne (users (snd result)) phoneNumber = Some (consumed u (now w))
    /\ User.blance (consumed u (now w)) = User.blance u - 1.
Proof.
  intros env config phoneNumber message w u Hno Hfind Hvalid Hpos Hfirst Hsecond.
  unfold SMSController.processUserMessage, try_catch, bind.
  rewrite (handleSpecialCommands_not_command phoneNumber message w Hno).
  rewrite (manageUserCredits_admits config phoneNumber w u Hfind Hvalid Hpos).
  destruct (generateAIResponse_down env phoneNumber message
              (set_users w (User.replace (consumed u (now w)) (users w)))
              Hfirst Hsecond) as [e [w2 [Hgen Hcases]]].
  rewrite Hgen. simpl.
  assert (Hafter : User.findOne (User.replace (consumed u (now w)) (users w)) phoneNumber
                   = Some (consumed u (now w)))
    by (apply (findOne_replace _ _ u); [exact Hfind | reflexivity]).
  destruct Hcases as [->|[userTurn [calls [_ [-> _]]]]]; simpl;
    (split; [exists e; reflexivity|]); (split; [reflexivity|]);
    (split; [exact Hafter | reflexivity]).
Qed.

Lemma failed_generation_keeps_credit_spent_witness :
  let result := SMSController.processUserMessage env_down default_config "+15551234567"
                  "Hello there" (boot [last_credit] [] [] 1000) in
  map User.blance (users (snd result)) = [0] /\ replies (snd result) = [].
Proof.
  intros result.
  destruct (failed_generation_keeps_credit_spent env_down default_config "+15551234567"
              "Hello there" (boot [last_credit] [] [] 1000) last_credit)
    as [_ [Hreplies _]];
    try reflexivity; try (intros call; reflexivity).
  split; [reflexivity | exact Hreplies].
Defined.

(** Generation when the provider answers with a text that the schema accepts:
    the user turn, one call, the assistant turn. *)
Lemma generateAIResponse_answers (env : Env) (phoneNumber message text : string)
      (w : World) :
  phone_key phoneNumber <> EmptyString ->
  JsString.trim message <> EmptyString ->
  (String.length (JsString.trim message) <= 2000)%nat ->
  (forall call, grok_post env (List.length (grok_calls w)) call = PostText text) ->
  JsString.trim text <> EmptyString ->
  (String.length (JsString.trim text) <= 2000)%nat ->
  exists call,
    call_message call = message
    /\ SMSController.generateAIResponse env phoneNumber message w
       = (Ok text,
          set_grok_calls
            (set_messages w
               (messages w
                  ++ [stored_turn phoneNumber Message.RoleUser message (now w);
                      stored_turn phoneNumber Message.RoleAssistant text (now w)])%list)
            (grok_calls w ++ [call])%list).
Proof.
  intros Hkey Hmsg Hmsglen Hpost Htext Htextlen.
  unfold SMSController.generateAIResponse, bind, on_messages, gets, ret.
  rewrite (message_create_ok _ _ _ _ _ Hkey Hmsg Hmsglen).
  match goal with
  | |- context [AIRouterService.routeMessage env message ?h no_options ?w1] =>
      destruct (routeMessage_cases env message h no_options w1) as [Hsuccess _];
      rewrite (Hsuccess text
                 (selectProvider_without_override message h no_options eq_refl)
                 (f_equal GrokService.getResponse (Hpost _)));
      clear Hsuccess;
      exists (mkGrokCall message h no_options)
  end.
  cbn [now messages set_messages set_grok_calls].
  rewrite (message_create_ok _ _ _ _ _ Hkey Htext Htextlen).
  split; [reflexivity|]. unfold set_grok_calls, set_messages. simpl.
  rewrite <- app_assoc. reflexivity.
Qed.

(** X25.  For a text that is no command from a valid account with a positive
    balance, when the provider answers with a text that the schema accepts and
    that fits one SMS but holds a code unit forbidden by XML 1.0: the TwiML
    builder refuses the reply, so [processUserMessage] throws and writes no
    reply, although the credit is spent and both turns, the answer included,
    are stored; no notification is scheduled. *)
Theorem refused_reply_is_stored_and_charged :
  forall (env : Env) (config : Config) (phoneNumber message text : string)
         (w : World) (u : User.doc),
    is_command message = false ->
    User.findOne (users w) phoneNumber = Some u ->
    User.validate u = Ok tt ->
    0 < User.blance u ->
    JsString.trim message <> EmptyString ->
    (String.length (JsString.trim message) <= 2000)%nat ->
    (forall call, grok_post env (List.length (grok_calls w)) call = PostText text) ->
    JsString.trim text <> EmptyString ->
    (String.length (JsString.trim text) <= 2000)%nat ->
    Z.of_nat (String.length text) <= maxSmsLength config ->
    TwilioService.xml_legal text = false ->
    let result := SMSController.processUserMessage env config phoneNumber message w in
    fst result = Throw TwilioService.invalid_character
    /\ replies (snd result) = replies w
    /\ messages (snd result)
       = (messages w
            ++ [stored_turn phoneNumber Message.RoleUser message (now w);
                stored_turn phoneNumber Message.RoleAssistant text (now w)])%list
    /\ User.findOne (users (snd result)) phoneNumber = Some (consumed u (now w))
    /\ timers (snd result) = timers w.
Proof.
  intros env config phoneNumber message text w u Hno Hfind Hvalid Hpos Hmsg Hmsglen
         Hpost Htext Htextlen Hshort Hbad.
  pose proof (valid_account_key _ _ _ Hfind Hvalid) as Hkey.
  unfold SMSController.processUserMessage, try_catch, bind.
  rewrite (handleSpecialCommands_not_command phoneNumber message w Hno).
  rewrite (manageUserCredits_admits config phoneNumber w u Hfind Hvalid Hpos).
  destruct (generateAIResponse_answers env phoneNumber message text
              (set_users w (User.replace (consumed u (now w)) (users w)))
              Hkey Hmsg Hmsglen Hpost Htext Htextlen) as [call [_ Hgen]].
  rewrite Hgen.
  unfold SMSController.handleLongResponse.
  destruct (Z.leb_spec (Z.of_nat (String.length text)) (maxSmsLength config))
    as [_|Hlong]; [|lia].
  unfold ret. rewrite (sendTwiMLResponse_refused _ _ Hbad). simpl.
  repeat split. apply (findOne_replace _ _ u); [exact Hfind | reflexivity].
Qed.

Lemma refused_reply_is_stored_and_charged_witness :
  let result := SMSController.processUserMessage env_tabbed default_config "+15551234567"
                  "Two lines, please" (boot [last_credit] [] [] 1000) in
  replies (snd result) = []
  /\ map Message.content (messages (snd result)) = ["Two lines, please"; tabbed_text]
  /\ replies (snd (SMSController.handleIncomingSMS env_tabbed default_config
                     (mkRequest "+15551234567" (Some "Two lines, please") None None)
                     (boot [last_credit] [] [] 1000)))
     = [SMSController.generic_failure].
Proof.
  intros result.
  destruct (refused_reply_is_stored_and_charged env_tabbed default_config "+15551234567"
              "Two lines, please" tabbed_text (boot [last_credit] [] [] 1000) last_credit)
    as [_ [Hreplies [Hmessages _]]];
    try reflexivity; try (vm_compute; discriminate); try (vm_compute; lia).
  fold result in Hreplies, Hmessages.
  rewrite Hreplies, Hmessages. repeat split.
Defined.

(** ** Deleting history and account *)

Lemma filter_filter_keep {A} (f g : A -> bool) (l : list A) :
  (forall x, f x = true -> g x = true) -> filter f (filter g l) = filter f l.
Proof.
  intros Himp. induction l as [|x r IH]; simpl; [reflexivity|].
  destruct (g x) eqn:Hg; simpl.
  - rewrite IH. reflexivity.
  - destruct (f x) eqn:Hf; [|exact IH].
    rewrite (Himp x Hf) in Hg. discriminate.
Qed.

Lemma filter_filter_none {A} (f g : A -> bool) (l : list A) :
  (forall x, f x = true -> g x = false) -> filter f (filter g l) = [].
Proof.
  intros Himp. induction l as [|x r IH]; simpl; [reflexivity|].
  destruct (g x) eqn:Hg; simpl; [|exact IH].
  destruct (f x) eqn:Hf; [|exact IH].
  rewrite (Himp x Hf) in Hg. discriminate.
Qed.

Lemma limit_nil {A} (n : nat) : limit_ n (@nil A) = [].
Proof. destruct n; reflexivity. Qed.

Lemma history_after_delete (c : Message.collection) (phoneNumber : string) :
  (forall limit,
      Message.getConversationHistory (Message.deleteUserMessages c phoneNumber)
        phoneNumber limit = [])
  /\ (forall other limit,
         phone_key other <> phone_key phoneNumber ->
         Message.getConversationHistory (Message.deleteUserMessages c phoneNumber)
           other limit
         = Message.getConversationHistory c other limit).
Proof.
  unfold Message.getConversationHistory, Message.deleteUserMessages. split.
  - intros limit. rewrite filter_filter_none; [simpl; rewrite limit_nil; reflexivity|].
    intros x Hx. rewrite Hx. reflexivity.
  - intros other limit Hne. rewrite filter_filter_keep; [reflexivity|].
    intros x Hx. unfold Message.of_phone in *. apply String.eqb_eq in Hx.
    destruct (String.eqb_spec (Message.phone x) (phone_key phoneNumber)); [|reflexivity].
    congruence.
Qed.

Lemma lookup_after_deleteMany (c : RemainingMessage.collection) (phoneNumber : string) :
  (forall t,
      RemainingMessage.getLatestRemainingMessage
        t (RemainingMessage.deleteMany phoneNumber c) phoneNumber = None)
  /\ (forall other t,
         phone_key other <> phone_key phoneNumber ->
         RemainingMessage.getLatestRemainingMessage
           t (RemainingMessage.deleteMany phoneNumber c) other
         = RemainingMessage.getLatestRemainingMessage t c other).
Proof.
  unfold RemainingMessage.getLatestRemainingMessage, RemainingMessage.deleteMany. split.
  - intros t. rewrite filter_filter_none; [reflexivity|].
    intros x Hx. apply andb_true_iff in Hx. destruct Hx as [Hx _]. rewrite Hx. reflexivity.
  - intros other t Hne. rewrite filter_filter_keep; [reflexivity|].
    intros x Hx. apply andb_true_iff in Hx. destruct Hx as [Hx _].
    unfold RemainingMessage.of_phone in *. apply String.eqb_eq in Hx.
    destruct (String.eqb_spec (RemainingMessage.phone x) (phone_key phoneNumber));
      [|reflexivity].
    congruence.
Qed.

Lemma findOne_after_deleteOne (c : User.collection) (phoneNumber : string) :
  (NoDup (map User.phNo c) ->
   User.findOne (User.deleteOne phoneNumber c) phoneNumber = None)
  /\ (forall other,
         phone_key other <> phone_key phoneNumber ->
         User.findOne (User.deleteOne phoneNumber c) other = User.findOne c other).
Proof.
  unfold User.findOne. split.
  - induction c as [|d r IH]; simpl; [reflexivity|].
    intros Hnodup. inversion Hnodup as [|? ? Hnotin Hrest]; subst.
    destruct (User.has_phNo phoneNumber d) eqn:Hd.
    + destruct (find (User.has_phNo phoneNumber) r) as [x|] eqn:Hfind; [|reflexivity].
      exfalso. apply find_some in Hfind. destruct Hfind as [Hin Hx].
      apply Hnotin. unfold User.has_phNo in *.
      apply String.eqb_eq in Hd. apply String.eqb_eq in Hx.
      rewrite Hd, <- Hx. apply in_map. exact Hin.
    + simpl. rewrite Hd. apply IH. exact Hrest.
  - intros other Hne. induction c as [|d r IH]; simpl; [reflexivity|].
    destruct (User.has_phNo phoneNumber d) eqn:Hd.
    + assert (Hother : User.has_phNo other d = false).
      { unfold User.has_phNo in *. apply String.eqb_eq in Hd.
        apply String.eqb_neq. congruence. }
      rewrite Hother. reflexivity.
    + simpl. destruct (User.has_phNo other d); [reflexivity | exact IH].
Qed.

(** X8.  [delete account] (in any letter case, with surrounding blanks)
    answers with the confirmation; afterwards the sender has no account, no
    turn in the history and no continuation, and the account, history and
    continuations of every other phone number are as before. *)
Theorem delete_account_purges_sender_only :
  forall (env : Env) (config : Config) (phoneNumber message : string) (w : World),
    JsString.trim (JsString.toLowerCase message) = "delete account" ->
    NoDup (map User.phNo (users w)) ->
    let result := SMSController.processUserMessage env config phoneNumber message w in
    fst result = Ok tt
    /\ replies (snd result)
       = (replies w ++ ["Your account and all related data have been deleted."])%list
    /\ User.findOne (users (snd result)) phoneNumber = None
    /\ (forall limit,
           Message.getConversationHistory (messages (snd result)) phoneNumber limit = [])
    /\ (forall t,
           RemainingMessage.getLatestRemainingMessage
             t (remaining (snd result)) phoneNumber = None)
    /\ (forall other,
           phone_key other <> phone_key phoneNumber ->
           User.findOne (users (snd result)) other = User.findOne (users w) other
           /\ (forall limit,
                  Message.getConversationHistory (messages (snd result)) other limit
                  = Message.getConversationHistory (messages w) other limit)
           /\ (forall t,
                  RemainingMessage.getLatestRemainingMessage
                    t (remaining (snd result)) other
                  = RemainingMessage.getLatestRemainingMessage t (remaining w) other)).
Proof.
  intros env config phoneNumber message w Hcmd Hnodup result.
  assert (Hrun : result
                 = (Ok tt,
                    set_replies
                      (set_remaining
                         (set_messages
                            (set_users w (User.deleteOne phoneNumber (users w)))
                            (Message.deleteUserMessages (messages w) phoneNumber))
                         (RemainingMessage.deleteMany phoneNumber (remaining w)))
                      (replies w
                         ++ ["Your account and all related data have been deleted."])%list)).
  { unfold result, SMSController.processUserMessage, try_catch, bind,
      SMSController.handleSpecialCommands.
    rewrite Hcmd. reflexivity. }
  rewrite Hrun. simpl.
  destruct (findOne_after_deleteOne (users w) phoneNumber) as [Hgone Hothers].
  destruct (history_after_delete (messages w) phoneNumber) as [Hnone Hkept].
  destruct (lookup_after_deleteMany (remaining w) phoneNumber) as [Hnone' Hkept'].
  repeat split; auto.
Qed.

Lemma delete_account_purges_sender_only_witness :
  let result := SMSController.processUserMessage env_down default_config "+15551234567"
                  "Delete Account" (boot [last_credit] eleven_turns three_continuations 1000) in
  User.findOne (users (snd result)) "+15551234567" = None
  /\ Message.getConversationHistory (messages (snd result)) "+15551234567" 10 = []
  /\ RemainingMessage.getLatestRemainingMessage
       1000 (remaining (snd result)) "+15551234567" = None.
Proof.
  intros result.
  assert (Hnodup : NoDup (map User.phNo
                            (users (boot [last_credit] eleven_turns three_continuations 1000))))
    by (simpl; repeat constructor; simpl; tauto).
  destruct (delete_account_purges_sender_only env_down default_config "+15551234567"
              "Delete Account" (boot [last_credit] eleven_turns three_continuations 1000)
              eq_refl Hnodup) as [_ [_ [Hgone [Hturns [Hparts _]]]]].
  split; [exact Hgone|]. split; [exact (Hturns 10%nat) | exact (Hparts 1000)].
Defined.

(** X9.  [delete history] answers with the confirmation and removes the
    sender's turns only: the sender's history is empty afterwards, every other
    history is as before, and accounts and continuations are untouched. *)
Theorem delete_history_purges_turns_only :
  forall (env : Env) (config : Config) (phoneNumber message : string) (w : World),
    JsString.trim (JsString.toLowerCase message) = "delete history" ->
    SMSController.processUserMessage env config phoneNumber message w
    = (Ok tt,
       set_replies
         (set_messages w (Message.deleteUserMessages (messages w) phoneNumber))
         (replies w ++ ["Your message history has been deleted."])%list)
    /\ (forall limit,
           Message.getConversationHistory
             (Message.deleteUserMessages (messages w) phoneNumber) phoneNumber limit = [])
    /\ (forall other limit,
           phone_key other <> phone_key phoneNumber ->
           Message.getConversationHistory
             (Message.deleteUserMessages (messages w) phoneNumber) other limit
           = Message.getConversationHistory (messages w) other limit).
Proof.
  intros env config phoneNumber message w Hcmd.
  split; [|exact (history_after_delete (messages w) phoneNumber)].
  unfold SMSController.processUserMessage, try_catch, bind,
    SMSController.handleSpecialCommands.
  rewrite Hcmd. reflexivity.
Qed.

Lemma delete_history_purges_turns_only_witness :
  let result := SMSController.processUserMessage env_down default_config "+15551234567"
                  " DELETE HISTORY" (boot [last_credit] eleven_turns three_continuations 1000) in
  users (snd result) = [last_credit]
  /\ messages (snd result) = []
  /\ remaining (snd result) = three_continuations.
Proof.
  intros result.
  pose proof (proj1 (delete_history_purges_turns_only env_down default_config
                       "+15551234567" " DELETE HISTORY"
                       (boot [last_credit] eleven_turns three_continuations 1000) eq_refl))
    as Hrun.
  unfold result. rewrite Hrun. repeat split.
Defined.

(** ** Continuations: numbering, expiry, sweeping *)

Lemma sort_by_head_max {A} (key : A -> Z) (l : list A) (m : A) :
  hd_error (sort_by (fun a b => key b <=? key a) l) = Some m ->
  In m l /\ Forall (fun x => key x <= key m) l.
Proof.
  revert m. induction l as [|x r IH]; intros m; [discriminate|].
  change (sort_by (fun a b => key b <=? key a) (x :: r))
    with (insert_sorted (fun a b => key b <=? key a) x
            (sort_by (fun a b => key b <=? key a) r)).
  destruct (sort_by (fun a b => key b <=? key a) r) as [|y t] eqn:Hsort.
  - apply sort_by_nil in Hsort. subst r. simpl. intros Hhd. inversion Hhd; subst.
    split; [left; reflexivity|]. constructor; [lia | constructor].
  - destruct (IH y eq_refl) as [Hin Hmax]. simpl.
    destruct (Z.leb_spec (key y) (key x)) as [Hle|Hlt];
      simpl; intros Hhd; inversion Hhd; subst.
    + split; [left; reflexivity|]. constructor; [lia|].
      eapply Forall_impl; [|exact Hmax]. simpl. intros; lia.
    + split; [right; exact Hin|]. constructor; [lia | exact Hmax].
Qed.

Lemma next_index_above (c : RemainingMessage.collection) (phoneNumber : string) :
  (forall m, In m c -> RemainingMessage.phone m = phone_key phoneNumber ->
             RemainingMessage.messageIndex m < next_index c phoneNumber)
  /\ ((forall m, In m c -> RemainingMessage.phone m <> phone_key phoneNumber) ->
      next_index c phoneNumber = 1).
Proof.
  unfold next_index.
  change RemainingMessage.highest_index_first
    with (fun a b : RemainingMessage.doc =>
            RemainingMessage.messageIndex b <=? RemainingMessage.messageIndex a).
  destruct (hd_error _) as [top|] eqn:Hhd.
  - apply sort_by_head_max in Hhd. destruct Hhd as [Hin Hmax]. split.
    + intros m Hm Hphone. rewrite Forall_forall in Hmax.
      assert (Hle : RemainingMessage.messageIndex m <= RemainingMessage.messageIndex top).
      { apply Hmax. apply filter_In. split; [exact Hm|].
        unfold RemainingMessage.of_phone. rewrite Hphone. apply String.eqb_refl. }
      lia.
    + intros Hnone. exfalso. apply filter_In in Hin. destruct Hin as [Hin Hphone].
      apply (Hnone top Hin). apply String.eqb_eq. exact Hphone.
  - split; [|reflexivity].
    intros m Hm Hphone. exfalso.
    destruct (sort_by _ (filter _ c)) as [|y s] eqn:Hsort; [|discriminate].
    apply sort_by_nil in Hsort.
    assert (Hf : In m (filter (RemainingMessage.of_phone phoneNumber) c)).
    { apply filter_In. split; [exact Hm|].
      unfold RemainingMessage.of_phone. rewrite Hphone. apply String.eqb_refl. }
    rewrite Hsort in Hf. exact Hf.
Qed.

Lemma createRemainingMessage_stores (t : Z) (phoneNumber text : string)
      (c : RemainingMessage.collection) :
  phone_key phoneNumber <> EmptyString ->
  JsString.trim text <> EmptyString ->
  RemainingMessage.createRemainingMessage t phoneNumber text None c
  = (Ok (stored_continuation c phoneNumber text t),
     (c ++ [stored_continuation c phoneNumber text t])%list).
Proof.
  intros Hphone Htext.
  unfold RemainingMessage.createRemainingMessage, RemainingMessage.create,
    RemainingMessage.validate.
  fold (next_index c phoneNumber). simpl.
  rewrite (is_empty_false _ Hphone), (is_empty_false _ Htext). simpl.
  rewrite Z.ltb_irrefl. reflexivity.
Qed.

(** X10.  When [createRemainingMessage] succeeds it appends one continuation
    whose content is the trimmed text, whose index is above the index of every
    continuation the account already has (1 when it has none), whose
    [totalParts] equals its index and which expires 24 hours after creation. *)
Theorem createRemainingMessage_numbers_upwards :
  forall (t : Z) (phoneNumber text : string) (c c' : RemainingMessage.collection)
         (d : RemainingMessage.doc),
    RemainingMessage.createRemainingMessage t phoneNumber text None c = (Ok d, c') ->
    c' = (c ++ [d])%list
    /\ RemainingMessage.content d = JsString.trim text
    /\ RemainingMessage.totalParts d = RemainingMessage.messageIndex d
    /\ RemainingMessage.expiresAt d = t + 24 * 60 * 60 * 1000
    /\ (forall m, In m c -> RemainingMessage.phone m = phone_key phoneNumber ->
                  RemainingMessage.messageIndex m < RemainingMessage.messageIndex d)
    /\ ((forall m, In m c -> RemainingMessage.phone m <> phone_key phoneNumber) ->
        RemainingMessage.messageIndex d = 1).
Proof.
  intros t phoneNumber text c c' d.
  unfold RemainingMessage.createRemainingMessage, RemainingMessage.create.
  fold (next_index c phoneNumber).
  destruct (RemainingMessage.validate _); [|discriminate].
  intros Hrun. inversion Hrun; subst. simpl. rewrite Z.ltb_irrefl.
  destruct (next_index_above c phoneNumber) as [Habove Hfirst].
  repeat split; assumption.
Qed.

Lemma createRemainingMessage_numbers_upwards_witness :
  exists d,
    RemainingMessage.createRemainingMessage 1000 "+15551234567" " and so on " None
      three_continuations
    = (Ok d, (three_continuations ++ [d])%list)
    /\ RemainingMessage.messageIndex d = 4
    /\ RemainingMessage.content d = "and so on".
Proof.
  eexists. split; [reflexivity|].
  destruct (createRemainingMessage_numbers_upwards 1000 "+15551234567" " and so on "
              three_continuations _ _ eq_refl) as [_ [Hcontent _]].
  split; [reflexivity | exact Hcontent].
Defined.

(** X11.  A sweep of expired continuations at instant [t] changes no lookup
    made at [t] or later, keeps every continuation that has not expired, and a
    second sweep at [t] removes nothing more. *)
Theorem cleanupExpired_is_invisible :
  forall (t t' : Z) (c : RemainingMessage.collection) (phoneNumber : string),
    t <= t' ->
    RemainingMessage.getLatestRemainingMessage
      t' (RemainingMessage.cleanupExpired t c) phoneNumber
    = RemainingMessage.getLatestRemainingMessage t' c phoneNumber
    /\ RemainingMessage.getUserRemainingMessages
         t' (RemainingMessage.cleanupExpired t c) phoneNumber
       = RemainingMessage.getUserRemainingMessages t' c phoneNumber
    /\ RemainingMessage.cleanupExpired t (RemainingMessage.cleanupExpired t c)
       = RemainingMessage.cleanupExpired t c
    /\ (forall m, In m c -> t <= RemainingMessage.expiresAt m ->
                  In m (RemainingMessage.cleanupExpired t c)).
Proof.
  intros t t' c phoneNumber Hle.
  assert (Hkeep : filter (fun d => RemainingMessage.of_phone phoneNumber d
                                   && RemainingMessage.unexpired t' d)
                         (RemainingMessage.cleanupExpired t c)
                  = filter (fun d => RemainingMessage.of_phone phoneNumber d
                                     && RemainingMessage.unexpired t' d) c).
  { unfold RemainingMessage.cleanupExpired. apply filter_filter_keep.
    intros x Hx. apply andb_true_iff in Hx. destruct Hx as [_ Hlive].
    unfold RemainingMessage.unexpired in Hlive. apply Z.ltb_lt in Hlive.
    apply negb_true_iff. apply Z.ltb_ge. lia. }
  unfold RemainingMessage.getLatestRemainingMessage,
    RemainingMessage.getUserRemainingMessages.
  rewrite Hkeep. split; [reflexivity|]. split; [reflexivity|]. split.
  - unfold RemainingMessage.cleanupExpired. apply filter_filter_keep. tauto.
  - intros m Hin Hlive. unfold RemainingMessage.cleanupExpired.
    apply filter_In. split; [exact Hin|].
    apply negb_true_iff. apply Z.ltb_ge. exact Hlive.
Qed.

Lemma cleanupExpired_is_invisible_witness :
  List.length (RemainingMessage.cleanupExpired 1000 three_continuations) = 2%nat
  /\ RemainingMessage.getLatestRemainingMessage
       2000 (RemainingMessage.cleanupExpired 1000 three_continuations) "+15551234567"
     = RemainingMessage.getLatestRemainingMessage 2000 three_continuations "+15551234567".
Proof.
  split; [reflexivity|].
  apply (cleanupExpired_is_invisible 1000 2000 three_continuations "+15551234567").
  vm_compute. discriminate.
Defined.

Lemma lookup_ignores_expired (c : RemainingMessage.collection) (d : RemainingMessage.doc)
      (phoneNumber : string) (t : Z) :
  RemainingMessage.expiresAt d <= t ->
  RemainingMessage.getLatestRemainingMessage t (c ++ [d])%list phoneNumber
  = RemainingMessage.getLatestRemainingMessage t c phoneNumber.
Proof.
  intros Hdead. unfold RemainingMessage.getLatestRemainingMessage.
  rewrite filter_app. simpl.
  assert (Hd : RemainingMessage.unexpired t d = false)
    by (unfold RemainingMessage.unexpired; apply Z.ltb_ge; exact Hdead).
  rewrite Hd, andb_false_r, app_nil_r. reflexivity.
Qed.

Lemma more_reply (env : Env) (config : Config) (phoneNumber message : string) (w : World) :
  JsString.trim (JsString.toLowerCase message) = "more" ->
  let reply := match RemainingMessage.getLatestRemainingMessage
                       (now w) (remaining w) phoneNumber with
               | Some m => RemainingMessage.content m
               | None => SMSController.nothing_pending
               end in
  SMSController.processUserMessage env config phoneNumber message w
  = if TwilioService.xml_legal reply
    then (Ok tt, set_replies w (replies w ++ [reply])%list)
    else (Throw TwilioService.invalid_character, w).
Proof.
  intros Hmore reply.
  unfold SMSController.processUserMessage, try_catch,
    SMSController.handleSpecialCommands.
  rewrite Hmore. simpl. unfold bind, gets, ret. fold reply.
  destruct (TwilioService.xml_legal reply) eqn:Hlegal.
  - rewrite (sendTwiMLResponse_legal _ _ Hlegal). reflexivity.
  - rewrite (sendTwiMLResponse_refused _ _ Hlegal). reflexivity.
Qed.

(** X12.  Take a reply longer than the limit, for an account whose identifier
    is not blank and whose earlier continuations were all created before now,
    with a remainder that is not blank and, once trimmed, holds no code unit
    forbidden by XML 1.0.  After the reply has been cut, [more] answers with
    the trimmed remainder at any instant before the continuation expires, and
    answers the same again when repeated, since it stores and deletes nothing;
    from the expiry on the lookup no longer sees that continuation. *)
Theorem more_serves_remainder_until_expiry :
  forall (env : Env) (config : Config) (phoneNumber response message : string)
         (w : World),
    maxSmsLength config < Z.of_nat (String.length response) ->
    phone_key phoneNumber <> EmptyString ->
    JsString.trim (JsString.substring1 response (maxSmsLength config - 34))
    <> EmptyString ->
    (forall m, In m (remaining w) ->
               RemainingMessage.phone m = phone_key phoneNumber ->
               RemainingMessage.createdAt m < now w) ->
    TwilioService.xml_legal
      (JsString.trim (JsString.substring1 response (maxSmsLength config - 34))) = true ->
    JsString.trim (JsString.toLowerCase message) = "more" ->
    let part := JsString.trim (JsString.substring1 response (maxSmsLength config - 34)) in
    let w1 := snd (SMSController.handleLongResponse config phoneNumber response w) in
    (forall t,
        now w <= t < now w + RemainingMessage.ttl ->
        let w2 := snd (SMSController.processUserMessage env config phoneNumber message
                         (set_now w1 t)) in
        let w3 := snd (SMSController.processUserMessage env config phoneNumber message w2) in
        replies w2 = (replies w ++ [part])%list
        /\ replies w3 = (replies w ++ [part; part])%list
        /\ remaining w3 = remaining w1)
    /\ (forall t,
           now w + RemainingMessage.ttl <= t ->
           RemainingMessage.getLatestRemainingMessage t (remaining w1) phoneNumber
           = RemainingMessage.getLatestRemainingMessage t (remaining w) phoneNumber).
Proof.
  intros env config phoneNumber response message w Hlong Hphone Hpart Hbefore Hlegal
         Hmore part w1.
  set (d := stored_continuation (remaining w) phoneNumber
              (JsString.substring1 response (maxSmsLength config - 34)) (now w)).
  assert (Hw1 : w1 = set_remaining w (remaining w ++ [d])%list).
  { unfold w1, SMSController.handleLongResponse.
    destruct (Z.leb_spec (Z.of_nat (String.length response)) (maxSmsLength config))
      as [Hle|_]; [lia|].
    unfold bind, on_remaining, ret.
    rewrite (createRemainingMessage_stores _ _ _ _ Hphone Hpart). reflexivity. }
  rewrite Hw1. split.
  - intros t Ht w2 w3.
    assert (Hlookup : RemainingMessage.getLatestRemainingMessage
                        t (remaining w ++ [d])%list phoneNumber = Some d).
    { apply lookup_after_append; simpl; [reflexivity | lia | exact Hbefore]. }
    assert (Hw2 : w2 = set_replies (set_now (set_remaining w (remaining w ++ [d])%list) t)
                                   (replies w ++ [part])%list).
    { unfold w2. rewrite (more_reply env config phoneNumber message _ Hmore).
      simpl. rewrite Hlookup. simpl. rewrite Hlegal. reflexivity. }
    assert (Hw3 : w3 = set_replies w2 (replies w2 ++ [part])%list).
    { unfold w3. rewrite (more_reply env config phoneNumber message _ Hmore).
      rewrite Hw2. simpl. rewrite Hlookup. simpl. rewrite Hlegal. reflexivity. }
    rewrite Hw3, Hw2. simpl. rewrite <- app_assoc. repeat split.
  - intros t Ht. simpl. apply lookup_ignores_expired. simpl. exact Ht.
Qed.

Lemma more_serves_remainder_until_expiry_witness :
  let w1 := snd (SMSController.handleLongResponse default_config "+15551234567"
                   long_reply (boot [] [] [] 0)) in
  replies (snd (SMSController.processUserMessage env_down default_config "+15551234567"
                  "MORE" (set_now w1 5000)))
  = ["and the rest of the answer, which goes on for a while"]
  /\ RemainingMessage.getLatestRemainingMessage
       RemainingMessage.ttl (remaining w1) "+15551234567" = None.
Proof.
  intros w1.
  destruct (more_serves_remainder_until_expiry env_down default_config "+15551234567"
              long_reply "MORE" (boot [] [] [] 0)) as [Hlive Hdead].
  - vm_compute. reflexivity.
  - vm_compute. discriminate.
  - vm_compute. discriminate.
  - intros m [].
  - vm_compute. reflexivity.
  - reflexivity.
  - split.
    + destruct (Hlive 5000) as [Hreply _]; [vm_compute; split; [discriminate | reflexivity]|].
      exact Hreply.
    + transitivity (RemainingMessage.getLatestRemainingMessage
                      RemainingMessage.ttl (remaining (boot [] [] [] 0)) "+15551234567");
        [|reflexivity].
      apply Hdead. vm_compute. discriminate.
Defined.

(** ** Recent messages *)

Lemma insert_sorted_last {A} (before : A -> A -> bool) (x : A) (l : list A) :
  Forall (fun y => before x y = false) l -> insert_sorted before x l = (l ++ [x])%list.
Proof.
  induction 1 as [|y r Hy Hr IH]; simpl; [reflexivity|].
  rewrite Hy, IH. reflexivity.
Qed.

Lemma sort_desc_chronological (l : Message.collection) :
  strictly_chronological l -> sort_by Message.desc l = rev l.
Proof.
  induction 1 as [|x r Hr IH Hx]; [reflexivity|].
  change (sort_by Message.desc (x :: r))
    with (insert_sorted Message.desc x (sort_by Message.desc r)).
  rewrite IH. simpl. apply insert_sorted_last.
  apply Forall_forall. intros y Hy. apply in_rev in Hy.
  rewrite Forall_forall in Hx. specialize (Hx y Hy).
  unfold Message.desc. apply Z.leb_gt. exact Hx.
Qed.

(** X13.  On a collection whose creation times strictly increase along
    insertion order, [getRecentMessages] returns the last [limit] turns of the
    account, newest first. *)
Theorem getRecentMessages_newest_first :
  forall (c : Message.collection) (phoneNumber : string) (limit : nat),
    strictly_chronological c ->
    limit <> 0%nat ->
    Message.getRecentMessages c phoneNumber limit
    = map Message.select (firstn limit (rev (filter (Message.of_phone phoneNumber) c))).
Proof.
  intros c phoneNumber limit Hsorted Hlimit. unfold Message.getRecentMessages.
  rewrite (sort_desc_chronological _ (filter_StronglySorted _ _ _ Hsorted)).
  destruct limit; [congruence | reflexivity].
Qed.

Lemma getRecentMessages_newest_first_witness :
  map Message.row_createdAt (Message.getRecentMessages eleven_turns "+15551234567" 3)
  = [11; 10; 9].
Proof.
  rewrite (getRecentMessages_newest_first eleven_turns "+15551234567" 3).
  - reflexivity.
  - unfold eleven_turns. simpl.
    repeat (constructor; [|repeat (constructor; [reflexivity|]); constructor]).
    constructor.
  - discriminate.
Defined.

(** ** What the provider is sent, and what may be stored of its answer *)

Lemma insert_sorted_before_last (x d : Message.doc) (s : list Message.doc) :
  Message.asc x d = true ->
  insert_sorted Message.asc x (s ++ [d]) = (insert_sorted Message.asc x s ++ [d])%list.
Proof.
  intros Hxd. induction s as [|y r IH]; simpl.
  - rewrite Hxd. reflexivity.
  - destruct (Message.asc x y); [reflexivity|]. rewrite IH. reflexivity.
Qed.

Lemma sort_asc_append (l : list Message.doc) (d : Message.doc) :
  Forall (fun x => Message.createdAt x <= Message.createdAt d) l ->
  sort_by Message.asc (l ++ [d]) = (sort_by Message.asc l ++ [d])%list.
Proof.
  induction 1 as [|x r Hx Hr IH]; [reflexivity|].
  change (sort_by Message.asc ((x :: r) ++ [d]))
    with (insert_sorted Message.asc x (sort_by Message.asc (r ++ [d]))).
  rewrite IH. apply insert_sorted_before_last.
  unfold Message.asc. apply Z.leb_le. exact Hx.
Qed.

Lemma insert_sorted_length {A} (before : A -> A -> bool) (x : A) (l : list A) :
  List.length (insert_sorted before x l) = S (List.length l).
Proof.
  induction l as [|y r IH]; simpl; [reflexivity|].
  destruct (before x y); simpl; [reflexivity | rewrite IH; reflexivity].
Qed.

Lemma sort_by_length {A} (before : A -> A -> bool) (l : list A) :
  List.length (sort_by before l) = List.length l.
Proof.
  induction l as [|x r IH]; [reflexivity|].
  change (sort_by before (x :: r)) with (insert_sorted before x (sort_by before r)).
  rewrite insert_sorted_length, IH. reflexivity.
Qed.

(** X14.  When the user turn is accepted and the account had fewer than ten
    turns, all created before now, every provider call of
    [generateAIResponse] carries the message twice: as its message argument
    and, trimmed, as the last entry of its history, which holds all the
    account's turns. *)
Theorem provider_history_ends_with_message :
  forall (env : Env) (phoneNumber message : string) (w : World),
    phone_key phoneNumber <> EmptyString ->
    JsString.trim message <> EmptyString ->
    (String.length (JsString.trim message) <= 2000)%nat ->
    (forall m, In m (messages w) -> Message.phone m = phone_key phoneNumber ->
               Message.createdAt m < now w) ->
    (List.length (filter (Message.of_phone phoneNumber) (messages w)) < 10)%nat ->
    exists r w' calls,
      SMSController.generateAIResponse env phoneNumber message w = (r, w')
      /\ grok_calls w' = (grok_calls w ++ calls)%list
      /\ calls <> []
      /\ Forall (fun call =>
                   call_message call = message
                   /\ last (call_history call) (mkEntry Message.RoleSystem EmptyString)
                      = mkEntry Message.RoleUser (JsString.trim message)
                   /\ List.length (call_history call)
                      = S (List.length (filter (Message.of_phone phoneNumber)
                                               (messages w))))
                calls.
Proof.
  intros env phoneNumber message w Hphone Hmsg Hlen Hclock Hfew.
  set (userTurn := stored_turn phoneNumber Message.RoleUser message (now w)).
  set (own := filter (Message.of_phone phoneNumber) (messages w)).
  assert (Hhistory :
            Message.getConversationHistory (messages w ++ [userTurn])%list phoneNumber 10
            = (map Message.select (sort_by Message.asc own)
                 ++ [Message.select userTurn])%list).
  { unfold Message.getConversationHistory. rewrite filter_app.
    assert (Hown : Message.of_phone phoneNumber userTurn = true)
      by (unfold Message.of_phone; simpl; apply String.eqb_refl).
    change (filter (Message.of_phone phoneNumber) [userTurn])
      with (if Message.of_phone phoneNumber userTurn then [userTurn] else []).
    rewrite Hown. fold own. rewrite sort_asc_append.
    - unfold limit_. cbv beta iota. rewrite firstn_all2.
      + rewrite map_app. reflexivity.
      + rewrite length_app, sort_by_length. simpl. fold own in Hfew. lia.
    - apply Forall_forall. intros x Hx. apply filter_In in Hx. destruct Hx as [Hin Hx].
      simpl. apply Z.lt_le_incl. apply Hclock; [exact Hin|].
      apply String.eqb_eq. exact Hx. }
  unfold SMSController.generateAIResponse, bind, on_messages, gets, ret.
  rewrite (message_create_ok _ _ _ _ _ Hphone Hmsg Hlen). fold userTurn.
  cbn [messages set_messages]. rewrite Hhistory.
  match goal with
  | |- context [AIRouterService.routeMessage env message ?h no_options ?w1] =>
      destruct (routeMessage_cases env message h no_options w1)
        as [_ [_ [r [calls [Hroute Hcalls]]]]];
      rewrite Hroute; set (call := mkGrokCall message h no_options) in *
  end.
  assert (Hcall : call_message call = message
                  /\ last (call_history call) (mkEntry Message.RoleSystem EmptyString)
                     = mkEntry Message.RoleUser (JsString.trim message)
                  /\ List.length (call_history call) = S (List.length own)).
  { unfold call, SMSController.formatHistory. simpl.
    rewrite map_app. simpl. rewrite last_last.
    rewrite length_app, !length_map, sort_by_length. simpl.
    repeat split. lia. }
  assert (Hall : calls <> [] /\ Forall (fun c => call_message c = message
                   /\ last (call_history c) (mkEntry Message.RoleSystem EmptyString)
                      = mkEntry Message.RoleUser (JsString.trim message)
                   /\ List.length (call_history c) = S (List.length own)) calls).
  { destruct Hcalls as [->| ->]; split; try discriminate; repeat constructor; tauto. }
  destruct r as [text|e].
  - simpl. destruct (Message.create _ _ _ _ _) as [[d|e] ms];
      eexists; eexists; exists calls; (split; [reflexivity|]); simpl;
        (split; [reflexivity | exact Hall]).
  - eexists. eexists. exists calls. split; [reflexivity|]. simpl.
    split; [reflexivity | exact Hall].
Qed.

Lemma provider_history_ends_with_message_witness :
  map call_history
      (grok_calls (snd (SMSController.generateAIResponse env_up "+15551234567"
                          "Good morning" (boot [] [turn 1; turn 2] [] 5))))
  = [[mkEntry Message.RoleUser "turn 1"; mkEntry Message.RoleAssistant "turn 2";
      mkEntry Message.RoleUser "Good morning"]].
Proof.
  destruct (provider_history_ends_with_message env_up "+15551234567" "Good morning"
              (boot [] [turn 1; turn 2] [] 5)) as [r [w' [calls [Hrun _]]]].
  - vm_compute. discriminate.
  - vm_compute. discriminate.
  - vm_compute. lia.
  - intros m [<-|[<-|[]]] _; vm_compute; reflexivity.
  - vm_compute. lia.
  - rewrite Hrun. simpl. vm_compute in Hrun. inversion Hrun. reflexivity.
Defined.

Lemma message_create_rejects (t : Z) (phoneNumber : string) (r : Message.Role)
      (text : string) (c : Message.collection) :
  JsString.trim text = EmptyString \/ (2000 < String.length (JsString.trim text))%nat ->
  exists e,
    Message.create t phoneNumber r text c = (Throw e, c)
    /\ err_class e = ValidationError.
Proof.
  intros Hbad. unfold Message.create, Message.validate, validation_result. simpl.
  destruct Hbad as [Hempty|Hlong].
  - rewrite Hempty. simpl.
    destruct (JsString.is_empty (phone_key phoneNumber)); simpl;
      eexists; split; reflexivity.
  - destruct (JsString.is_empty (JsString.trim text)) eqn:Hempty.
    + destruct (JsString.trim text); [simpl in Hlong; lia | discriminate].
    + destruct (Nat.ltb_spec 2000 (String.length (JsString.trim text))); [|lia].
      destruct (JsString.is_empty (phone_key phoneNumber)); simpl;
        eexists; split; reflexivity.
Qed.

(** X15.  When the provider's answer is blank, or longer than 2000
    characters once trimmed, [generateAIResponse] throws a validation error
    after the provider call: the user turn is stored, no assistant turn is,
    and the answer is lost. *)
Theorem generated_reply_must_fit_schema :
  forall (env : Env) (phoneNumber message text : string) (w : World),
    phone_key phoneNumber <> EmptyString ->
    JsString.trim message <> EmptyString ->
    (String.length (JsString.trim message) <= 2000)%nat ->
    (forall call, grok_post env (List.length (grok_calls w)) call = PostText text) ->
    JsString.trim text = EmptyString \/ (2000 < String.length (JsString.trim text))%nat ->
    exists e call,
      SMSController.generateAIResponse env phoneNumber message w
      = (Throw e,
         set_grok_calls
           (set_messages w (messages w
                              ++ [stored_turn phoneNumber Message.RoleUser message (now w)])%list)
           (grok_calls w ++ [call])%list)
      /\ err_class e = ValidationError
      /\ call_message call = message.
Proof.
  intros env phoneNumber message text w Hphone Hmsg Hlen Hpost Hbad.
  unfold SMSController.generateAIResponse, bind, on_messages, gets, ret.
  rewrite (message_create_ok _ _ _ _ _ Hphone Hmsg Hlen).
  match goal with
  | |- context [AIRouterService.routeMessage env message ?h no_options ?w1] =>
      destruct (routeMessage_cases env message h no_options w1) as [Hsuccess _];
      rewrite (Hsuccess text
                 (selectProvider_without_override message h no_options eq_refl)
                 (f_equal GrokService.getResponse (Hpost _)));
      clear Hsuccess;
      set (call := mkGrokCall message h no_options)
  end.
  cbn [now messages set_messages set_grok_calls].
  match goal with
  | |- context [Message.create ?t phoneNumber Message.RoleAssistant text ?c] =>
      destruct (message_create_rejects t phoneNumber Message.RoleAssistant text c Hbad)
        as [e [Hcreate Hclass]];
      rewrite Hcreate
  end.
  exists e, call. split; [reflexivity|]. split; [exact Hclass | reflexivity].
Qed.

Lemma generated_reply_must_fit_schema_witness :
  let result := SMSController.generateAIResponse env_verbose "+15551234567"
                  "Tell me everything" (boot [] [] [] 0) in
  is_ok (fst result) = false
  /\ map Message.role (messages (snd result)) = [Message.RoleUser].
Proof.
  intros result.
  destruct (generated_reply_must_fit_schema env_verbose "+15551234567"
              "Tell me everything" (JsString.replicate 2001 "a") (boot [] [] [] 0))
    as [e [call [Hrun _]]].
  - vm_compute. discriminate.
  - vm_compute. discriminate.
  - vm_compute. lia.
  - intros call. reflexivity.
  - right. vm_compute. lia.
  - unfold result. rewrite Hrun. split; reflexivity.
Defined.

(** ** Attachments in the pipeline *)

(** X16.  When the attachment cannot be downloaded, is larger than the
    25 MB ceiling or is empty, [handleIncomingSMS] posts nothing for
    transcription and answers with the generic failure text; only the download
    is logged. *)
Theorem unusable_attachment_generic_failure :
  forall (env : Env) (config : Config) (req : Request) (w : World) (audioUrl : string),
    MediaUrl0 req = Some audioUrl ->
    JsString.truthy audioUrl = true ->
    match axios_get env (List.length (downloads w)) audioUrl with
    | Some b => buffer_length b = 0 \/ AudioInboundService.maxAudioSize < buffer_length b
    | None => True
    end ->
    SMSController.handleIncomingSMS env config req w
    = (Ok tt,
       set_replies (set_downloads w (downloads w ++ [audioUrl])%list)
                   (replies w ++ [SMSController.generic_failure])%list).
Proof.
  intros env config req w audioUrl Hurl Htruthy Hget.
  unfold SMSController.handleIncomingSMS, AudioInboundService.handleAudioInbound,
    AudioInboundService.processInboundAudio, try_catch, bind, ret, throw,
    AudioInboundService.downloadAudio, OpenAIService.transcribeAudioBuffer.
  rewrite Hurl, Htruthy. simpl.
  destruct (axios_get env _ _) as [b|]; [|reflexivity].
  destruct (Z.ltb_spec AudioInboundService.maxAudioSize (buffer_length b)) as [Hbig|Hfit].
  - reflexivity.
  - destruct Hget as [Hzero|Hbig]; [|lia]. simpl.
    destruct (Z.ltb_spec AudioInboundService.maxAudioSize (buffer_length b)); [lia|].
    rewrite Hzero. reflexivity.
Qed.

Lemma unusable_attachment_generic_failure_witness :
  SMSController.handleIncomingSMS env_down default_config picture_request (boot [] [] [] 0)
  = (Ok tt,
     set_replies (set_downloads (boot [] [] [] 0)
                                ["https://api.twilio.com/2010-04-01/Media/ME1"])
                 [SMSController.generic_failure]).
Proof.
  apply (unusable_attachment_generic_failure env_down default_config picture_request
           (boot [] [] [] 0) "https://api.twilio.com/2010-04-01/Media/ME1").
  - reflexivity.
  - reflexivity.
  - exact I.
Defined.

(** X17.  When the transcription service answers a posted attachment with
    status 413, [handleIncomingSMS] answers "Your audio is too large. Please
    send a shorter clip."; accounts, turns and continuations are untouched. *)
Theorem refused_clip_too_large_reply :
  forall (env : Env) (config : Config) (req : Request) (w : World) (audioUrl : string)
         (b : Buffer),
    MediaUrl0 req = Some audioUrl ->
    JsString.truthy audioUrl = true ->
    axios_get env (List.length (downloads w)) audioUrl = Some b ->
    0 < buffer_length b <= AudioInboundService.maxAudioSize ->
    (forall call, whisper_post env (List.length (whisper_calls w)) call = PostStatus 413) ->
    SMSController.handleIncomingSMS env config req w
    = (Ok tt,
       set_replies
         (set_whisper_calls
            (set_downloads w (downloads w ++ [audioUrl])%list)
            (whisper_calls w
               ++ [mkWhisperCall (buffer_length b) "audio.wav"
                                 (or_else (MediaContentType0 req) "audio/wav")])%list)
         (replies w ++ ["Your audio is too large. Please send a shorter clip."])%list).
Proof.
  intros env config req w audioUrl b Hurl Htruthy Hget [Hpos Hmax] Hpost.
  unfold SMSController.handleIncomingSMS, AudioInboundService.handleAudioInbound,
    AudioInboundService.processInboundAudio, try_catch, bind, ret, throw,
    AudioInboundService.downloadAudio, OpenAIService.transcribeAudioBuffer.
  rewrite Hurl, Htruthy. simpl. rewrite Hget.
  destruct (Z.ltb_spec AudioInboundService.maxAudioSize (buffer_length b)); [lia|].
  simpl.
  destruct (Z.ltb_spec AudioInboundService.maxAudioSize (buffer_length b)); [lia|].
  destruct (Z.eqb_spec (buffer_length b) 0); [lia|].
  simpl. rewrite Hpost. reflexivity.
Qed.

Lemma refused_clip_too_large_reply_witness :
  replies (snd (SMSController.handleIncomingSMS env_clip_refused default_config
                  voice_request (boot [last_credit] [] [] 0)))
  = ["Your audio is too large. Please send a shorter clip."]
  /\ users (snd (SMSController.handleIncomingSMS env_clip_refused default_config
                   voice_request (boot [last_credit] [] [] 0)))
     = [last_credit].
Proof.
  rewrite (refused_clip_too_large_reply env_clip_refused default_config voice_request
             (boot [last_credit] [] [] 0) "https://api.twilio.com/2010-04-01/Media/ME2"
             (mkBuffer 2048)).
  - split; reflexivity.
  - reflexivity.
  - reflexivity.
  - reflexivity.
  - vm_compute. split; [reflexivity | discriminate].
  - intros call. reflexivity.
Defined.

(** X18.  The text that enters the pipeline.  Without an attachment it is
    the trimmed body, and nothing is downloaded.  With an attachment that is
    transcribed, it is the trimmed body, a space and the trimmed transcript,
    or the transcript alone when the body is blank.  In both cases a failure
    of the processing is answered with the generic failure text. *)
Theorem inbound_text_is_body_and_transcript :
  forall (env : Env) (config : Config) (req : Request) (w : World),
    (MediaUrl0 req = None ->
     JsString.trim (or_else (Body req) EmptyString) <> EmptyString ->
     SMSController.handleIncomingSMS env config req w
     = process_or_apologise env config (From req)
         (JsString.trim (or_else (Body req) EmptyString)) w)
    /\ (forall audioUrl b text,
           MediaUrl0 req = Some audioUrl ->
           JsString.truthy audioUrl = true ->
           axios_get env (List.length (downloads w)) audioUrl = Some b ->
           0 < buffer_length b <= AudioInboundService.maxAudioSize ->
           (forall call,
               whisper_post env (List.length (whisper_calls w)) call = PostText text) ->
           JsString.trim text <> EmptyString ->
           JsString.trim text <> "audio too large" ->
           SMSController.handleIncomingSMS env config req w
           = process_or_apologise env config (From req)
               (merged_text req (JsString.trim text))
               (set_whisper_calls
                  (set_downloads w (downloads w ++ [audioUrl])%list)
                  (whisper_calls w
                     ++ [mkWhisperCall (buffer_length b) "audio.wav"
                                       (or_else (MediaContentType0 req) "audio/wav")])%list)).
Proof.
  intros env config req w. split.
  - intros Hnone Hbody.
    unfold SMSController.handleIncomingSMS, AudioInboundService.handleAudioInbound,
      AudioInboundService.processInboundAudio, process_or_apologise, try_catch, bind, ret.
    rewrite Hnone. simpl. unfold JsString.truthy.
    rewrite (is_empty_false _ Hbody). reflexivity.
  - intros audioUrl b text Hurl Htruthy Hget [Hpos Hmax] Hpost Htext Hsentinel.
    assert (Hnonempty : JsString.truthy text = true).
    { destruct text; [exfalso; apply Htext; reflexivity | reflexivity]. }
    assert (Hmerged : JsString.truthy (merged_text req (JsString.trim text)) = true).
    { unfold merged_text, JsString.truthy.
      destruct (JsString.trim (or_else (Body req) EmptyString)) as [|c r]; simpl.
      - rewrite (is_empty_false _ Htext). reflexivity.
      - reflexivity. }
    unfold SMSController.handleIncomingSMS, AudioInboundService.handleAudioInbound,
      AudioInboundService.processInboundAudio, process_or_apologise, try_catch, bind,
      ret, throw, AudioInboundService.downloadAudio, OpenAIService.transcribeAudioBuffer.
    rewrite Hurl, Htruthy. simpl. rewrite Hget.
    destruct (Z.ltb_spec AudioInboundService.maxAudioSize (buffer_length b)); [lia|].
    simpl.
    destruct (Z.ltb_spec AudioInboundService.maxAudioSize (buffer_length b)); [lia|].
    destruct (Z.eqb_spec (buffer_length b) 0); [lia|].
    simpl. rewrite Hpost, Hnonempty. simpl.
    destruct (String.eqb_spec (JsString.trim text) "audio too large") as [Heq|_];
      [contradiction|].
    assert (Htrim : JsString.truthy (JsString.trim text) = true)
      by (unfold JsString.truthy; rewrite (is_empty_false _ Htext); reflexivity).
    rewrite Htrim. unfold merged_text in *. simpl in Hmerged.
    rewrite Hmerged. reflexivity.
Qed.

Lemma inbound_text_is_body_and_transcript_witness :
  map Message.content
      (messages (snd (SMSController.handleIncomingSMS env_audio default_config
                        voice_request (boot [last_credit] [] [] 0))))
  = ["Listen to this transcribed words"; "Sure."].
Proof.
  destruct (inbound_text_is_body_and_transcript env_audio default_config voice_request
              (boot [last_credit] [] [] 0)) as [_ Hmedia].
  rewrite (Hmedia "https://api.twilio.com/2010-04-01/Media/ME2" (mkBuffer 2048)
             "transcribed words").
  - reflexivity.
  - reflexivity.
  - reflexivity.
  - reflexivity.
  - vm_compute. split; [reflexivity | discriminate].
  - intros call. reflexivity.
  - vm_compute. discriminate.
  - vm_compute. discriminate.
Defined.

(** ** Top-ups and payments *)

Lemma topped_up_valid (u : User.doc) (newBlance t : Z) :
  User.validate u = Ok tt -> 0 <= newBlance ->
  User.validate (topped_up u newBlance t) = Ok tt.
Proof.
  intros Hvalid Hnew. apply validate_ok in Hvalid. destruct Hvalid as [Hphone _].
  apply validate_intro; simpl; [exact Hphone | exact Hnew | lia].
Qed.

Lemma findOneAndUpdate_frame (t : Z) (phoneNumber : string) (newBlance : Z)
      (c : User.collection) :
  map User.phNo (snd (User.findOneAndUpdate t phoneNumber newBlance c)) = map User.phNo c
  /\ (forall other,
         phone_key other <> phone_key phoneNumber ->
         User.findOne (snd (User.findOneAndUpdate t phoneNumber newBlance c)) other
         = User.findOne c other)
  /\ (0 <= newBlance ->
      Forall (fun u => User.validate u = Ok tt) c ->
      Forall (fun u => User.validate u = Ok tt)
             (snd (User.findOneAndUpdate t phoneNumber newBlance c))).
Proof.
  induction c as [|d r IH]; simpl.
  - repeat split. intros _ Hall. exact Hall.
  - destruct IH as [IHkeys [IHother IHvalid]].
    destruct (User.has_phNo phoneNumber d) eqn:Hd.
    + simpl. split; [reflexivity|]. split.
      * intros other Hne. unfold User.findOne. simpl.
        assert (Hother : User.has_phNo other d = false).
        { unfold User.has_phNo in *. apply String.eqb_eq in Hd.
          apply String.eqb_neq. congruence. }
        unfold User.has_phNo in *. simpl. rewrite Hother. reflexivity.
      * intros Hnew Hall. inversion Hall; subst.
        constructor; [|assumption].
        apply (topped_up_valid d newBlance t); assumption.
    + destruct (User.findOneAndUpdate t phoneNumber newBlance r) as [o r'].
      simpl in *. split; [rewrite IHkeys; reflexivity|]. split.
      * intros other Hne. unfold User.findOne in *. simpl.
        destruct (User.has_phNo other d); [reflexivity | exact (IHother other Hne)].
      * intros Hnew Hall. inversion Hall; subst.
        constructor; [assumption | apply IHvalid; assumption].
Qed.

(** The world after a top-up of an existing account, by what [parseInt] reads
    of the credits *)
Lemma addCreditsToUser_world (phoneNumber : string) (credits : JsonValue) (added : Z)
      (w : World) (u : User.doc) :
  JsValue.parseInt credits = Some added ->
  User.findOne (users w) phoneNumber = Some u ->
  PaymentController.addCreditsToUser phoneNumber credits w
  = (Ok (topped_up u (User.blance u + added) (now w)),
     set_outbox
       (set_users w (snd (User.findOneAndUpdate (now w) phoneNumber
                            (User.blance u + added) (users w))))
       (outbox w ++ [(phoneNumber,
                      PaymentController.confirmation_text (User.blance u + added))])%list).
Proof.
  intros Hparse Hfind.
  destruct (findOneAndUpdate_found (now w) phoneNumber (User.blance u + added)
              (users w) u Hfind) as [c' [Hupd _]].
  unfold PaymentController.addCreditsToUser, try_catch, bind, gets, ret,
    PaymentController.sendPaymentConfirmationSMS, modify.
  rewrite Hfind, Hparse, Hupd. reflexivity.
Qed.

(** X19.  A top-up of an existing account returns and stores the account
    with the credits added to its balance and its usage counter at 0, leaves
    every other account, the turns and the continuations alone, and sends one
    confirmation that states the new balance. *)
Theorem top_up_effects :
  forall (phoneNumber : string) (credits : Z) (w : World) (u : User.doc),
    User.findOne (users w) phoneNumber = Some u ->
    let result := PaymentController.addCreditsToUser phoneNumber credits w in
    let u1 := topped_up u (User.blance u + credits) (now w) in
    fst result = Ok u1
    /\ User.findOne (users (snd result)) phoneNumber = Some u1
    /\ User.blance u1 = User.blance u + credits
    /\ User.smsSent u1 = 0
    /\ (forall other,
           phone_key other <> phone_key phoneNumber ->
           User.findOne (users (snd result)) other = User.findOne (users w) other)
    /\ outbox (snd result)
       = (outbox w
            ++ [(phoneNumber,
                 PaymentController.confirmation_text (User.blance u + credits))])%list
    /\ messages (snd result) = messages w
    /\ remaining (snd result) = remaining w.
Proof.
  intros phoneNumber credits w u Hfind result u1.
  unfold result.
  rewrite (addCreditsToUser_world phoneNumber credits credits w u eq_refl Hfind). simpl.
  destruct (findOneAndUpdate_found (now w) phoneNumber (User.blance u + credits)
              (users w) u Hfind) as [c' [Hupd Hfound]].
  destruct (findOneAndUpdate_frame (now w) phoneNumber (User.blance u + credits) (users w))
    as [_ [Hother _]].
  rewrite Hupd in *. simpl in *.
  repeat split; auto.
Qed.

Lemma top_up_effects_witness :
  let result := PaymentController.addCreditsToUser "+15551234567" 50
                  (boot [old_account; trial_account default_config "+15559876543" 7] [] [] 1000) in
  map User.blance (users (snd result)) = [50; 9]
  /\ map User.smsSent (users (snd result)) = [0; 1]
  /\ List.length (outbox (snd result)) = 1%nat.
Proof.
  intros result.
  destruct (top_up_effects "+15551234567" 50
              (boot [old_account; trial_account default_config "+15559876543" 7] [] [] 1000)
              old_account eq_refl) as [_ [_ [_ [_ [_ [Houtbox _]]]]]].
  fold result in Houtbox. rewrite Houtbox. repeat split.
Defined.

Lemma addCreditsToUser_throw_unchanged (phoneNumber : string) (credits : JsonValue)
      (w w' : World) (e : JsError) :
  PaymentController.addCreditsToUser phoneNumber credits w = (Throw e, w') -> w' = w.
Proof.
  destruct (User.findOne (users w) phoneNumber) as [u|] eqn:Hfind;
    destruct (JsValue.parseInt credits) as [added|] eqn:Hparse.
  - rewrite (addCreditsToUser_world phoneNumber credits added w u Hparse Hfind).
    discriminate.
  - unfold PaymentController.addCreditsToUser, try_catch, bind, gets, throw.
    rewrite Hfind, Hparse. intros Hrun. inversion Hrun. reflexivity.
  - unfold PaymentController.addCreditsToUser, try_catch, bind, gets, ret, on_users,
      PaymentController.sendPaymentConfirmationSMS, modify, throw.
    rewrite Hfind, Hparse.
    destruct (User.create _ _ _ _ _) as [[d|e'] c]; [discriminate|].
    intros Hrun. inversion Hrun. reflexivity.
  - unfold PaymentController.addCreditsToUser, try_catch, bind, gets, throw.
    rewrite Hfind, Hparse. intros Hrun. inversion Hrun. reflexivity.
Qed.

Lemma addCreditsToUser_wf (phoneNumber : string) (credits : JsonValue) (w : World) :
  (forall added, JsValue.parseInt credits = Some added -> 0 <= added) ->
  users_wf (users w) ->
  users_wf (users (snd (PaymentController.addCreditsToUser phoneNumber credits w))).
Proof.
  intros Hcredits [Hvalid Hnodup].
  destruct (PaymentController.addCreditsToUser phoneNumber credits w) as [[u1|e] w1]
    eqn:Hrun;
    [|apply addCreditsToUser_throw_unchanged in Hrun; subst w1; split; assumption].
  destruct (JsValue.parseInt credits) as [added|] eqn:Hparse.
  2:{ unfold PaymentController.addCreditsToUser, try_catch, bind, gets, throw in Hrun.
      rewrite Hparse in Hrun.
      destruct (User.findOne (users w) phoneNumber); discriminate Hrun. }
  specialize (Hcredits added eq_refl).
  destruct (User.findOne (users w) phoneNumber) as [u|] eqn:Hfind.
  - rewrite (addCreditsToUser_world phoneNumber credits added w u Hparse Hfind) in Hrun.
    inversion Hrun; subst. simpl.
    destruct (findOneAndUpdate_frame (now w) phoneNumber (User.blance u + added)
                (users w)) as [Hkeys [_ Hkeep]].
    destruct (findOne_some _ _ _ Hfind) as [Hin _].
    rewrite Forall_forall in Hvalid. pose proof (Hvalid u Hin) as Hu.
    apply validate_ok in Hu. destruct Hu as [_ [Hb _]].
    split; [apply Hkeep; [lia | apply Forall_forall; exact Hvalid]|].
    rewrite Hkeys. exact Hnodup.
  - unfold PaymentController.addCreditsToUser, try_catch, bind, gets, ret, on_users,
      PaymentController.sendPaymentConfirmationSMS, modify, throw, User.create in Hrun.
    rewrite Hfind, Hparse in Hrun.
    destruct (User.validate _) as [x|e] eqn:Hval; simpl in Hrun; [|discriminate Hrun].
    rewrite Hfind in Hrun. simpl in Hrun. inversion Hrun; subst. simpl.
    apply validate_unit in Hval. split.
    + apply Forall_app. split; [exact Hvalid | constructor; [exact Hval | constructor]].
    + rewrite map_app. simpl. apply NoDup_app; [exact Hnodup | |].
      * constructor; [intros [] | constructor].
      * intros k Hk [Heq|[]]. subst k. exact (findOne_none _ _ Hfind Hk).
Qed.

(** The ways [processPayment] can end *)
Lemma processPayment_cases :
  forall (api : StripeService.Api) (req : PaymentController.PaymentRequest) (w : World),
    let phone := or_else (PaymentController.phNo req) EmptyString in
    exists resp w',
      PaymentController.processPayment api req w = (Ok resp, w')
      /\ (w' = w
          \/ exists (intentId : string) (credits : JsonValue),
               resp = PaymentController.mkResponse 200
                        (PaymentController.Payment
                           (StripeService.PaymentSucceeded intentId))
               /\ PaymentController.credit req = Some credits
               /\ JsValue.le_zero credits = false
               /\ (forall n, credits = JNumber n -> 0 < n)
               /\ 0 < PaymentController.number_or_zero (PaymentController.totalAmount req)
               /\ w' = snd (PaymentController.addCreditsToUser phone credits w))
      /\ (PaymentController.status_code resp = 200 ->
          forall intentId,
            PaymentController.body resp
            = PaymentController.Payment (StripeService.PaymentSucceeded intentId) ->
            exists credits,
              PaymentController.credit req = Some credits
              /\ w' = snd (PaymentController.addCreditsToUser phone credits w)).
Proof.
  intros api req w phone.
  unfold PaymentController.processPayment, PaymentController.processPayment_body.
  fold phone.
  set (amount := PaymentController.number_or_zero (PaymentController.totalAmount req)).
  destruct (PaymentController.credit req) as [credits|] eqn:Hcredit.
  2:{ eexists. eexists. split; [reflexivity|]. split; [left; reflexivity|].
      simpl. intros Hcode. discriminate Hcode. }
  destruct (negb (JsString.truthy phone) || (amount =? 0) || negb (JsValue.truthy credits))
    eqn:Hmissing.
  { eexists. eexists. split; [reflexivity|]. split; [left; reflexivity|].
    simpl. intros Hcode. discriminate Hcode. }
  destruct (Z.leb_spec amount 0) as [Hamount|Hamount].
  { eexists. eexists. split; [reflexivity|]. split; [left; reflexivity|].
    simpl. intros Hcode. discriminate Hcode. }
  destruct (JsValue.le_zero credits) eqn:Hpositive.
  { eexists. eexists. split; [reflexivity|]. split; [left; reflexivity|].
    simpl. intros Hcode. discriminate Hcode. }
  simpl orb. cbv iota.
  assert (Hwhole : forall n, credits = JNumber n -> 0 < n).
  { intros n Hn. subst credits. simpl in Hpositive. apply Z.leb_gt. exact Hpositive. }
  assert (Hintent :
            forall (obtained : M StripeService.Intent),
              (forall w0, snd (obtained w0) = w0) ->
              exists resp w',
                (let (r, w1) :=
                   bind obtained
                     (fun intent =>
                        bind (if StripeService.success
                                   (StripeService.generatePaymentResponse intent)
                              then bind (PaymentController.addCreditsToUser phone credits)
                                        (fun _ => ret tt)
                              else ret tt)
                             (fun _ => ret (StripeService.generatePaymentResponse intent)))
                     w in
                 match r with
                 | Ok response =>
                     (Ok (PaymentController.mkResponse 200
                            (PaymentController.Payment response)), w1)
                 | Throw error => (Ok (PaymentController.answer_error None error), w1)
                 end) = (Ok resp, w')
                /\ (w' = w
                    \/ exists (intentId : string) (credits0 : JsonValue),
                         resp = PaymentController.mkResponse 200
                                  (PaymentController.Payment
                                     (StripeService.PaymentSucceeded intentId))
                         /\ Some credits = Some credits0
                         /\ JsValue.le_zero credits0 = false
                         /\ (forall n, credits0 = JNumber n -> 0 < n)
                         /\ 0 < amount
                         /\ w' = snd (PaymentController.addCreditsToUser phone credits0 w))
                /\ (PaymentController.status_code resp = 200 ->
                    forall intentId,
                      PaymentController.body resp
                      = PaymentController.Payment
                          (StripeService.PaymentSucceeded intentId) ->
                      exists credits0,
                        Some credits = Some credits0
                        /\ w' = snd (PaymentController.addCreditsToUser phone credits0 w))).
  { intros obtained Hpure. unfold bind, ret.
    pose proof (Hpure w) as Hw. destruct (obtained w) as [[intent|e] w0]; simpl in Hw; subst w0.
    - destruct (StripeService.generatePaymentResponse intent) as [secret|intentId|status]
        eqn:Hresp; simpl.
      + eexists. eexists. split; [reflexivity|]. split; [left; reflexivity|].
        simpl. intros _ intentId Hbody. discriminate Hbody.
      + destruct (PaymentController.addCreditsToUser phone credits w) as [[u|e] w1] eqn:Hadd.
        * eexists. eexists. split; [reflexivity|]. split.
          -- right. exists intentId, credits. rewrite Hadd. repeat split; assumption.
          -- intros _ other _. exists credits. rewrite Hadd. split; reflexivity.
        * apply addCreditsToUser_throw_unchanged in Hadd. subst w1.
          eexists. eexists. split; [reflexivity|]. split; [left; reflexivity|].
          unfold PaymentController.answer_error.
          destruct (err_class e); simpl; intros Hcode; discriminate Hcode.
      + eexists. eexists. split; [reflexivity|]. split; [left; reflexivity|].
        simpl. intros _ intentId Hbody. discriminate Hbody.
    - eexists. eexists. split; [reflexivity|]. split; [left; reflexivity|].
      unfold PaymentController.answer_error.
      destruct (err_class e); simpl; intros Hcode; discriminate Hcode. }
  destruct (JsString.truthy (or_else (PaymentController.payment_method_id req) EmptyString)).
  - apply Hintent. intros w0.
    destruct (StripeService.createOrRetrieveCustomer api phone _); reflexivity.
  - destruct (JsString.truthy
                (or_else (PaymentController.payment_intent_id req) EmptyString)).
    + apply Hintent. intros w0. reflexivity.
    + apply Hintent. intros w0. reflexivity.
Qed.

(** X20.  [processPayment] always answers.  The world changes only when the
    answer is 200 with a succeeded payment, and then by the top-up of the
    field [credit], which passed the test [credit <= 0] (so it is positive
    when it is a whole number), for a positive amount; and every such answer
    comes with that top-up. *)
Theorem processPayment_credits_only_on_success :
  forall (api : StripeService.Api) (req : PaymentController.PaymentRequest) (w : World),
    let phone := or_else (PaymentController.phNo req) EmptyString in
    exists resp w',
      PaymentController.processPayment api req w = (Ok resp, w')
      /\ (w' = w
          \/ exists (intentId : string) (credits : JsonValue),
               resp = PaymentController.mkResponse 200
                        (PaymentController.Payment
                           (StripeService.PaymentSucceeded intentId))
               /\ PaymentController.credit req = Some credits
               /\ JsValue.le_zero credits = false
               /\ (forall n, credits = JNumber n -> 0 < n)
               /\ 0 < PaymentController.number_or_zero (PaymentController.totalAmount req)
               /\ w' = snd (PaymentController.addCreditsToUser phone credits w))
      /\ (PaymentController.status_code resp = 200 ->
          forall intentId,
            PaymentController.body resp
            = PaymentController.Payment (StripeService.PaymentSucceeded intentId) ->
            exists credits,
              PaymentController.credit req = Some credits
              /\ w' = snd (PaymentController.addCreditsToUser phone credits w)).
Proof. exact processPayment_cases. Qed.

Lemma processPayment_credits_only_on_success_witness :
  map User.blance
      (users (snd (PaymentController.processPayment stripe_settles purchase
                     (boot [old_account] [] [] 1000))))
  = [50]
  /\ snd (PaymentController.processPayment stripe_asks purchase
            (boot [old_account] [] [] 1000))
     = boot [old_account] [] [] 1000.
Proof.
  split; [reflexivity|].
  destruct (processPayment_credits_only_on_success stripe_asks purchase
              (boot [old_account] [] [] 1000)) as [resp [w' [Hrun [Hcases _]]]].
  rewrite Hrun. simpl.
  destruct Hcases as [Hsame|[intentId [credits [Hresp _]]]]; [exact Hsame|].
  vm_compute in Hrun. rewrite Hresp in Hrun. discriminate Hrun.
Defined.

(** X21.  If every stored account satisfies the schema validators and no two
    share a phone number, the same holds after [processPayment], provided the
    field [credit] is not a string that [parseInt] reads as a negative number
    (a whole number, or a string such as ["50"], is fine). *)
Theorem processPayment_keeps_users_wf :
  forall (api : StripeService.Api) (req : PaymentController.PaymentRequest) (w : World),
    users_wf (users w) ->
    (forall s added,
        PaymentController.credit req = Some (JString s) ->
        JsValue.parseInt (JString s) = Some added -> 0 <= added) ->
    users_wf (users (snd (PaymentController.processPayment api req w))).
Proof.
  intros api req w Hwf Hstring.
  destruct (processPayment_cases api req w)
    as [resp [w' [Hrun [Hcases _]]]].
  rewrite Hrun. simpl.
  destruct Hcases as [->|[intentId [credits [_ [Hcredit [_ [Hwhole [_ ->]]]]]]]];
    [exact Hwf|].
  apply addCreditsToUser_wf; [|exact Hwf].
  intros added Hparse. destruct credits as [n|s].
  - simpl in Hparse. inversion Hparse; subst. specialize (Hwhole added eq_refl). lia.
  - exact (Hstring s added Hcredit Hparse).
Qed.

Lemma processPayment_keeps_users_wf_witness :
  users_wf (users (snd (PaymentController.processPayment stripe_settles quoted_purchase
                          (boot [old_account] [] [] 1000)))).
Proof.
  apply processPayment_keeps_users_wf.
  - split; [repeat constructor | repeat constructor; simpl; tauto].
  - intros s added Hcredit Hparse. simpl in Hcredit. inversion Hcredit; subst s.
    vm_compute in Hparse. inversion Hparse. lia.
Defined.

(** X22.  [checkBalance] changes nothing.  For an existing account it
    answers 200 with the balance, the usage counter, the credit status and the
    remaining credits; the status is ["exhausted"] exactly when an admission
    call for that account is refused, and the remaining credits equal the
    balance when that is not negative. *)
Theorem checkBalance_reports_admission_state :
  forall (config : Config) (req : PaymentController.PaymentRequest) (w : World),
    snd (PaymentController.checkBalance req w) = w
    /\ (forall (phone : string) (u : User.doc),
           PaymentController.phNo req = Some phone ->
           JsString.truthy phone = true ->
           User.findOne (users w) phone = Some u ->
           fst (PaymentController.checkBalance req w)
           = Ok (PaymentController.mkResponse 200
                   (PaymentController.BalanceData
                      (User.phNo u) (User.blance u) (User.smsSent u)
                      (User.creditStatus u) (User.remainingCredits u)))
           /\ (User.creditStatus u = "exhausted" <->
               SMSController.manageUserCredits config phone w = (Ok None, w))
           /\ (0 <= User.blance u -> User.remainingCredits u = User.blance u)).
Proof.
  intros config req w. split.
  - unfold PaymentController.checkBalance.
    destruct (negb _); [reflexivity|].
    destruct (User.findOne _ _); reflexivity.
  - intros phone u Hphone Htruthy Hfind.
    assert (Hor : or_else (PaymentController.phNo req) EmptyString = phone)
      by (unfold or_else; rewrite Hphone, Htruthy; reflexivity).
    split.
    { unfold PaymentController.checkBalance. rewrite Hor, Htruthy. simpl.
      rewrite Hfind. reflexivity. }
    split.
    + unfold User.creditStatus. split.
      * intros Hstatus. apply (manageUserCredits_blocked config phone w u Hfind).
        destruct (Z.leb_spec (User.blance u) 0) as [Hle|Hgt]; [exact Hle|].
        destruct (User.blance u <=? 2); [discriminate|].
        destruct (User.blance u <=? 10); discriminate.
      * unfold SMSController.manageUserCredits, bind, gets, ret. rewrite Hfind.
        destruct (User.blance u <=? 0); [reflexivity|].
        unfold on_users. destruct (User.save _ _ _) as [[saved|e] c]; discriminate.
    + intros Hb. unfold User.remainingCredits. lia.
Qed.

Lemma checkBalance_reports_admission_state_witness :
  fst (PaymentController.checkBalance purchase (boot [old_account] [] [] 1000))
  = Ok (PaymentController.mkResponse 200
          (PaymentController.BalanceData "+15551234567" 0 9 "exhausted" 0)).
Proof.
  exact (proj1 (proj2 (checkBalance_reports_admission_state default_config purchase
                         (boot [old_account] [] [] 1000))
                      "+15551234567" old_account eq_refl eq_refl eq_refl)).
Defined.

(** X26.  When [processPayment] answers with a succeeded payment for a
    request whose field [credit] is a string, the string passed the test
    [credit <= 0] as a number, and the account found is stored with its
    balance raised by what [parseInt] reads of the string.  The two readings
    differ: a string such as ["-5abc"] is no number, so it passes the test, and
    [parseInt] reads -5.  A balance that falls below zero in this way is
    stored all the same, since the update runs no validator, and the stored
    accounts no longer satisfy the schema. *)
Theorem processPayment_adds_what_parseInt_reads :
  forall (api : StripeService.Api) (req : PaymentController.PaymentRequest)
         (w w' : World) (s intentId : string) (added : Z) (u : User.doc),
    let phone := or_else (PaymentController.phNo req) EmptyString in
    PaymentController.credit req = Some (JString s) ->
    JsValue.parseInt (JString s) = Some added ->
    User.findOne (users w) phone = Some u ->
    PaymentController.processPayment api req w
    = (Ok (PaymentController.mkResponse 200
             (PaymentController.Payment (StripeService.PaymentSucceeded intentId))), w') ->
    JsValue.le_zero (JString s) = false
    /\ User.findOne (users w') phone
       = Some (topped_up u (User.blance u + added) (now w))
    /\ (User.blance u + added < 0 -> ~ users_wf (users w')).
Proof.
  intros api req w w' s intentId added u phone Hcredit Hparse Hfind Hrun.
  destruct (processPayment_cases api req w) as [resp [w1 [Hrun1 [Hcases Hsuccess]]]].
  rewrite Hrun in Hrun1. inversion Hrun1; subst resp w1. clear Hrun1.
  destruct (Hsuccess eq_refl intentId eq_refl) as [credits [Hcredit1 Hworld]].
  rewrite Hcredit in Hcredit1. inversion Hcredit1; subst credits. clear Hcredit1.
  fold phone in Hworld, Hcases.
  rewrite (addCreditsToUser_world phone (JString s) added w u Hparse Hfind) in Hworld.
  simpl in Hworld.
  destruct (findOneAndUpdate_found (now w) phone (User.blance u + added) (users w) u Hfind)
    as [c' [Hupd Hfound]].
  rewrite Hupd in Hworld. simpl in Hworld.
  assert (Hstored : User.findOne (users w') phone
                    = Some (topped_up u (User.blance u + added) (now w)))
    by (rewrite Hworld; exact Hfound).
  split.
  - destruct Hcases as [Hsame|[i [credits [_ [Hcredit1 [Hpositive _]]]]]].
    + exfalso. rewrite Hsame in Hworld. apply (f_equal outbox) in Hworld.
      simpl in Hworld. symmetry in Hworld.
      apply app_changes in Hworld; [exact Hworld | discriminate].
    + rewrite Hcredit in Hcredit1. inversion Hcredit1; subst credits. exact Hpositive.
  - split; [exact Hstored|].
    intros Hnegative [Hvalid _].
    destruct (findOne_some _ _ _ Hstored) as [Hin _].
    rewrite Forall_forall in Hvalid. apply Hvalid in Hin.
    apply validate_ok in Hin. simpl in Hin. lia.
Qed.

Lemma processPayment_adds_what_parseInt_reads_witness :
  map User.blance
      (users (snd (PaymentController.processPayment stripe_settles crafted_purchase
                     (boot [old_account] [] [] 1000))))
  = [-5]
  /\ ~ users_wf (users (snd (PaymentController.processPayment stripe_settles
                               crafted_purchase (boot [old_account] [] [] 1000)))).
Proof.
  split; [reflexivity|].
  destruct (processPayment_adds_what_parseInt_reads stripe_settles crafted_purchase
              (boot [old_account] [] [] 1000)
              (snd (PaymentController.processPayment stripe_settles crafted_purchase
                      (boot [old_account] [] [] 1000)))
              "-5abc" "pi_1" (-5) old_account eq_refl eq_refl eq_refl eq_refl)
    as [_ [_ Hbroken]].
  apply Hbroken. vm_compute. reflexivity.
Defined.

(** ** Top-up, then the welcome notification *)






(** ** Transcription requests *)

(** X23.  [transcribeAudio] either fails without posting anything and
    without changing the world, or was given a buffer that is not empty and
    not above 25 MB and posted exactly one request for it. *)
Theorem transcribeAudio_posts_only_sound_buffers :
  forall (env : Env) (source : OpenAIService.AudioSource) (filename mime : string)
         (w : World),
    let result := OpenAIService.transcribeAudio env source filename mime w in
    (is_ok (fst result) = false /\ snd result = w)
    \/ exists b,
         source = OpenAIService.SourceBuffer b
         /\ buffer_length b <> 0
         /\ buffer_length b <= 25 * 1024 * 1024
         /\ snd result
            = set_whisper_calls w
                (whisper_calls w ++ [mkWhisperCall (buffer_length b) filename mime])%list.
Proof.
  intros env source filename mime w.
  unfold OpenAIService.transcribeAudio, try_catch, throw,
    OpenAIService.transcribeAudioBuffer.
  destruct source as [b|path|]; [|left; split; reflexivity|left; split; reflexivity].
  destruct (Z.ltb_spec (25 * 1024 * 1024) (buffer_length b)) as [Hbig|Hfit];
    [left; split; reflexivity|].
  destruct (Z.eqb_spec (buffer_length b) 0) as [Hzero|Hnonzero];
    [left; split; reflexivity|].
  right. exists b. split; [reflexivity|]. split; [exact Hnonzero|].
  split; [exact Hfit|].
  destruct (whisper_post env _ _) as [text| |status| |]; simpl;
    try destruct (JsString.truthy text); reflexivity.
Qed.

(** ** Finding or creating an account *)

(** X24.  When [findOrCreate] succeeds, the account it returns is the one a
    lookup finds afterwards, and a second call, whatever credits it offers,
    returns the same account and stores nothing.  The account is the stored
    one when there was one, else a new one with the offered credits and a
    usage counter of 0. *)
Theorem findOrCreate_idempotent :
  forall (t t' : Z) (phoneNumber : string) (credits credits' : Z)
         (c c1 : User.collection) (u : User.doc),
    User.findOrCreate t phoneNumber credits c = (Ok u, c1) ->
    User.findOrCreate t' phoneNumber credits' c1 = (Ok u, c1)
    /\ User.findOne c1 phoneNumber = Some u
    /\ (User.findOne c phoneNumber = Some u /\ c1 = c
        \/ User.findOne c phoneNumber = None
           /\ c1 = (c ++ [u])%list
           /\ User.blance u = credits
           /\ User.smsSent u = 0).
Proof.
  intros t t' phoneNumber credits credits' c c1 u. unfold User.findOrCreate.
  destruct (User.findOne c phoneNumber) as [x|] eqn:Hfind.
  - intros Hrun. inversion Hrun; subst. rewrite Hfind.
    split; [reflexivity|]. split; [reflexivity|]. left. split; reflexivity.
  - unfold User.create. destruct (User.validate _); [|discriminate].
    rewrite Hfind. intros Hrun. inversion Hrun; subst. clear Hrun.
    assert (Hnew : User.findOne
                     (c ++ [{| User.phNo := phone_key phoneNumber;
                               User.blance := credits;
                               User.smsSent := 0;
                               User.isActive := true;
                               User.lastActivity := t;
                               User.createdAt := t;
                               User.updatedAt := t |}])%list phoneNumber
                   = Some {| User.phNo := phone_key phoneNumber;
                             User.blance := credits;
                             User.smsSent := 0;
                             User.isActive := true;
                             User.lastActivity := t;
                             User.createdAt := t;
                             User.updatedAt := t |}).
    { unfold User.findOne in *. rewrite find_app, Hfind. simpl.
      rewrite has_phNo_key; reflexivity. }
    rewrite Hnew. split; [reflexivity|]. split; [reflexivity|].
    right. repeat split.
Qed.

Lemma findOrCreate_idempotent_witness :
  User.findOrCreate 2000 "+15551234567" 99 [last_credit] = (Ok last_credit, [last_credit]).
Proof.
  exact (proj1 (findOrCreate_idempotent 1000 2000 "+15551234567" 5 99
                  [last_credit] [last_credit] last_credit eq_refl)).
Defined.
